(** * HealthLogApp: the daily-log state and synchronisation engine

    A shallow embedding of [src/context/AppContext.tsx] (the provider that
    owns today's record, its mutators, the settings updates and the two
    aggregate queries) and of the legacy types module that is appended to
    [src/context/AuthContext.tsx].

    Modelling conventions.
    - In the embedding of the provider as a whole a JavaScript [number]
      is an exact rational ([Q]) and numeric equality ([===] on numbers)
      is [Qeq].  The code that accumulates sums ([addMacro] and the
      reduce of [getSevenDayAverages]) is embedded a second time over
      IEEE 754 doubles (module [Ieee]), and what is proved about
      accumulated sums is proved there.
    - [T | null] is [option T].
    - A [Date] object is seen through the accessors the code calls on it
      (local calendar fields and [toISOString]).
    - An object literal handed to the remote store is a finite map from
      column names to values.
    - Every call on the Supabase client is appended to an I/O trace; what
      the remote side answers is an argument of the operation. *)

From Stdlib Require Import ZArith QArith List String Ascii Bool Lia.
From Stdlib Require Import DecimalString DecimalZ Sorted Permutation.
From Stdlib Require Import Qround Lqa.
From Stdlib Require Import Floats.

(** A decimal literal of a [float] denotes the nearest double, as in the
    source. *)
Set Warnings "-inexact-float".
From stdpp Require Import base gmap strings.

Local Open Scope Z_scope.
Local Open Scope string_scope.

(** ** JavaScript primitives used by the source *)

Module Js.

(** [String(n)] for an integer-valued number. *)
Definition numToString (n : Z) : string :=
  NilEmpty.string_of_int (Z.to_int n).

(** [s.padStart(targetLength, c)] for a one-character pad string. *)
Definition padStart (targetLength : nat) (c : ascii) (s : string) : string :=
  string_of_list_ascii (repeat c (targetLength - String.length s)) ++ s.

(** A [Date] object, observed through its accessors.  The calendar
    accessors are the timezone-local ones. *)
Record Date : Type := mkDate {
  getFullYear : Z;
  getMonth : Z;          (* 0 .. 11 *)
  getDate : Z;           (* 1 .. 31 *)
  getHours : Z;
  getMinutes : Z;
  getSeconds : Z;
  getMilliseconds : Z;
  toISOString : string
}.

(** The ranges the calendar accessors of a valid [Date] stay in. *)
Definition validDate (d : Date) : Prop :=
  0 <= getMonth d <= 11 /\ 1 <= getDate d <= 31.

(** Two dates fall in the same local calendar day. *)
Definition sameLocalDay (d1 d2 : Date) : Prop :=
  getFullYear d1 = getFullYear d2 /\
  getMonth d1 = getMonth d2 /\
  getDate d1 = getDate d2.

(** [a || b] on a nullable number: [null], [0] (and [NaN]) are falsy. *)
Definition orZero (x : option Q) : Q :=
  match x with
  | Some q => q
  | None => 0%Q
  end.

End Js.

(** ** The legacy types module (appended to AuthContext.tsx) *)

Inductive Rating : Type := R1 | R2 | R3 | R4 | R5.

Module Types.

Record DailyLog : Type := mkDailyLog {
  date : string;
  proteinGrams : Q;
  carbsGrams : Q;
  fatGrams : Q;
  sleepHours : option Q;
  weightLbs : option Q;
  isPeriodDay : option bool;       (* boolean | null *)
  steps : Q;
  energyRating : option Rating;
  hungerRating : option Rating;
  motivationRating : option Rating;
  createdAt : string;
  updatedAt : string
}.

Definition getLocalDateString (d : Js.Date) : string :=
  let year := Js.getFullYear d in
  let month := Js.padStart 2 "0" (Js.numToString (Js.getMonth d + 1)) in
  let day := Js.padStart 2 "0" (Js.numToString (Js.getDate d)) in
  Js.numToString year ++ "-" ++ month ++ "-" ++ day.

(** [date] is the argument, [clock] the [new Date()] read inside. *)
Definition createEmptyDailyLog (d clock : Js.Date) : DailyLog :=
  let dateString := getLocalDateString d in
  let now := Js.toISOString clock in
  {| date := dateString;
     proteinGrams := 0;
     carbsGrams := 0;
     fatGrams := 0;
     sleepHours := None;
     weightLbs := None;
     isPeriodDay := None;
     steps := 0;
     energyRating := None;
     hungerRating := None;
     motivationRating := None;
     createdAt := now;
     updatedAt := now |}.

Definition calculateCalories (protein carbs fat : Q) : Q :=
  ((protein * 4) + (carbs * 4) + (fat * 9))%Q.

End Types.

(** ** AppContext.tsx: types and pure helpers *)

Module AppContext.

Import Js.

Inductive CyclePhase : Type := menstrual | follicular | ovulation | luteal.

Record CycleInfo : Type := mkCycleInfo {
  phase : CyclePhase;
  cycleDay : Q;
  nextPeriodIn : Q
}.

Record DailyLog : Type := mkDailyLog {
  date : string;
  proteinGrams : Q;
  carbsGrams : Q;
  fatGrams : Q;
  totalCalories : Q;
  sleepHours : option Q;
  weightLbs : option Q;
  isPeriodDay : bool;              (* boolean: no null here *)
  steps : Q;
  energyRating : option Rating;
  hungerRating : option Rating;
  motivationRating : option Rating;
  createdAt : string;
  updatedAt : string
}.

Record UserGoals : Type := mkUserGoals {
  caloriesGoal : Q;
  proteinGoal : Q;
  carbsGoal : Q;
  fatGoal : Q;
  stepsGoal : Q;
  sleepGoal : Q
}.

Definition DEFAULT_GOALS : UserGoals :=
  {| caloriesGoal := 2000;
     proteinGoal := 120;
     carbsGoal := 250;
     fatGoal := 65;
     stepsGoal := 10000;
     sleepGoal := 8 |}.

Definition getLocalDateString (d : Date) : string :=
  let year := getFullYear d in
  let month := padStart 2 "0" (numToString (getMonth d + 1)) in
  let day := padStart 2 "0" (numToString (getDate d)) in
  numToString year ++ "-" ++ month ++ "-" ++ day.

(** [clock] is what [new Date()] returns when the function runs. *)
Definition createEmptyDailyLog (d clock : Date) : DailyLog :=
  let dateString := getLocalDateString d in
  let now := toISOString clock in
  {| date := dateString;
     proteinGrams := 0;
     carbsGrams := 0;
     fatGrams := 0;
     totalCalories := 0;
     sleepHours := None;
     weightLbs := None;
     isPeriodDay := false;
     steps := 0;
     energyRating := None;
     hungerRating := None;
     motivationRating := None;
     createdAt := now;
     updatedAt := now |}.

Record UserProfile : Type := mkUserProfile {
  age : option Q;
  heightFeet : option Q;
  heightInches : option Q
}.

Record CycleSettings : Type := mkCycleSettings {
  cycleLength : Q;
  averagePeriodDays : Q;
  lastPeriodStartDate : option string
}.

(** [{ date: "MM/DD", weight }]; [weight] carries the column as read. *)
Record WeightDataPoint : Type := mkWeightDataPoint {
  point_date : string;
  point_weight : option Q
}.

Record SevenDayAverages : Type := mkSevenDayAverages {
  avg_calories : option Q;
  avg_protein : option Q;
  avg_steps : option Q;
  avg_sleep : option Q
}.

Definition calculateCalories (protein carbs fat : Q) : Q :=
  ((protein * 4) + (carbs * 4) + (fat * 9))%Q.

Definition getTodayString (clock : Date) : string :=
  getLocalDateString clock.

(** [logDate !== getTodayString()] *)
Definition isLogStale (clock : Date) (logDate : string) : bool :=
  negb (String.eqb logDate (getTodayString clock)).

(** Database rows (snake_case) and their conversion. *)
Record DbDailyLog : Type := mkDbDailyLog {
  log_date : string;
  protein_grams : Q;
  carbs_grams : Q;
  fat_grams : Q;
  total_calories : Q;
  sleep_hours : option Q;
  weight_lbs : option Q;
  is_period_day : bool;
  db_steps : Q;
  energy_rating : option Rating;
  hunger_rating : option Rating;
  motivation_rating : option Rating;
  created_at : string;
  updated_at : string
}.

Definition dbToApp (row : DbDailyLog) : DailyLog :=
  {| date := log_date row;
     proteinGrams := protein_grams row;
     carbsGrams := carbs_grams row;
     fatGrams := fat_grams row;
     totalCalories := total_calories row;
     sleepHours := sleep_hours row;
     weightLbs := weight_lbs row;
     isPeriodDay := is_period_day row;
     steps := db_steps row;
     energyRating := energy_rating row;
     hungerRating := hunger_rating row;
     motivationRating := motivation_rating row;
     createdAt := created_at row;
     updatedAt := updated_at row |}.

Record DbUserGoals : Type := mkDbUserGoals {
  calories_goal : Q;
  protein_goal : Q;
  carbs_goal : Q;
  fat_goal : Q;
  steps_goal : Q;
  sleep_goal : Q
}.

Definition dbGoalsToApp (row : DbUserGoals) : UserGoals :=
  {| caloriesGoal := calories_goal row;
     proteinGoal := protein_goal row;
     carbsGoal := carbs_goal row;
     fatGoal := fat_goal row;
     stepsGoal := steps_goal row;
     sleepGoal := sleep_goal row |}.

(** The columns [loadData] selects from [profiles]. *)
Record DbProfile : Type := mkDbProfile {
  db_age : option Q;
  height_feet : option Q;
  height_inches : option Q;
  cycle_length_days : option Q;
  period_length_days : option Q;
  last_period_start : option string
}.

(** *** The remote store and the provider's state *)

(** A value in an object handed to (or a row kept by) the remote store. *)
Inductive Value : Type :=
| VNull
| VBool (b : bool)
| VNum (q : Q)
| VStr (s : string).

Definition ofNullableNum (x : option Q) : Value :=
  match x with
  | Some q => VNum q
  | None => VNull
  end.

Definition ratingNumber (r : Rating) : Q :=
  match r with
  | R1 => 1
  | R2 => 2
  | R3 => 3
  | R4 => 4
  | R5 => 5
  end.

Definition ofNullableRating (x : option Rating) : Value :=
  match x with
  | Some r => VNum (ratingNumber r)
  | None => VNull
  end.

(** A nullable numeric column of a stored row. *)
Definition numCol (row : gmap string Value) (col : string) : option Q :=
  match row !! col with
  | Some (VNum q) => Some q
  | _ => None
  end.

Definition Error : Type := string.

(** How an [async] function settles. *)
Inductive Outcome (A : Type) : Type :=
| Resolved (a : A)
| Rejected (e : Error).
Arguments Resolved {A} a.
Arguments Rejected {A} e.

Record User : Type := mkUser { id : string }.

(** The calls the provider makes on the Supabase client. *)
Inductive Call : Type :=
| SelectDailyLog (user_id logDate : string)
| SelectUserGoals (user_id : string)
| SelectProfile (user_id : string)
| UpsertDailyLog (payload : gmap string Value)
| UpdateUserGoals (user_id : string) (payload : gmap string Value)
| UpdateProfiles (user_id : string) (payload : gmap string Value)
| SelectWeights (user_id startDate : string)
| SelectAverages (user_id startDate : string).

(** An upsert on [daily_logs] that was issued and has not settled;
    the conflict target is [(user_id, log_date)]. *)
Record Upsert : Type := mkUpsert {
  up_user : string;
  up_date : string;
  up_payload : gmap string Value
}.

(** What the hooks of [AppProvider] hold ([user] comes from [useAuth]). *)
Record State : Type := mkState {
  user : option User;
  todayLog : DailyLog;
  goals : UserGoals;
  profile : UserProfile;
  cycleSettings : CycleSettings;
  isLoading : bool
}.

(** The provider together with its environment: the trace of remote
    calls, the writes in flight, and the remote table [daily_logs].  A
    row of the table is found under its [(user_id, log_date)], the
    conflict target of the upsert, and maps column names to values. *)
Record World : Type := mkWorld {
  app : State;
  io : list Call;
  inflight : list Upsert;
  daily_logs : gmap (string * string) (gmap string Value)
}.

Definition withApp (f : State -> State) (w : World) : World :=
  mkWorld (f (app w)) (io w) (inflight w) (daily_logs w).

Definition call (c : Call) (w : World) : World :=
  mkWorld (app w) (io w ++ c :: nil) (inflight w) (daily_logs w).

Definition setTodayLog (l : DailyLog) : World -> World :=
  withApp (fun s => mkState (user s) l (goals s) (profile s) (cycleSettings s) (isLoading s)).

Definition setGoals (g : UserGoals) : World -> World :=
  withApp (fun s => mkState (user s) (todayLog s) g (profile s) (cycleSettings s) (isLoading s)).

Definition setProfile (p : UserProfile) : World -> World :=
  withApp (fun s => mkState (user s) (todayLog s) (goals s) p (cycleSettings s) (isLoading s)).

Definition setCycleSettings (c : CycleSettings) : World -> World :=
  withApp (fun s => mkState (user s) (todayLog s) (goals s) (profile s) c (isLoading s)).

Definition setIsLoading (b : bool) : World -> World :=
  withApp (fun s => mkState (user s) (todayLog s) (goals s) (profile s) (cycleSettings s) b).

(** The provider as first rendered, before any effect has run. *)
Definition initialState (u : option User) (clock : Date) : State :=
  {| user := u;
     todayLog := createEmptyDailyLog clock clock;
     goals := DEFAULT_GOALS;
     profile := {| age := None; heightFeet := None; heightInches := None |};
     cycleSettings := {| cycleLength := 28; averagePeriodDays := 5;
                         lastPeriodStartDate := None |};
     isLoading := true |}.

Definition initialWorld (u : option User) (clock : Date)
    (table : gmap (string * string) (gmap string Value)) : World :=
  mkWorld (initialState u clock) nil nil table.

(** [x || d] on a nullable number. *)
Definition orElse (x : option Q) (d : Q) : Q :=
  match x with
  | Some q => if Qeq_bool q 0 then d else q
  | None => d
  end.

(** *** loadData and the day-change check *)

(** [logData], [goalsData], [profileData] are the [data] members of the
    three answers; they are only looked at when a user is signed in. *)
Definition loadData (clock : Date)
    (logData : option DbDailyLog) (goalsData : option DbUserGoals)
    (profileData : option DbProfile) (w : World) : World :=
  match user (app w) with
  | None =>
      setIsLoading false
        (setGoals DEFAULT_GOALS
          (setTodayLog (createEmptyDailyLog clock clock) w))
  | Some u =>
      let w := setIsLoading true w in
      let today := getTodayString clock in
      let w := call (SelectDailyLog (id u) today) w in
      let w :=
        match logData with
        | Some row => setTodayLog (dbToApp row) w
        | None => setTodayLog (createEmptyDailyLog clock clock) w
        end in
      let w := call (SelectUserGoals (id u)) w in
      let w :=
        match goalsData with
        | Some row => setGoals (dbGoalsToApp row) w
        | None => w
        end in
      let w := call (SelectProfile (id u)) w in
      let w :=
        match profileData with
        | Some p =>
            setCycleSettings
              {| cycleLength := orElse (cycle_length_days p) 28;
                 averagePeriodDays := orElse (period_length_days p) 5;
                 lastPeriodStartDate := last_period_start p |}
              (setProfile
                {| age := db_age p;
                   heightFeet := height_feet p;
                   heightInches := height_inches p |} w)
        | None => w
        end in
      setIsLoading false w
  end.

(** One firing of the interval timer or of the visibility listener.
    The effect that installs both returns at once when there is no
    user, so nothing fires then. *)
Definition checkForDayChange (clock : Date)
    (logData : option DbDailyLog) (goalsData : option DbUserGoals)
    (profileData : option DbProfile) (w : World) : World :=
  match user (app w) with
  | None => w
  | Some _ =>
      if isLogStale clock (date (todayLog (app w)))
      then loadData clock logData goalsData profileData w
      else w
  end.

(** *** saveToSupabase and the daily-log mutators *)

(** The object literal passed to [upsert]. *)
Definition upsertPayload (u : User) (log : DailyLog) (totalCalories : Q)
    (clock : Date) : gmap string Value :=
  list_to_map
    (("user_id", VStr (id u)) ::
     ("log_date", VStr (date log)) ::
     ("protein_grams", VNum (proteinGrams log)) ::
     ("carbs_grams", VNum (carbsGrams log)) ::
     ("fat_grams", VNum (fatGrams log)) ::
     ("total_calories", VNum totalCalories) ::
     ("sleep_hours", ofNullableNum (sleepHours log)) ::
     ("weight_lbs", ofNullableNum (weightLbs log)) ::
     ("is_period_day", VBool (isPeriodDay log)) ::
     ("steps", VNum (steps log)) ::
     ("energy_rating", ofNullableRating (energyRating log)) ::
     ("hunger_rating", ofNullableRating (hungerRating log)) ::
     ("motivation_rating", ofNullableRating (motivationRating log)) ::
     ("updated_at", VStr (toISOString clock)) :: nil).

(** Fire-and-forget: the upsert is issued and left in flight; nobody
    awaits it and its outcome is never read. *)
Definition saveToSupabase (clock : Date) (log : DailyLog) (w : World) : World :=
  match user (app w) with
  | None => w
  | Some u =>
      let totalCalories :=
        calculateCalories (proteinGrams log) (carbsGrams log) (fatGrams log) in
      let payload := upsertPayload u log totalCalories clock in
      mkWorld (app w) (io w ++ UpsertDailyLog payload :: nil)
              (inflight w ++ mkUpsert (id u) (date log) payload :: nil)
              (daily_logs w)
  end.

Inductive MacroType : Type := protein | carbs | fat.
Inductive RatingType : Type := energy | hunger | motivation.

(** [{ ...prev, [key]: prev[key] + grams, updatedAt }] followed by the
    assignment to [newLog.totalCalories]. *)
Definition addMacroLog (type : MacroType) (grams : Q) (clock : Date)
    (prev : DailyLog) : DailyLog :=
  let p := match type with protein => (proteinGrams prev + grams)%Q | _ => proteinGrams prev end in
  let c := match type with carbs => (carbsGrams prev + grams)%Q | _ => carbsGrams prev end in
  let f := match type with fat => (fatGrams prev + grams)%Q | _ => fatGrams prev end in
  {| date := date prev;
     proteinGrams := p;
     carbsGrams := c;
     fatGrams := f;
     totalCalories := calculateCalories p c f;
     sleepHours := sleepHours prev;
     weightLbs := weightLbs prev;
     isPeriodDay := isPeriodDay prev;
     steps := steps prev;
     energyRating := energyRating prev;
     hungerRating := hungerRating prev;
     motivationRating := motivationRating prev;
     createdAt := createdAt prev;
     updatedAt := toISOString clock |}.

Definition setSleepLog (hours : Q) (clock : Date) (prev : DailyLog) : DailyLog :=
  {| date := date prev;
     proteinGrams := proteinGrams prev;
     carbsGrams := carbsGrams prev;
     fatGrams := fatGrams prev;
     totalCalories := totalCalories prev;
     sleepHours := Some hours;
     weightLbs := weightLbs prev;
     isPeriodDay := isPeriodDay prev;
     steps := steps prev;
     energyRating := energyRating prev;
     hungerRating := hungerRating prev;
     motivationRating := motivationRating prev;
     createdAt := createdAt prev;
     updatedAt := toISOString clock |}.

Definition setWeightLog (lbs : Q) (clock : Date) (prev : DailyLog) : DailyLog :=
  {| date := date prev;
     proteinGrams := proteinGrams prev;
     carbsGrams := carbsGrams prev;
     fatGrams := fatGrams prev;
     totalCalories := totalCalories prev;
     sleepHours := sleepHours prev;
     weightLbs := Some lbs;
     isPeriodDay := isPeriodDay prev;
     steps := steps prev;
     energyRating := energyRating prev;
     hungerRating := hungerRating prev;
     motivationRating := motivationRating prev;
     createdAt := createdAt prev;
     updatedAt := toISOString clock |}.

Definition setPeriodDayLog (isPeriod : bool) (clock : Date) (prev : DailyLog) : DailyLog :=
  {| date := date prev;
     proteinGrams := proteinGrams prev;
     carbsGrams := carbsGrams prev;
     fatGrams := fatGrams prev;
     totalCalories := totalCalories prev;
     sleepHours := sleepHours prev;
     weightLbs := weightLbs prev;
     isPeriodDay := isPeriod;
     steps := steps prev;
     energyRating := energyRating prev;
     hungerRating := hungerRating prev;
     motivationRating := motivationRating prev;
     createdAt := createdAt prev;
     updatedAt := toISOString clock |}.

Definition setRatingLog (type : RatingType) (value : option Rating) (clock : Date)
    (prev : DailyLog) : DailyLog :=
  {| date := date prev;
     proteinGrams := proteinGrams prev;
     carbsGrams := carbsGrams prev;
     fatGrams := fatGrams prev;
     totalCalories := totalCalories prev;
     sleepHours := sleepHours prev;
     weightLbs := weightLbs prev;
     isPeriodDay := isPeriodDay prev;
     steps := steps prev;
     energyRating := match type with energy => value | _ => energyRating prev end;
     hungerRating := match type with hunger => value | _ => hungerRating prev end;
     motivationRating := match type with motivation => value | _ => motivationRating prev end;
     createdAt := createdAt prev;
     updatedAt := toISOString clock |}.

Definition setStepsLog (newSteps : Q) (clock : Date) (prev : DailyLog) : DailyLog :=
  {| date := date prev;
     proteinGrams := proteinGrams prev;
     carbsGrams := carbsGrams prev;
     fatGrams := fatGrams prev;
     totalCalories := totalCalories prev;
     sleepHours := sleepHours prev;
     weightLbs := weightLbs prev;
     isPeriodDay := isPeriodDay prev;
     steps := newSteps;
     energyRating := energyRating prev;
     hungerRating := hungerRating prev;
     motivationRating := motivationRating prev;
     createdAt := createdAt prev;
     updatedAt := toISOString clock |}.

(** [setTodayLog(prev => { newLog = ...; saveToSupabase(newLog); return newLog })] *)
Definition mutate (update : DailyLog -> DailyLog) (clock : Date) (w : World) : World :=
  let newLog := update (todayLog (app w)) in
  setTodayLog newLog (saveToSupabase clock newLog w).

Definition addMacro (type : MacroType) (grams : Q) (clock : Date) : World -> World :=
  mutate (addMacroLog type grams clock) clock.

Definition setSleep (hours : Q) (clock : Date) : World -> World :=
  mutate (setSleepLog hours clock) clock.

Definition setWeight (lbs : Q) (clock : Date) : World -> World :=
  mutate (setWeightLog lbs clock) clock.

Definition setPeriodDay (isPeriod : bool) (clock : Date) : World -> World :=
  mutate (setPeriodDayLog isPeriod clock) clock.

Definition setRating (type : RatingType) (value : option Rating) (clock : Date)
    : World -> World :=
  mutate (setRatingLog type value clock) clock.

Definition setSteps (newSteps : Q) (clock : Date) : World -> World :=
  mutate (setStepsLog newSteps clock) clock.

(** The calorie total the dashboard and the log page show for today. *)
Definition caloriesConsumed (log : DailyLog) : Q :=
  calculateCalories (proteinGrams log) (carbsGrams log) (fatGrams log).

(** *** How an in-flight upsert settles *)

Fixpoint removeNth {A : Type} (n : nat) (l : list A) : list A :=
  match l, n with
  | nil, _ => nil
  | _ :: t, O => t
  | h :: t, S k => h :: removeNth k t
  end.

(** The write reaches the table: insert, or overwrite the columns the
    payload carries on the row with the same [(user_id, log_date)]. *)
Definition land (n : nat) (w : World) : World :=
  match nth_error (inflight w) n with
  | None => w
  | Some up =>
      let key := (up_user up, up_date up) in
      let old := default ∅ (daily_logs w !! key) in
      mkWorld (app w) (io w) (removeNth n (inflight w))
              (<[ key := up_payload up ∪ old ]> (daily_logs w))
  end.

(** The write is lost: nothing retries it and nothing reads the error. *)
Definition lose (n : nat) (w : World) : World :=
  mkWorld (app w) (io w) (removeNth n (inflight w)) (daily_logs w).

(** *** Goal, profile and cycle-settings updates *)

(** [keyof UserGoals] *)
Inductive GoalKey : Type :=
| caloriesGoalKey | proteinGoalKey | carbsGoalKey
| fatGoalKey | stepsGoalKey | sleepGoalKey.

Definition goalKeyMap (type : GoalKey) : string :=
  match type with
  | caloriesGoalKey => "calories_goal"
  | proteinGoalKey => "protein_goal"
  | carbsGoalKey => "carbs_goal"
  | fatGoalKey => "fat_goal"
  | stepsGoalKey => "steps_goal"
  | sleepGoalKey => "sleep_goal"
  end.

(** [{ ...prev, [type]: value }] *)
Definition withGoal (type : GoalKey) (value : Q) (prev : UserGoals) : UserGoals :=
  {| caloriesGoal := match type with caloriesGoalKey => value | _ => caloriesGoal prev end;
     proteinGoal := match type with proteinGoalKey => value | _ => proteinGoal prev end;
     carbsGoal := match type with carbsGoalKey => value | _ => carbsGoal prev end;
     fatGoal := match type with fatGoalKey => value | _ => fatGoal prev end;
     stepsGoal := match type with stepsGoalKey => value | _ => stepsGoal prev end;
     sleepGoal := match type with sleepGoalKey => value | _ => sleepGoal prev end |}.

(** [error] is the [error] member of the awaited answer. *)
Definition updateGoal (type : GoalKey) (value : Q) (clock : Date)
    (error : option Error) (w : World) : Outcome unit * World :=
  match user (app w) with
  | None => (Resolved tt, w)
  | Some u =>
      let payload : gmap string Value :=
        list_to_map ((goalKeyMap type, VNum value) ::
                     ("updated_at", VStr (toISOString clock)) :: nil) in
      let w := call (UpdateUserGoals (id u) payload) w in
      match error with
      | None => (Resolved tt, setGoals (withGoal type value (goals (app w))) w)
      | Some e => (Rejected e, w)
      end
  end.

(** A field of [UserProfile] with a value of the shape the interface
    gives it: [age] takes a number, the two height fields take a
    [{ feet, inches }] object. *)
Inductive ProfileUpdate : Type :=
| ageUpdate (value : Q)
| heightFeetUpdate (feet inches : Q)
| heightInchesUpdate (feet inches : Q).

Definition profileUpdateData (upd : ProfileUpdate) : list (string * Value) :=
  match upd with
  | ageUpdate value => ("age", VNum value) :: nil
  | heightFeetUpdate feet inches =>
      ("height_feet", VNum feet) :: ("height_inches", VNum inches) :: nil
  | heightInchesUpdate _ _ => nil
  end.

Definition withProfile (upd : ProfileUpdate) (prev : UserProfile) : UserProfile :=
  match upd with
  | ageUpdate value =>
      {| age := Some value;
         heightFeet := heightFeet prev;
         heightInches := heightInches prev |}
  | heightFeetUpdate feet inches | heightInchesUpdate feet inches =>
      {| age := age prev;
         heightFeet := Some feet;
         heightInches := Some inches |}
  end.

Definition updateProfile (upd : ProfileUpdate) (clock : Date)
    (error : option Error) (w : World) : Outcome unit * World :=
  match user (app w) with
  | None => (Resolved tt, w)
  | Some u =>
      let payload : gmap string Value :=
        list_to_map (profileUpdateData upd ++
                     ("updated_at", VStr (toISOString clock)) :: nil) in
      let w := call (UpdateProfiles (id u) payload) w in
      match error with
      | None => (Resolved tt, setProfile (withProfile upd (profile (app w))) w)
      | Some e => (Rejected e, w)
      end
  end.

(** A field of [CycleSettings] with a value of its type. *)
Inductive CycleUpdate : Type :=
| cycleLengthUpdate (value : Q)
| averagePeriodDaysUpdate (value : Q)
| lastPeriodStartDateUpdate (value : string).

Definition cycleUpdateData (upd : CycleUpdate) : list (string * Value) :=
  match upd with
  | cycleLengthUpdate value => ("cycle_length_days", VNum value) :: nil
  | averagePeriodDaysUpdate value => ("period_length_days", VNum value) :: nil
  | lastPeriodStartDateUpdate value => ("last_period_start", VStr value) :: nil
  end.

(** [{ ...prev, [field]: value }] *)
Definition withCycleSetting (upd : CycleUpdate) (prev : CycleSettings) : CycleSettings :=
  match upd with
  | cycleLengthUpdate value =>
      {| cycleLength := value;
         averagePeriodDays := averagePeriodDays prev;
         lastPeriodStartDate := lastPeriodStartDate prev |}
  | averagePeriodDaysUpdate value =>
      {| cycleLength := cycleLength prev;
         averagePeriodDays := value;
         lastPeriodStartDate := lastPeriodStartDate prev |}
  | lastPeriodStartDateUpdate value =>
      {| cycleLength := cycleLength prev;
         averagePeriodDays := averagePeriodDays prev;
         lastPeriodStartDate := Some value |}
  end.

Definition updateCycleSettings (upd : CycleUpdate) (clock : Date)
    (error : option Error) (w : World) : Outcome unit * World :=
  match user (app w) with
  | None => (Resolved tt, w)
  | Some u =>
      let payload : gmap string Value :=
        list_to_map (cycleUpdateData upd ++
                     ("updated_at", VStr (toISOString clock)) :: nil) in
      let w := call (UpdateProfiles (id u) payload) w in
      match error with
      | None =>
          (Resolved tt,
           setCycleSettings (withCycleSetting upd (cycleSettings (app w))) w)
      | Some e => (Rejected e, w)
      end
  end.

(** *** Aggregate queries *)

(** [.order('log_date', { ascending: true })]: rows are put in
    ascending order of their date text (for zero-padded [YYYY-MM-DD]
    keys the order of the texts is the order of the days). *)
Fixpoint insertByDate {A : Type} (x : string * A) (l : list (string * A))
    : list (string * A) :=
  match l with
  | nil => x :: nil
  | y :: t =>
      if String.leb (fst x) (fst y) then x :: y :: t
      else y :: insertByDate x t
  end.

Definition orderByLogDate {A : Type} (l : list (string * A)) : list (string * A) :=
  fold_right insertByDate nil l.

(** [.eq('user_id', uid).gte('log_date', start)] on [daily_logs]; each
    row comes with its [log_date], the second component of its key.
    Dates are compared as texts, which for zero-padded [YYYY-MM-DD] keys
    is the order of the days.  There is no upper bound in the query. *)
Definition rowsSince (uid start : string)
    (table : gmap (string * string) (gmap string Value))
    : list (string * gmap string Value) :=
  List.map (fun kr => (snd (fst kr), snd kr))
    (List.filter
       (fun kr => String.eqb (fst (fst kr)) uid && String.leb start (snd (fst kr)))
       (map_to_list table)).

Definition isPresent {A : Type} (x : option A) : bool :=
  match x with
  | Some _ => true
  | None => false
  end.

(** [select('log_date, weight_lbs') ... .not('weight_lbs', 'is', null)
    .order('log_date', ascending)] *)
Definition weightRows (uid start : string)
    (table : gmap (string * string) (gmap string Value))
    : list (string * option Q) :=
  orderByLogDate
    (List.map (fun dr => (fst dr, numCol (snd dr) "weight_lbs"))
       (List.filter (fun dr => isPresent (numCol (snd dr) "weight_lbs"))
          (rowsSince uid start table))).

(** A row of [select('total_calories, protein_grams, steps, sleep_hours')]. *)
Record AvgRow : Type := mkAvgRow {
  row_total_calories : option Q;
  row_protein_grams : option Q;
  row_steps : option Q;
  row_sleep_hours : option Q
}.

Definition avgRowOf (row : gmap string Value) : AvgRow :=
  {| row_total_calories := numCol row "total_calories";
     row_protein_grams := numCol row "protein_grams";
     row_steps := numCol row "steps";
     row_sleep_hours := numCol row "sleep_hours" |}.

Definition averageRows (uid start : string)
    (table : gmap (string * string) (gmap string Value)) : list AvgRow :=
  List.map (fun dr => avgRowOf (snd dr))
    (orderByLogDate (rowsSince uid start table)).

Inductive ChartRange : Type := range7d | range14d | range30d.

Definition daysCount (days : ChartRange) : Z :=
  match days with
  | range7d => 7
  | range14d => 14
  | range30d => 30
  end.

Definition allNull : SevenDayAverages :=
  {| avg_calories := None; avg_protein := None; avg_steps := None; avg_sleep := None |}.

(** The accumulator of the [reduce]. *)
Record Sums : Type := mkSums {
  sum_calories : Q;
  sum_protein : Q;
  sum_steps : Q;
  sum_sleep : Q
}.

Definition addRow (acc : Sums) (row : AvgRow) : Sums :=
  {| sum_calories := (sum_calories acc + orElse (row_total_calories row) 0)%Q;
     sum_protein := (sum_protein acc + orElse (row_protein_grams row) 0)%Q;
     sum_steps := (sum_steps acc + orElse (row_steps row) 0)%Q;
     sum_sleep := (sum_sleep acc + orElse (row_sleep_hours row) 0)%Q |}.

Definition isValidRow (row : AvgRow) : bool :=
  isPresent (row_total_calories row) || isPresent (row_protein_grams row)
  || isPresent (row_steps row) || isPresent (row_sleep_hours row).

Definition countOf {A : Type} (l : list A) : Q :=
  inject_Z (Z.of_nat (List.length l)).

(** The body of [getSevenDayAverages] once [data] is at hand
    (from the [data.length === 0] test on). *)
Definition averagesOf (data : list AvgRow) : SevenDayAverages :=
  match data with
  | nil => allNull
  | _ :: _ =>
      let validData := List.filter isValidRow data in
      match validData with
      | nil => allNull
      | _ :: _ =>
          let sum := fold_left addRow validData (mkSums 0 0 0 0) in
          let count := countOf validData in
          let sleepCount :=
            countOf (List.filter (fun row => isPresent (row_sleep_hours row)) validData) in
          {| avg_calories := Some (sum_calories sum / count)%Q;
             avg_protein := Some (sum_protein sum / count)%Q;
             avg_steps := Some (sum_steps sum / count)%Q;
             avg_sleep :=
               if Qlt_le_dec 0 sleepCount
               then Some (sum_sleep sum / sleepCount)%Q
               else None |}
      end
  end.

Section Queries.

(** What [d.setDate(d.getDate() - n)] leaves in [d]. *)
Variable daysBefore : Date -> Z -> Date.

(** [new Date(text)] for a stored [log_date]. *)
Variable parseDate : string -> Date.

Definition toPoint (row : string * option Q) : WeightDataPoint :=
  let d := parseDate (fst row) in
  let month := padStart 2 "0" (numToString (getMonth d + 1)) in
  let day := padStart 2 "0" (numToString (getDate d)) in
  {| point_date := month ++ "/" ++ day;
     point_weight := snd row |}.

(** [error] tells whether the query fails; when it does not, the
    answer is the query evaluated on the table. *)
Definition getWeightHistory (days : ChartRange) (clock : Date)
    (error : option Error) (w : World) : list WeightDataPoint * World :=
  match user (app w) with
  | None => (nil, w)
  | Some u =>
      let startDate := daysBefore clock (daysCount days) in
      let startDateString := getLocalDateString startDate in
      let w := call (SelectWeights (id u) startDateString) w in
      match error with
      | Some _ => (nil, w)
      | None =>
          (List.map toPoint (weightRows (id u) startDateString (daily_logs w)), w)
      end
  end.

Definition getSevenDayAverages (clock : Date) (error : option Error)
    (w : World) : SevenDayAverages * World :=
  match user (app w) with
  | None => (allNull, w)
  | Some u =>
      let startDate := daysBefore clock 7 in
      let startDateString := getLocalDateString startDate in
      let w := call (SelectAverages (id u) startDateString) w in
      match error with
      | Some _ => (allNull, w)
      | None => (averagesOf (averageRows (id u) startDateString (daily_logs w)), w)
      end
  end.

End Queries.

End AppContext.

(** ** Notions used to state the properties *)

Module Spec.

Import Js AppContext.

(** [String(n).padStart(2, '0')] *)
Definition twoDigits (n : Z) : string :=
  padStart 2 "0" (numToString n).

(** The integers [0 .. k-1]. *)
Definition below (k : nat) : list Z :=
  List.map Z.of_nat (seq 0 k).

(** On [0 .. 31] the two-character form has length 2 and separates
    distinct numbers. *)
Definition twoDigitsOk (n : Z) : bool :=
  Nat.eqb (String.length (twoDigits n)) 2
  && forallb (fun m => implb (String.eqb (twoDigits n) (twoDigits m)) (Z.eqb n m))
       (below 32).

(** 23:59:59.999 on 20 March 2024 and the midnight that follows. *)
Definition lateEvening : Date :=
  mkDate 2024 2 20 23 59 59 999 "2024-03-20T23:59:59.999Z".
Definition earlyMorning : Date :=
  mkDate 2024 2 20 0 0 0 0 "2024-03-20T00:00:00.000Z".
Definition nextMidnight : Date :=
  mkDate 2024 2 21 0 0 0 0 "2024-03-21T00:00:00.000Z".

(** *** The empty record *)

(** A period flag as the data model describes it. *)
Inductive PeriodFlag : Type := flagTrue | flagFalse | flagUnset.

(** The flag of a cached record ([boolean]). *)
Definition periodFlag (b : bool) : PeriodFlag :=
  if b then flagTrue else flagFalse.

(** The flag of a record of the legacy types module ([boolean | null]). *)
Definition legacyPeriodFlag (x : option bool) : PeriodFlag :=
  match x with
  | Some b => periodFlag b
  | None => flagUnset
  end.

(** Everything the empty record holds, the period flag apart. *)
Definition emptyFields (l : DailyLog) : Prop :=
  proteinGrams l = 0%Q /\ carbsGrams l = 0%Q /\ fatGrams l = 0%Q /\
  sleepHours l = None /\ weightLbs l = None /\ steps l = 0%Q /\
  energyRating l = None /\ hungerRating l = None /\ motivationRating l = None.

Definition someUser : User := mkUser "user-1".

(** *** Mutations of the daily log *)

Inductive Mutation : Type :=
| AddMacro (type : MacroType) (grams : Q)
| SetSleep (hours : Q)
| SetWeight (lbs : Q)
| SetPeriodDay (isPeriod : bool)
| SetRating (type : RatingType) (value : option Rating)
| SetSteps (newSteps : Q).

Definition mutateLog (m : Mutation) (clock : Date) : DailyLog -> DailyLog :=
  match m with
  | AddMacro type grams => addMacroLog type grams clock
  | SetSleep hours => setSleepLog hours clock
  | SetWeight lbs => setWeightLog lbs clock
  | SetPeriodDay isPeriod => setPeriodDayLog isPeriod clock
  | SetRating type value => setRatingLog type value clock
  | SetSteps newSteps => setStepsLog newSteps clock
  end.

Definition applyMutation (m : Mutation) (clock : Date) : World -> World :=
  match m with
  | AddMacro type grams => addMacro type grams clock
  | SetSleep hours => setSleep hours clock
  | SetWeight lbs => setWeight lbs clock
  | SetPeriodDay isPeriod => setPeriodDay isPeriod clock
  | SetRating type value => setRating type value clock
  | SetSteps newSteps => setSteps newSteps clock
  end.

(** The stored calorie total agrees with the macros. *)
Definition caloriesConsistent (l : DailyLog) : Prop :=
  (totalCalories l ==
   calculateCalories (proteinGrams l) (carbsGrams l) (fatGrams l))%Q.

(** *** Everything the provider can be asked to do *)

Inductive Op : Type :=
| Reload (clock : Date) (logData : option DbDailyLog)
    (goalsData : option DbUserGoals) (profileData : option DbProfile)
| Tick (clock : Date) (logData : option DbDailyLog)
    (goalsData : option DbUserGoals) (profileData : option DbProfile)
| Mutate (m : Mutation) (clock : Date)
| UpdateGoal (type : GoalKey) (value : Q) (clock : Date) (error : option Error)
| UpdateProfile (upd : ProfileUpdate) (clock : Date) (error : option Error)
| UpdateCycle (upd : CycleUpdate) (clock : Date) (error : option Error)
| WeightHistory (days : ChartRange) (clock : Date) (error : option Error)
| Averages (clock : Date) (error : option Error).

Section Session.

Variable daysBefore : Date -> Z -> Date.
Variable parseDate : string -> Date.

Definition perform (w : World) (op : Op) : World :=
  match op with
  | Reload clock logData goalsData profileData =>
      loadData clock logData goalsData profileData w
  | Tick clock logData goalsData profileData =>
      checkForDayChange clock logData goalsData profileData w
  | Mutate m clock => applyMutation m clock w
  | UpdateGoal type value clock error => snd (updateGoal type value clock error w)
  | UpdateProfile upd clock error => snd (updateProfile upd clock error w)
  | UpdateCycle upd clock error => snd (updateCycleSettings upd clock error w)
  | WeightHistory days clock error =>
      snd (getWeightHistory daysBefore parseDate days clock error w)
  | Averages clock error => snd (getSevenDayAverages daysBefore clock error w)
  end.

Definition performAll (ops : list Op) (w : World) : World :=
  fold_left perform ops w.

End Session.

(** Nothing was asked of, and nothing changed in, the remote store. *)
Definition sameRemote (w w' : World) : Prop :=
  io w' = io w /\ inflight w' = inflight w /\ daily_logs w' = daily_logs w.

(** *** Pessimistic updates *)

Definition isWrite (c : Call) : bool :=
  match c with
  | UpdateUserGoals _ _ | UpdateProfiles _ _ => true
  | _ => false
  end.

(** [op] updates the cached value [cached] to [updated] only after its
    remote write succeeded. *)
Definition pessimistic {A : Type} (cached : State -> A) (updated : A -> A)
    (op : option Error -> World -> Outcome unit * World) (w : World) : Prop :=
  (forall e, app (snd (op (Some e) w)) = app w) /\
  (forall e, user (app w) <> None -> fst (op (Some e) w) = Rejected e) /\
  (user (app w) <> None ->
     fst (op None w) = Resolved tt /\
     cached (app (snd (op None w))) = updated (cached (app w))) /\
  (forall error,
     cached (app (snd (op error w))) <> cached (app w) ->
     error = None /\
     exists c, isWrite c = true /\ io (snd (op error w)) = (io w ++ c :: nil)%list).

Definition signedIn (clock : Date) : World :=
  initialWorld (Some someUser) clock ∅.

(** *** What is written for the calorie total *)

(** [log] with another stored calorie total. *)
Definition withTotalCalories (t : Q) (log : DailyLog) : DailyLog :=
  {| date := date log;
     proteinGrams := proteinGrams log;
     carbsGrams := carbsGrams log;
     fatGrams := fatGrams log;
     totalCalories := t;
     sleepHours := sleepHours log;
     weightLbs := weightLbs log;
     isPeriodDay := isPeriodDay log;
     steps := steps log;
     energyRating := energyRating log;
     hungerRating := hungerRating log;
     motivationRating := motivationRating log;
     createdAt := createdAt log;
     updatedAt := updatedAt log |}.

(** The row kept for a user and a day ([∅] when there is none). *)
Definition storedRow (uid day : string) (w : World) : gmap string Value :=
  default ∅ (daily_logs w !! (uid, day)).

(** A signed-in user adds 10 g of protein and the write lands. *)
Definition afterOneMeal : World :=
  land 0 (addMacro protein 10 earlyMorning (signedIn earlyMorning)).

(** *** Averages over a window *)

(** The sum of a column, an absent value counting as zero. *)
Fixpoint zeroFilledSum (col : AvgRow -> option Q) (rows : list AvgRow) : Q :=
  match rows with
  | nil => 0
  | r :: rest => (orElse (col r) 0 + zeroFilledSum col rest)%Q
  end.

(** The mean of a zero-filled column over all of [rows]. *)
Definition meanOverAll (col : AvgRow -> option Q) (rows : list AvgRow) : option Q :=
  match rows with
  | nil => None
  | _ :: _ => Some (zeroFilledSum col rows / countOf rows)%Q
  end.

(** The values a column has where it is present. *)
Fixpoint presentValues (col : AvgRow -> option Q) (rows : list AvgRow) : list Q :=
  match rows with
  | nil => nil
  | r :: rest =>
      match col r with
      | Some q => q :: presentValues col rest
      | None => presentValues col rest
      end
  end.

Fixpoint sumQ (l : list Q) : Q :=
  match l with
  | nil => 0
  | q :: rest => (q + sumQ rest)%Q
  end.

(** The mean of a column over the rows where it is present. *)
Definition meanOverPresent (col : AvgRow -> option Q) (rows : list AvgRow) : option Q :=
  match presentValues col rows with
  | nil => None
  | q :: rest => Some (sumQ (q :: rest) / countOf (q :: rest))%Q
  end.

Definition sameNumber (x y : option Q) : Prop :=
  match x, y with
  | Some a, Some b => (a == b)%Q
  | None, None => True
  | _, _ => False
  end.

Definition sameAverages (a b : SevenDayAverages) : Prop :=
  sameNumber (avg_calories a) (avg_calories b) /\
  sameNumber (avg_protein a) (avg_protein b) /\
  sameNumber (avg_steps a) (avg_steps b) /\
  sameNumber (avg_sleep a) (avg_sleep b).

(** Calories, protein and steps averaged over [denominatorRows], sleep
    over the rows of [data] that have it. *)
Definition averagesOver (denominatorRows data : list AvgRow) : SevenDayAverages :=
  {| avg_calories := meanOverAll row_total_calories denominatorRows;
     avg_protein := meanOverAll row_protein_grams denominatorRows;
     avg_steps := meanOverAll row_steps denominatorRows;
     avg_sleep := meanOverPresent row_sleep_hours data |}.

(** A window of two records, the first with all four columns null. *)
Definition windowWithBlankRow : list AvgRow :=
  mkAvgRow None None None None ::
  mkAvgRow (Some 10%Q) (Some 10%Q) (Some 10%Q) None :: nil.

(** Seven days, sleep logged on three of them. *)
Definition sevenDays : list AvgRow :=
  mkAvgRow (Some 0%Q) (Some 0%Q) (Some 0%Q) (Some 7%Q) ::
  mkAvgRow (Some 0%Q) (Some 0%Q) (Some 0%Q) None ::
  mkAvgRow (Some 0%Q) (Some 0%Q) (Some 0%Q) (Some 8%Q) ::
  mkAvgRow (Some 10%Q) (Some 10%Q) (Some 10%Q) None ::
  mkAvgRow (Some 10%Q) (Some 10%Q) (Some 10%Q) (Some 9%Q) ::
  mkAvgRow (Some 10%Q) (Some 10%Q) (Some 10%Q) None ::
  mkAvgRow (Some 10%Q) (Some 10%Q) (Some 10%Q) None :: nil.

(** *** Weight history *)

Definition ascending {A : Type} (a b : string * A) : Prop :=
  String.leb (fst a) (fst b) = true.

(** The lower bound of the query: the day key of today minus the window. *)
Definition windowStart (daysBefore : Date -> Z -> Date) (days : ChartRange)
    (clock : Date) : string :=
  getLocalDateString (daysBefore clock (daysCount days)).

(** Every row is dated between [start] and [today]. *)
Definition inWindow (start today : string) (rows : list (string * option Q)) : Prop :=
  forall d x, In (d, x) rows ->
    String.leb start d = true /\ String.leb d today = true.

Definition withTable (table : gmap (string * string) (gmap string Value))
    (w : World) : World :=
  mkWorld (app w) (io w) (inflight w) table.

(** A runtime to evaluate examples with: a client in the UTC zone.
    [sameMonthDaysBefore] is [setDate(getDate() - n)] as long as the
    result stays in the month of [d] (the ISO text is left alone). *)
Definition sameMonthDaysBefore (d : Date) (n : Z) : Date :=
  mkDate (getFullYear d) (getMonth d) (getDate d - n)
         (getHours d) (getMinutes d) (getSeconds d) (getMilliseconds d)
         (toISOString d).

Definition digits (text : string) : Z :=
  match NilEmpty.int_of_string text with
  | Some i => Z.of_int i
  | None => 0
  end.

Definition parseIsoDay (text : string) : Date :=
  mkDate (digits (substring 0 4 text))
         (digits (substring 5 2 text) - 1)
         (digits (substring 8 2 text))
         0 0 0 0 (text ++ "T00:00:00.000Z").

Definition weightOnly (x : option Q) : gmap string Value :=
  {[ "weight_lbs" := ofNullableNum x ]}.

(** Rows of two users; one row of user-1 is dated after 20 March. *)
Definition sampleTable : gmap (string * string) (gmap string Value) :=
  list_to_map
    ((("user-1", "2024-03-25"), weightOnly (Some 150%Q)) ::
     (("user-1", "2024-03-14"), weightOnly (Some 151%Q)) ::
     (("user-1", "2024-03-15"), weightOnly None) ::
     (("user-2", "2024-03-16"), weightOnly (Some 99%Q)) ::
     (("user-1", "2024-03-10"), weightOnly (Some 149%Q)) :: nil).

Definition signedOut (clock : Date) : World :=
  initialWorld None clock sampleTable.

(** An evening and the midnight after it, with nobody signed in. *)
Definition signedOutSession : list Op :=
  Reload lateEvening None None None ::
  Mutate (AddMacro protein 30) lateEvening ::
  Mutate (SetSleep 8) lateEvening ::
  Tick nextMidnight None None None ::
  UpdateGoal proteinGoalKey 150 nextMidnight None ::
  WeightHistory range7d nextMidnight None :: nil.

End Spec.

(** ** The provider over a session *)

Module Session.

Import Js AppContext Spec.

(** [setUser(session?.user ?? null)] in the auth provider: the app
    provider is rendered again with the new [user]. *)
Definition setUser (u : option User) : World -> World :=
  withApp (fun s => mkState u (todayLog s) (goals s) (profile s)
                      (cycleSettings s) (isLoading s)).

(** An auth state change: [loadData] is rebuilt for the new [user] and the
    effect that depends on it runs it. *)
Definition onAuthStateChange (sessionUser : option User) (clock : Date)
    (logData : option DbDailyLog) (goalsData : option DbUserGoals)
    (profileData : option DbProfile) (w : World) : World :=
  loadData clock logData goalsData profileData (setUser sessionUser w).

(** Mutations issued one after the other, each with its clock reading. *)
Definition applyAll (ms : list (Mutation * Date)) (w : World) : World :=
  fold_left (fun w' mc => applyMutation (fst mc) (snd mc) w') ms w.

(** The three reads of [loadData], in the order they are awaited. *)
Definition loadReads (u : User) (clock : Date) : list Call :=
  SelectDailyLog (id u) (getTodayString clock) ::
  SelectUserGoals (id u) ::
  SelectProfile (id u) :: nil.

(** The write a mutator issues for the record it produced. *)
Definition writeOf (u : User) (log : DailyLog) (clock : Date) : Upsert :=
  mkUpsert (id u) (date log)
    (upsertPayload u log
       (calculateCalories (proteinGrams log) (carbsGrams log) (fatGrams log))
       clock).

(** A stored row holds this record: every column a write carries for it. *)
Definition rowHolds (log : DailyLog) (row : gmap string Value) : Prop :=
  row !! "log_date" = Some (VStr (date log)) /\
  row !! "protein_grams" = Some (VNum (proteinGrams log)) /\
  row !! "carbs_grams" = Some (VNum (carbsGrams log)) /\
  row !! "fat_grams" = Some (VNum (fatGrams log)) /\
  row !! "total_calories" =
    Some (VNum (calculateCalories (proteinGrams log) (carbsGrams log) (fatGrams log))) /\
  row !! "sleep_hours" = Some (ofNullableNum (sleepHours log)) /\
  row !! "weight_lbs" = Some (ofNullableNum (weightLbs log)) /\
  row !! "is_period_day" = Some (VBool (isPeriodDay log)) /\
  row !! "steps" = Some (VNum (steps log)) /\
  row !! "energy_rating" = Some (ofNullableRating (energyRating log)) /\
  row !! "hunger_rating" = Some (ofNullableRating (hungerRating log)) /\
  row !! "motivation_rating" = Some (ofNullableRating (motivationRating log)).

(** Two records agree on everything that is persisted. *)
Definition samePersisted (a b : DailyLog) : Prop :=
  date a = date b /\
  proteinGrams a = proteinGrams b /\ carbsGrams a = carbsGrams b /\
  fatGrams a = fatGrams b /\
  sleepHours a = sleepHours b /\ weightLbs a = weightLbs b /\
  isPeriodDay a = isPeriodDay b /\ steps a = steps b /\
  energyRating a = energyRating b /\ hungerRating a = hungerRating b /\
  motivationRating a = motivationRating b.

(** A stored row for today as the daily-log read returns it. *)
Definition storedToday (clock : Date) : DbDailyLog :=
  {| log_date := getLocalDateString clock;
     protein_grams := 30; carbs_grams := 0; fat_grams := 0;
     total_calories := 120;
     sleep_hours := Some 7%Q; weight_lbs := None;
     is_period_day := false; db_steps := 0;
     energy_rating := None; hunger_rating := None; motivation_rating := None;
     created_at := toISOString clock; updated_at := toISOString clock |}.

End Session.

(** ** Presentation code that feeds or reads the provider *)

(** Built-ins of the runtime the components use. *)
Module JsMath.

(** [a > b] *)
Definition gt (a b : Q) : bool := negb (Qle_bool a b).

(** [a >= b] *)
Definition ge (a b : Q) : bool := Qle_bool b a.

(** [Math.min(a, b)] and [Math.max(a, b)] *)
Definition min (a b : Q) : Q := if Qle_bool a b then a else b.
Definition max (a b : Q) : Q := if Qle_bool a b then b else a.

(** [Math.min(...xs)] and [Math.max(...xs)] for a non-empty argument list. *)
Definition minOf (x : Q) (xs : list Q) : Q := fold_left min xs x.
Definition maxOf (x : Q) (xs : list Q) : Q := fold_left max xs x.

(** [Math.floor], [Math.ceil] and [Math.round] (halves round up). *)
Definition floor (x : Q) : Z := Qfloor x.
Definition ceil (x : Q) : Z := Qceiling x.
Definition round (x : Q) : Z := Qfloor (x + (1 # 2)).

(** A string in a condition: the empty string is falsy. *)
Definition truthy (s : string) : bool :=
  match s with
  | EmptyString => false
  | String _ _ => true
  end.

End JsMath.

(** *** ProgressBar.tsx and CalorieCard.tsx *)

Module ProgressBar.

(** [Math.min((value / max) * 100, 100)] *)
Definition percentage (value max : Q) : Q :=
  JsMath.min ((value / max) * 100) 100.

End ProgressBar.

Module CalorieCard.

(** [Math.max(goal - consumed, 0)] *)
Definition remaining (consumed goal : Q) : Q :=
  JsMath.max (goal - consumed) 0.

End CalorieCard.

(** *** HomePage (the dashboard) *)

Module HomePage.

Import AppContext.

Definition caloriesConsumed (todayLog : DailyLog) : Q :=
  calculateCalories (proteinGrams todayLog) (carbsGrams todayLog) (fatGrams todayLog).

(** The calorie goal the dashboard, the log page and the overview show. *)
Definition caloriesGoal (goals : UserGoals) : Q :=
  calculateCalories (proteinGoal goals) (carbsGoal goals) (fatGoal goals).

(** [caloriesConsumed > 0 || todayLog.sleepHours !== null || todayLog.steps > 0] *)
Definition hasData (todayLog : DailyLog) : bool :=
  JsMath.gt (caloriesConsumed todayLog) 0
  || isPresent (sleepHours todayLog)
  || JsMath.gt (steps todayLog) 0.

(** What the calorie card is given. *)
Definition calorieCardRemaining (todayLog : DailyLog) (goals : UserGoals) : Q :=
  CalorieCard.remaining (caloriesConsumed todayLog) (caloriesGoal goals).

Definition calorieCardPercentage (todayLog : DailyLog) (goals : UserGoals) : Q :=
  ProgressBar.percentage (caloriesConsumed todayLog) (caloriesGoal goals).

End HomePage.

(** *** LogPage and its input components *)

Module LogPage.

Import Js AppContext.

(** The ratings selected on the page and not yet saved
    ([localEnergy], [localHunger], [localMotivation]). *)
Record Local : Type := mkLocal {
  localEnergy : option Rating;
  localHunger : option Rating;
  localMotivation : option Rating
}.

(** [useState(todayLog.energyRating)] and its two siblings. *)
Definition initialLocal (todayLog : DailyLog) : Local :=
  {| localEnergy := energyRating todayLog;
     localHunger := hungerRating todayLog;
     localMotivation := motivationRating todayLog |}.

Definition localOf (type : RatingType) (st : Local) : option Rating :=
  match type with
  | energy => localEnergy st
  | hunger => localHunger st
  | motivation => localMotivation st
  end.

(** [setLocalEnergy], [setLocalHunger], [setLocalMotivation] *)
Definition setLocal (type : RatingType) (value : Rating) (st : Local) : Local :=
  match type with
  | energy => mkLocal (Some value) (localHunger st) (localMotivation st)
  | hunger => mkLocal (localEnergy st) (Some value) (localMotivation st)
  | motivation => mkLocal (localEnergy st) (localHunger st) (Some value)
  end.

(** [onSave]: [if (localEnergy) setRating('energy', localEnergy)]. *)
Definition onSave (type : RatingType) (st : Local) (clock : Date) (w : World) : World :=
  match localOf type st with
  | Some r => setRating type (Some r) clock w
  | None => w
  end.

Section Inputs.

(** [parseFloat]; [None] stands for [NaN]. *)
Variable parseFloat : string -> option Q.

(** MacroInput: [!isNaN(parsedValue) && parsedValue !== 0]. *)
Definition hasValidInput (inputValue : string) : bool :=
  match parseFloat inputValue with
  | Some parsedValue => negb (Qeq_bool parsedValue 0)
  | None => false
  end.

(** MacroInput.handleAdd; the result carries the text left in the box. *)
Definition macroHandleAdd (onAdd : Q -> World -> World) (inputValue : string)
    (w : World) : string * World :=
  if hasValidInput inputValue then
    match parseFloat inputValue with
    | Some parsedValue => (EmptyString, onAdd parsedValue w)
    | None => (inputValue, w)
    end
  else (inputValue, w).

(** SleepInput.handleChange: [!isNaN(parsed) && parsed >= 0]. *)
Definition sleepHandleChange (onChange : Q -> World -> World) (val : string)
    (w : World) : World :=
  match parseFloat val with
  | Some parsed => if JsMath.ge parsed 0 then onChange parsed w else w
  | None => w
  end.

(** WeightInput.handleChange: the same test. *)
Definition weightHandleChange (onChange : Q -> World -> World) (val : string)
    (w : World) : World :=
  match parseFloat val with
  | Some parsed => if JsMath.ge parsed 0 then onChange parsed w else w
  | None => w
  end.

(** What the user can do on the page. *)
Inductive Event : Type :=
| MacroAdd (type : MacroType) (inputValue : string)   (* Add pressed *)
| SleepChange (val : string)
| WeightChange (val : string)
| PeriodDayChange (value : bool)                      (* Yes / No pressed *)
| RatingChange (type : RatingType) (value : Rating)   (* a rating button *)
| RatingSave (type : RatingType).                     (* onSave of a rating row *)

(** The page as wired: each handler is given the provider's mutator. *)
Definition handle (clock : Date) (sw : Local * World) (ev : Event) : Local * World :=
  let (st, w) := sw in
  match ev with
  | MacroAdd type inputValue =>
      (st, snd (macroHandleAdd (fun g => addMacro type g clock) inputValue w))
  | SleepChange val => (st, sleepHandleChange (fun h => setSleep h clock) val w)
  | WeightChange val => (st, weightHandleChange (fun l => setWeight l clock) val w)
  | PeriodDayChange value => (st, setPeriodDay value clock w)
  | RatingChange type value => (setLocal type value st, w)
  | RatingSave type => (st, onSave type st clock w)
  end.

Definition handleAll (clock : Date) (events : list Event) (sw : Local * World)
    : Local * World :=
  fold_left (handle clock) events sw.

End Inputs.

End LogPage.

(** *** GoalEditor.tsx, as the overview page wires it *)

Module GoalEditor.

Import Js AppContext.

Record Editor : Type := mkEditor {
  inputValue : string;
  isSaving : bool;
  showSaved : bool
}.

Section Editor.

(** [parseFloat] ([None] for [NaN]) and [Number.prototype.toString]. *)
Variable parseFloat : string -> option Q.
Variable numberToString : Q -> string.

(** [inputValue !== value.toString()] *)
Definition hasChanged (value : Q) (st : Editor) : bool :=
  negb (String.eqb (inputValue st) (numberToString value)).

(** [!isNaN(parsedValue) && parsedValue > 0] *)
Definition isValid (st : Editor) : bool :=
  match parseFloat (inputValue st) with
  | Some parsedValue => JsMath.gt parsedValue 0
  | None => false
  end.

(** [handleSave]: a rejected [onSave] is caught and logged, and
    [finally] clears [isSaving]. *)
Definition handleSave (value : Q) (onSave : Q -> World -> Outcome unit * World)
    (st : Editor) (w : World) : Editor * World :=
  if negb (isValid st) || negb (hasChanged value st) then (st, w)
  else
    match parseFloat (inputValue st) with
    | None => (st, w)
    | Some parsedValue =>
        match onSave parsedValue w with
        | (Resolved _, w') => (mkEditor (inputValue st) false true, w')
        | (Rejected _, w') => (mkEditor (inputValue st) false (showSaved st), w')
        end
    end.

(** The five editors of the overview page: [onSave] is
    [val => updateGoal(key, val)] and [value] the cached goal. *)
Definition goalOf (type : GoalKey) (g : UserGoals) : Q :=
  match type with
  | caloriesGoalKey => caloriesGoal g
  | proteinGoalKey => proteinGoal g
  | carbsGoalKey => carbsGoal g
  | fatGoalKey => fatGoal g
  | stepsGoalKey => stepsGoal g
  | sleepGoalKey => sleepGoal g
  end.

Definition saveGoal (type : GoalKey) (clock : Date) (error : option Error)
    (st : Editor) (w : World) : Editor * World :=
  handleSave (goalOf type (goals (app w)))
    (fun val => updateGoal type val clock error) st w.

End Editor.

End GoalEditor.

(** *** WeightChart.tsx: the range of the vertical axis *)

Module WeightChart.

Record WeightDataPoint : Type := mkPoint {
  date : string;
  weight : Q
}.

Record Axis : Type := mkAxis {
  yMin : Z;
  yMax : Z;
  yTicks : list Z
}.

(** [None] is the empty state shown for fewer than two points. *)
Definition axis (data : list WeightDataPoint) : option Axis :=
  if Nat.ltb (List.length data) 2 then None
  else
    match List.map weight data with
    | nil => None
    | first :: rest =>
        let minWeight := JsMath.minOf first rest in
        let maxWeight := JsMath.maxOf first rest in
        let yMin := JsMath.floor (minWeight - 2) in
        let yMax := JsMath.ceil (maxWeight + 2) in
        let step := ((inject_Z yMax - inject_Z yMin) / 4)%Q in
        Some {| yMin := yMin;
                yMax := yMax;
                yTicks :=
                  yMin ::
                  JsMath.round (inject_Z yMin + step) ::
                  JsMath.round (inject_Z yMin + 2 * step) ::
                  JsMath.round (inject_Z yMin + 3 * step) ::
                  yMax :: nil |}
    end.

(** Strictly increasing integers. *)
Fixpoint increasing (l : list Z) : Prop :=
  match l with
  | a :: ((b :: _) as rest) => (a < b)%Z /\ increasing rest
  | _ => True
  end.

Definition twoPoints : list WeightDataPoint :=
  mkPoint "03/14" (1513 # 10) :: mkPoint "03/15" 150 :: nil.

End WeightChart.

(** *** services/healthkit.ts *)

Module HealthKit.

(** A sample as the plugin returns it. *)
Record CapgoHealthSample : Type := mkRaw {
  raw_value : Q;
  raw_unit : option string;
  raw_startDate : string;
  raw_endDate : string;
  raw_sourceName : option string
}.

Record HealthSample : Type := mkSample {
  value : Q;
  unit : string;
  startDate : string;
  endDate : string;
  source : option string
}.

Record HealthQueryResult : Type := mkResult {
  dataType : string;
  samples : list HealthSample;
  count : nat
}.

(** [sample.unit || ''] *)
Definition unitOrEmpty (u : option string) : string :=
  match u with
  | Some s => s
  | None => EmptyString
  end.

Definition clean (sample : CapgoHealthSample) : HealthSample :=
  {| value := raw_value sample;
     unit := unitOrEmpty (raw_unit sample);
     startDate := raw_startDate sample;
     endDate := raw_endDate sample;
     source := raw_sourceName sample |}.

(** [answer] is what [Health.readSamples] resolves to; [None] when it
    throws. *)
Definition queryHealthData (type : string) (answer : option (list CapgoHealthSample))
    : HealthQueryResult :=
  match answer with
  | Some rawSamples =>
      let samples := List.map clean rawSamples in
      {| dataType := type; samples := samples; count := List.length samples |}
  | None => {| dataType := type; samples := nil; count := 0 |}
  end.

Definition getStepCount (answer : option (list CapgoHealthSample)) : Q :=
  fold_left (fun total sample => (total + value sample)%Q)
    (samples (queryHealthData "steps" answer)) 0%Q.

(** [result.samples[0] || null] *)
Definition getLatestHeartRate (answer : option (list CapgoHealthSample))
    : option HealthSample :=
  List.hd_error (samples (queryHealthData "heartRate" answer)).

End HealthKit.

(** *** AuthContext.tsx and the sign-in page *)

Module Auth.

(** How a call on the identity provider ends. *)
Inductive Answer : Type :=
| Succeeds
| Fails (message : string)
| Throws.

(** [signIn] and [signUp] share one shape; the result is the [error]
    member of what they return. *)
Definition signIn (answer : Answer) : option string :=
  match answer with
  | Succeeds => None
  | Fails message => Some message
  | Throws => Some "An unexpected error occurred"
  end.

Definition signUp (answer : Answer) : option string :=
  match answer with
  | Succeeds => None
  | Fails message => Some message
  | Throws => Some "An unexpected error occurred"
  end.

Inductive Mode : Type := signin | signup.

Inductive ProviderCall : Type :=
| SignInWithPassword (email password : string)
| SignUp (email password : string).

(** The state of [AuthPage] and the calls made on the provider so far. *)
Record Page : Type := mkPage {
  mode : Mode;
  email : string;
  password : string;
  confirmPassword : string;
  error : option string;
  isSubmitting : bool;
  successMessage : option string;
  calls : list ProviderCall
}.

Definition withError (message : string) (p : Page) : Page :=
  mkPage (mode p) (email p) (password p) (confirmPassword p)
         (Some message) (isSubmitting p) None (calls p).

(** [if (error)] on [string | null]. *)
Definition isError (e : option string) : bool :=
  match e with
  | Some message => JsMath.truthy message
  | None => false
  end.

Definition handleSubmit (answer : Answer) (p : Page) : Page :=
  if negb (JsMath.truthy (email p)) || negb (JsMath.truthy (password p)) then
    withError "Please fill in all fields" p
  else if match mode p with
          | signup => negb (String.eqb (password p) (confirmPassword p))
          | signin => false
          end then
    withError "Passwords do not match" p
  else if Nat.ltb (String.length (password p)) 6 then
    withError "Password must be at least 6 characters" p
  else
    match mode p with
    | signin =>
        let e := signIn answer in
        mkPage signin (email p) (password p) (confirmPassword p)
               (if isError e then e else None) false None
               (calls p ++ SignInWithPassword (email p) (password p) :: nil)
    | signup =>
        let e := signUp answer in
        if isError e then
          mkPage signup (email p) (password p) (confirmPassword p)
                 e false None
                 (calls p ++ SignUp (email p) (password p) :: nil)
        else
          mkPage signin (email p) EmptyString EmptyString
                 None false (Some "Account created! You can now sign in.")
                 (calls p ++ SignUp (email p) (password p) :: nil)
    end.

(** The form passes the three checks of [handleSubmit]. *)
Definition formValid (p : Page) : bool :=
  JsMath.truthy (email p) && JsMath.truthy (password p)
  && match mode p with
     | signup => String.eqb (password p) (confirmPassword p)
     | signin => true
     end
  && Nat.leb 6 (String.length (password p)).

Definition signupForm : Page :=
  mkPage signup "a@example.com" "secret1" "secret1" None false None nil.

End Auth.

(** *** Notions for the presentation code *)

Module Invariants.

Import Js AppContext.

(** Sleep and weight are absent or not negative. *)
Definition bodyOk (l : DailyLog) : Prop :=
  (forall h, sleepHours l = Some h -> (0 <= h)%Q) /\
  (forall x, weightLbs l = Some x -> (0 <= x)%Q).

Definition ratingOf (type : RatingType) (l : DailyLog) : option Rating :=
  match type with
  | energy => energyRating l
  | hunger => hungerRating l
  | motivation => motivationRating l
  end.

(** Every goal is above zero. *)
Definition allPositive (g : UserGoals) : Prop :=
  forall k, (0 < GoalEditor.goalOf k g)%Q.

(** A [parseFloat] for examples: it knows three texts. *)
Definition sampleParseFloat (text : string) : option Q :=
  if String.eqb text "30" then Some 30%Q
  else if String.eqb text "-2" then Some (-2)%Q
  else if String.eqb text "0" then Some 0%Q
  else None.

Definition sampleNumberToString (q : Q) : string :=
  if Qeq_bool q 120 then "120" else "?".

(** Raw step samples for examples. *)
Definition morningWalk : list HealthKit.CapgoHealthSample :=
  HealthKit.mkRaw 1200 (Some "count") "2024-03-20T07:00:00Z" "2024-03-20T07:30:00Z" None ::
  HealthKit.mkRaw 800 None "2024-03-20T08:00:00Z" "2024-03-20T08:10:00Z" (Some "Watch") ::
  nil.

End Invariants.

(** *** A whole session: auth changes and operations *)

Module SessionEvents.

Import Js AppContext Spec Session.

Inductive SessionEvent : Type :=
| AuthChange (sessionUser : option User) (clock : Date)
    (logData : option DbDailyLog) (goalsData : option DbUserGoals)
    (profileData : option DbProfile)
| Does (op : Op).

Section Steps.

Variable daysBefore : Date -> Z -> Date.
Variable parseDate : string -> Date.

Definition sessionStep (w : World) (ev : SessionEvent) : World :=
  match ev with
  | AuthChange sessionUser clock logData goalsData profileData =>
      onAuthStateChange sessionUser clock logData goalsData profileData w
  | Does op => perform daysBefore parseDate w op
  end.

Definition session (events : list SessionEvent) (w : World) : World :=
  fold_left sessionStep events w.

End Steps.

(** The event brings no profile row and is no successful profile or
    cycle-settings update. *)
Definition bringsNoProfile (ev : SessionEvent) : bool :=
  match ev with
  | AuthChange _ _ _ _ profileData => negb (isPresent profileData)
  | Does (Reload _ _ _ profileData) => negb (isPresent profileData)
  | Does (Tick _ _ _ profileData) => negb (isPresent profileData)
  | Does (UpdateProfile _ _ error) => isPresent error
  | Does (UpdateCycle _ _ error) => isPresent error
  | Does _ => true
  end.

(** The event keeps a user signed in, brings no goals row and is no
    successful goal update. *)
Definition bringsNoGoals (ev : SessionEvent) : bool :=
  match ev with
  | AuthChange sessionUser _ _ goalsData _ =>
      isPresent sessionUser && negb (isPresent goalsData)
  | Does (Reload _ _ goalsData _) => negb (isPresent goalsData)
  | Does (Tick _ _ goalsData _) => negb (isPresent goalsData)
  | Does (UpdateGoal _ _ _ error) => isPresent error
  | Does _ => true
  end.

(** One user signs out, another one without stored settings signs in and
    logs a meal. *)
Definition handOver : list SessionEvent :=
  AuthChange None lateEvening None None None ::
  AuthChange (Some (mkUser "user-2")) lateEvening None None None ::
  Does (Mutate (AddMacro protein 30) lateEvening) ::
  Does (Tick nextMidnight None None None) :: nil.

(** User-1 after setting a height and a protein goal. *)
Definition settled : World :=
  snd (updateGoal proteinGoalKey 150 earlyMorning None
         (snd (updateProfile (heightFeetUpdate 5 7) earlyMorning None
                 (signedIn earlyMorning)))).

End SessionEvents.

(** ** The accumulating code in double precision *)

(** A JavaScript [number] is an IEEE 754 binary64 value, and [+], [*]
    and [/] round to the nearest one, ties to even: the primitive
    [float] and its operations.  Where the code keeps adding numbers
    (the macro accumulators of [addMacro], the [reduce] of
    [getSevenDayAverages]) the result depends on that rounding, so
    these functions are embedded once more, over [float], together
    with the part of the provider they touch: the signed-in user, the
    cached record, the writes in flight and the table. *)

Module Ieee.

Import Js.

Local Open Scope float_scope.

Record DailyLog : Type := mkDailyLog {
  date : string;
  proteinGrams : float;
  carbsGrams : float;
  fatGrams : float;
  totalCalories : float;
  sleepHours : option float;
  weightLbs : option float;
  isPeriodDay : bool;
  steps : float;
  energyRating : option Rating;
  hungerRating : option Rating;
  motivationRating : option Rating;
  createdAt : string;
  updatedAt : string
}.

Definition createEmptyDailyLog (d clock : Date) : DailyLog :=
  let dateString := AppContext.getLocalDateString d in
  let now := toISOString clock in
  {| date := dateString;
     proteinGrams := 0;
     carbsGrams := 0;
     fatGrams := 0;
     totalCalories := 0;
     sleepHours := None;
     weightLbs := None;
     isPeriodDay := false;
     steps := 0;
     energyRating := None;
     hungerRating := None;
     motivationRating := None;
     createdAt := now;
     updatedAt := now |}.

Definition calculateCalories (protein carbs fat : float) : float :=
  (protein * 4) + (carbs * 4) + (fat * 9).

(** [x || 0] on a nullable number: [null], [0], [-0] and [NaN] are falsy. *)
Definition orZero (x : option float) : float :=
  match x with
  | Some v => if v =? 0 then 0 else if v =? v then v else 0
  | None => 0
  end.

(** [l.length] as a number (exact: an array is shorter than [2^32]). *)
Definition lengthOf {A : Type} (l : list A) : float :=
  of_uint63 (Uint63Axioms.of_Z (Z.of_nat (List.length l))).

(** *** The cached record, the writes in flight and the table *)

Inductive Value : Type :=
| VNull
| VBool (b : bool)
| VNum (x : float)
| VStr (s : string).

Definition ofNullableNum (x : option float) : Value :=
  match x with
  | Some v => VNum v
  | None => VNull
  end.

Definition ratingNumber (r : Rating) : float :=
  match r with
  | R1 => 1
  | R2 => 2
  | R3 => 3
  | R4 => 4
  | R5 => 5
  end.

Definition ofNullableRating (x : option Rating) : Value :=
  match x with
  | Some r => VNum (ratingNumber r)
  | None => VNull
  end.

Record Upsert : Type := mkUpsert {
  up_user : string;
  up_date : string;
  up_payload : gmap string Value
}.

(** [user] as [useAuth] gives it, the [todayLog] hook, the upserts
    issued on the client, those not yet settled, and [daily_logs]. *)
Record World : Type := mkWorld {
  user : option AppContext.User;
  todayLog : DailyLog;
  io : list (gmap string Value);
  inflight : list Upsert;
  daily_logs : gmap (string * string) (gmap string Value)
}.

Definition setTodayLog (l : DailyLog) (w : World) : World :=
  mkWorld (user w) l (io w) (inflight w) (daily_logs w).

Definition initialWorld (u : option AppContext.User) (clock : Date)
    (table : gmap (string * string) (gmap string Value)) : World :=
  mkWorld u (createEmptyDailyLog clock clock) nil nil table.

(** *** saveToSupabase and addMacro *)

Definition upsertPayload (u : AppContext.User) (log : DailyLog) (totalCalories : float)
    (clock : Date) : gmap string Value :=
  list_to_map
    (("user_id", VStr (AppContext.id u)) ::
     ("log_date", VStr (date log)) ::
     ("protein_grams", VNum (proteinGrams log)) ::
     ("carbs_grams", VNum (carbsGrams log)) ::
     ("fat_grams", VNum (fatGrams log)) ::
     ("total_calories", VNum totalCalories) ::
     ("sleep_hours", ofNullableNum (sleepHours log)) ::
     ("weight_lbs", ofNullableNum (weightLbs log)) ::
     ("is_period_day", VBool (isPeriodDay log)) ::
     ("steps", VNum (steps log)) ::
     ("energy_rating", ofNullableRating (energyRating log)) ::
     ("hunger_rating", ofNullableRating (hungerRating log)) ::
     ("motivation_rating", ofNullableRating (motivationRating log)) ::
     ("updated_at", VStr (toISOString clock)) :: nil).

Definition saveToSupabase (clock : Date) (log : DailyLog) (w : World) : World :=
  match user w with
  | None => w
  | Some u =>
      let totalCalories :=
        calculateCalories (proteinGrams log) (carbsGrams log) (fatGrams log) in
      let payload := upsertPayload u log totalCalories clock in
      mkWorld (user w) (todayLog w) (io w ++ payload :: nil)
              (inflight w ++ mkUpsert (AppContext.id u) (date log) payload :: nil)
              (daily_logs w)
  end.

(** [{ ...prev, [key]: prev[key] + grams, updatedAt }] followed by the
    assignment to [newLog.totalCalories]. *)
Definition addMacroLog (type : AppContext.MacroType) (grams : float) (clock : Date)
    (prev : DailyLog) : DailyLog :=
  let p := match type with
           | AppContext.protein => proteinGrams prev + grams
           | _ => proteinGrams prev
           end in
  let c := match type with
           | AppContext.carbs => carbsGrams prev + grams
           | _ => carbsGrams prev
           end in
  let f := match type with
           | AppContext.fat => fatGrams prev + grams
           | _ => fatGrams prev
           end in
  {| date := date prev;
     proteinGrams := p;
     carbsGrams := c;
     fatGrams := f;
     totalCalories := calculateCalories p c f;
     sleepHours := sleepHours prev;
     weightLbs := weightLbs prev;
     isPeriodDay := isPeriodDay prev;
     steps := steps prev;
     energyRating := energyRating prev;
     hungerRating := hungerRating prev;
     motivationRating := motivationRating prev;
     createdAt := createdAt prev;
     updatedAt := toISOString clock |}.

(** [setTodayLog(prev => { newLog = ...; saveToSupabase(newLog); return newLog })] *)
Definition addMacro (type : AppContext.MacroType) (grams : float) (clock : Date)
    (w : World) : World :=
  let newLog := addMacroLog type grams clock (todayLog w) in
  setTodayLog newLog (saveToSupabase clock newLog w).

(** The write reaches the table, or is lost. *)
Definition land (n : nat) (w : World) : World :=
  match nth_error (inflight w) n with
  | None => w
  | Some up =>
      let key := (up_user up, up_date up) in
      let old := default ∅ (daily_logs w !! key) in
      mkWorld (user w) (todayLog w) (io w) (AppContext.removeNth n (inflight w))
              (<[ key := up_payload up ∪ old ]> (daily_logs w))
  end.

Definition lose (n : nat) (w : World) : World :=
  mkWorld (user w) (todayLog w) (io w) (AppContext.removeNth n (inflight w))
          (daily_logs w).

(** *** The reduce of getSevenDayAverages *)

Record AvgRow : Type := mkAvgRow {
  row_total_calories : option float;
  row_protein_grams : option float;
  row_steps : option float;
  row_sleep_hours : option float
}.

Record SevenDayAverages : Type := mkSevenDayAverages {
  avg_calories : option float;
  avg_protein : option float;
  avg_steps : option float;
  avg_sleep : option float
}.

Definition allNull : SevenDayAverages :=
  {| avg_calories := None; avg_protein := None; avg_steps := None; avg_sleep := None |}.

Record Sums : Type := mkSums {
  sum_calories : float;
  sum_protein : float;
  sum_steps : float;
  sum_sleep : float
}.

Definition addRow (acc : Sums) (row : AvgRow) : Sums :=
  {| sum_calories := sum_calories acc + orZero (row_total_calories row);
     sum_protein := sum_protein acc + orZero (row_protein_grams row);
     sum_steps := sum_steps acc + orZero (row_steps row);
     sum_sleep := sum_sleep acc + orZero (row_sleep_hours row) |}.

Definition isValidRow (row : AvgRow) : bool :=
  AppContext.isPresent (row_total_calories row)
  || AppContext.isPresent (row_protein_grams row)
  || AppContext.isPresent (row_steps row)
  || AppContext.isPresent (row_sleep_hours row).

(** The body of [getSevenDayAverages] from the [data.length === 0]
    test on. *)
Definition averagesOf (data : list AvgRow) : SevenDayAverages :=
  match data with
  | nil => allNull
  | _ :: _ =>
      let validData := List.filter isValidRow data in
      match validData with
      | nil => allNull
      | _ :: _ =>
          let sum := fold_left addRow validData (mkSums 0 0 0 0) in
          let count := lengthOf validData in
          let sleepRows :=
            List.filter (fun row => AppContext.isPresent (row_sleep_hours row)) validData in
          {| avg_calories := Some (sum_calories sum / count);
             avg_protein := Some (sum_protein sum / count);
             avg_steps := Some (sum_steps sum / count);
             avg_sleep :=
               match sleepRows with
               | nil => None
               | _ :: _ => Some (sum_sleep sum / lengthOf sleepRows)
               end |}
      end
  end.

End Ieee.

(** *** Notions for the properties in double precision *)

Module IeeeSpec.

Import Js AppContext Spec.

Local Open Scope float_scope.

Definition macroOf (type : MacroType) (l : Ieee.DailyLog) : float :=
  match type with
  | protein => Ieee.proteinGrams l
  | carbs => Ieee.carbsGrams l
  | fat => Ieee.fatGrams l
  end.

Definition sameMacro (a b : MacroType) : bool :=
  match a, b with
  | protein, protein | carbs, carbs | fat, fat => true
  | _, _ => false
  end.

(** Calls of [addMacro] interleaved with the settling of writes. *)
Inductive Event : Type :=
| Calls (type : MacroType) (grams : float) (clock : Date)   (* addMacro(type, grams) *)
| Lands (n : nat)        (* the n-th write in flight reaches the table *)
| Lost (n : nat).        (* the n-th write in flight fails *)

Definition step (w : Ieee.World) (e : Event) : Ieee.World :=
  match e with
  | Calls type grams clock => Ieee.addMacro type grams clock w
  | Lands n => Ieee.land n w
  | Lost n => Ieee.lose n w
  end.

Definition run (events : list Event) (w : Ieee.World) : Ieee.World :=
  fold_left step events w.

Definition isCall (e : Event) : bool :=
  match e with
  | Calls _ _ _ => true
  | _ => false
  end.

(** The deltas the calls of a trace pass for one macro, in call order. *)
Fixpoint deltas (type : MacroType) (events : list Event) : list float :=
  match events with
  | nil => nil
  | Calls t grams _ :: rest =>
      if sameMacro t type then grams :: deltas type rest else deltas type rest
  | _ :: rest => deltas type rest
  end.

(** [initial + d1 + d2 + ...], each [+] rounding. *)
Definition addInOrder (initial : float) (ds : list float) : float :=
  fold_left PrimFloat.add ds initial.

(** The sum of the deltas on their own. *)
Definition deltaSum (ds : list float) : float :=
  addInOrder 0 ds.

Definition calls (type : MacroType) (clock : Date) (ds : list float) : list Event :=
  List.map (fun g => Calls type g clock) ds.

(** A whole number of grams. *)
Definition wholeGrams (n : nat) : float :=
  of_uint63 (Uint63Axioms.of_Z (Z.of_nat n)).

(** The deltas of the specification's example. *)
Definition exampleDeltas : list float := 10 :: -3 :: 5 :: nil.

(** On [n] grams the example's deltas leave [n + 12] grams. *)
Definition exampleHolds (n : nat) : bool :=
  PrimFloat.Leibniz.eqb (addInOrder (wholeGrams n) exampleDeltas) (wholeGrams n + 12).

(** The values that are zero or more, on the specification side. *)
Definition zeroOrMore (x : spec_float) : bool :=
  match x with
  | S754_zero _ => true
  | S754_infinity s | S754_finite s _ _ => negb s
  | S754_nan => false
  end.

(** Zero or more: [0 <= x] as the runtime tests it (false for [NaN]). *)
Definition nonNegative (x : float) : Prop :=
  (0 <=? x) = true.

Definition negative (x : float) : Prop :=
  (x <? 0) = true.

(** The calories one gram of a macro stands for. *)
Definition caloriesPerGram (type : MacroType) : float :=
  match type with
  | protein => 4
  | carbs => 4
  | fat => 9
  end.

(** The stored calorie total agrees with the macros. *)
Definition caloriesConsistent (l : Ieee.DailyLog) : Prop :=
  Ieee.totalCalories l =
  Ieee.calculateCalories (Ieee.proteinGrams l) (Ieee.carbsGrams l) (Ieee.fatGrams l).

Definition signedIn (clock : Date) : Ieee.World :=
  Ieee.initialWorld (Some someUser) clock ∅.

(** A signed-in user has logged a tenth of a gram of protein. *)
Definition tenthOfAGram : Ieee.World :=
  Ieee.addMacro protein 0.1 earlyMorning (signedIn earlyMorning).

(** A signed-in user has logged a tenth of a gram of fat. *)
Definition tenthOfFat : Ieee.World :=
  Ieee.addMacro fat 0.1 earlyMorning (signedIn earlyMorning).

(** Three nights of sleep, in two orders. *)
Definition night (hours : float) : Ieee.AvgRow :=
  Ieee.mkAvgRow None None None (Some hours).

Definition threeNights : list Ieee.AvgRow :=
  night 7.1 :: night 7.2 :: night 7.4 :: nil.

Definition threeNightsReordered : list Ieee.AvgRow :=
  night 7.1 :: night 7.4 :: night 7.2 :: nil.

End IeeeSpec.

(** ** Proof automation *)

Import Js AppContext Spec.

(** Every operation opens with a test of [user]. *)
Ltac no_user U :=
  rewrite U; split; [repeat split | exact U].

(** The three update functions have one shape: without a user they
    return at once; with one they issue a write, and the answer alone
    decides between updating the cache and rejecting. *)
Ltac settle_update U :=
  unfold pessimistic;
  match goal with
  | |- context [user (app ?w)] => destruct (user (app w)) as [?u|] eqn:U
  end;
  (cbn [fst snd app call withApp setGoals setProfile setCycleSettings
        goals profile cycleSettings user io];
   split;
   [ reflexivity
   | split;
     [ intros ? ?; solve [reflexivity | contradiction]
     | split;
       [ intros ?; solve [split; reflexivity | contradiction]
       | intros [?e|] ?H;
         [ exfalso; apply H; reflexivity
         | first [ split; [reflexivity | eexists; split; [| reflexivity]; reflexivity]
                 | exfalso; apply H; reflexivity ] ] ] ] ]).

(* ================================================================== *)
(** * Properties *)
(* ================================================================== *)

(** ** Day keys *)

Lemma numToString_inj (a b : Z) : numToString a = numToString b -> a = b.
Proof.
  unfold numToString. intros H.
  assert (Hd : Some (Z.to_int a) = Some (Z.to_int b)).
  { rewrite <- (NilEmpty.isi (Z.to_int a)), <- (NilEmpty.isi (Z.to_int b)).
    now rewrite H. }
  injection Hd as Hd.
  rewrite <- (DecimalZ.of_to a), <- (DecimalZ.of_to b).
  now rewrite Hd.
Qed.

Lemma below_spec (P : Z -> bool) (k : nat) :
  forallb P (below k) = true ->
  forall n, 0 <= n < Z.of_nat k -> P n = true.
Proof.
  intros H n Hn. unfold below in H.
  rewrite forallb_forall in H. apply H.
  apply in_map_iff. exists (Z.to_nat n). split.
  - lia.
  - apply in_seq. lia.
Qed.

Lemma twoDigits_checked : forallb twoDigitsOk (below 32) = true.
Proof. vm_compute. reflexivity. Qed.

Lemma twoDigits_length (n : Z) :
  0 <= n < 32 -> String.length (twoDigits n) = 2%nat.
Proof.
  intros Hn.
  pose proof (below_spec twoDigitsOk 32 twoDigits_checked n Hn) as H.
  unfold twoDigitsOk in H. apply andb_true_iff in H as [H _].
  now apply Nat.eqb_eq.
Qed.

Lemma twoDigits_inj (n m : Z) :
  0 <= n < 32 -> 0 <= m < 32 -> twoDigits n = twoDigits m -> n = m.
Proof.
  intros Hn Hm E.
  pose proof (below_spec twoDigitsOk 32 twoDigits_checked n Hn) as H.
  unfold twoDigitsOk in H. apply andb_true_iff in H as [_ H].
  pose proof (below_spec _ 32 H m Hm) as H'. cbv beta in H'.
  rewrite E, String.eqb_refl in H'. simpl in H'.
  now apply Z.eqb_eq.
Qed.

Lemma string_app_nil (s : string) : EmptyString ++ s = s.
Proof. reflexivity. Qed.

Lemma string_app_cons (c : ascii) (a b : string) :
  String c a ++ b = String c (a ++ b).
Proof. reflexivity. Qed.

Lemma string_length_app (a b : string) :
  String.length (a ++ b) = (String.length a + String.length b)%nat.
Proof.
  induction a as [|c a IH].
  - now rewrite string_app_nil.
  - rewrite string_app_cons. cbn [String.length]. now rewrite IH.
Qed.

(** Two concatenations with tails of equal length agree part by part. *)
Lemma string_app_inj_tail (a1 a2 b1 b2 : string) :
  String.length b1 = String.length b2 ->
  a1 ++ b1 = a2 ++ b2 -> a1 = a2 /\ b1 = b2.
Proof.
  revert a2. induction a1 as [|c a1 IH]; intros [|c' a2] Hlen E;
    rewrite ?string_app_nil, ?string_app_cons in E.
  - auto.
  - exfalso. rewrite E in Hlen. cbn [String.length] in Hlen.
    rewrite string_length_app in Hlen. lia.
  - exfalso. rewrite <- E in Hlen. cbn [String.length] in Hlen.
    rewrite string_length_app in Hlen. lia.
  - injection E as -> E. destruct (IH a2 Hlen E) as [-> ->]. auto.
Qed.

Lemma dayKey_tail_length (m d : Z) :
  0 <= m < 32 -> 0 <= d < 32 ->
  String.length ("-" ++ twoDigits m ++ "-" ++ twoDigits d) = 6%nat.
Proof.
  intros Hm Hd. rewrite !string_length_app.
  rewrite (twoDigits_length m Hm), (twoDigits_length d Hd). reflexivity.
Qed.

Lemma getLocalDateString_inj (d1 d2 : Date) :
  validDate d1 -> validDate d2 ->
  getLocalDateString d1 = getLocalDateString d2 -> sameLocalDay d1 d2.
Proof.
  intros [Hm1 Hd1] [Hm2 Hd2] E. unfold getLocalDateString in E. cbv zeta in E.
  fold (twoDigits (getMonth d1 + 1)) (twoDigits (getDate d1))
       (twoDigits (getMonth d2 + 1)) (twoDigits (getDate d2)) in E.
  apply string_app_inj_tail in E as [Ey E].
  2:{ rewrite !dayKey_tail_length; [reflexivity | lia ..]. }
  rewrite !(string_app_cons _ EmptyString), !string_app_nil in E. injection E as E.
  apply string_app_inj_tail in E as [Em E].
  2:{ cbn [String.length]. rewrite !twoDigits_length; [reflexivity | lia ..]. }
  injection E as E.
  apply numToString_inj in Ey.
  apply twoDigits_inj in Em; [| lia ..].
  apply twoDigits_inj in E; [| lia ..].
  unfold sameLocalDay. repeat split; lia.
Qed.

(** C7.  Two valid dates have the same day key exactly when they fall in
    the same local calendar day: dates that differ only in their time of
    day get identical keys, dates on either side of a local midnight get
    different keys; and [isLogStale] answers [true] exactly when the
    record's key differs from the key of the current instant. *)
Theorem C7_day_key_and_staleness (d1 d2 clock : Date) (recordDayKey : string) :
  validDate d1 -> validDate d2 ->
  (sameLocalDay d1 d2 -> getLocalDateString d1 = getLocalDateString d2) /\
  (~ sameLocalDay d1 d2 -> getLocalDateString d1 <> getLocalDateString d2) /\
  (isLogStale clock recordDayKey = true <-> recordDayKey <> getLocalDateString clock).
Proof.
  intros V1 V2. split; [| split].
  - intros (Ey & Em & Ed). unfold getLocalDateString. now rewrite Ey, Em, Ed.
  - intros Hne E. apply Hne. now apply getLocalDateString_inj.
  - unfold isLogStale, getTodayString. rewrite negb_true_iff.
    destruct (String.eqb_spec recordDayKey (getLocalDateString clock)) as [E | E].
    + split; [discriminate | contradiction].
    + split; auto.
Qed.

(** An early morning and a late evening of 20 March share a key, the
    midnight that follows has another one, and it finds the evening's
    record stale. *)
Lemma C7_witness :
  getLocalDateString earlyMorning = getLocalDateString lateEvening /\
  getLocalDateString lateEvening <> getLocalDateString nextMidnight /\
  isLogStale nextMidnight (getLocalDateString lateEvening) = true.
Proof.
  assert (V : forall d, In d (earlyMorning :: lateEvening :: nextMidnight :: nil) -> validDate d).
  { intros d [<- | [<- | [<- | []]]]; unfold validDate; simpl; lia. }
  split; [| split].
  - apply (C7_day_key_and_staleness earlyMorning lateEvening nextMidnight "2024-03-19");
      [apply V; simpl; auto | apply V; simpl; auto |].
    unfold sameLocalDay; simpl; auto.
  - apply (C7_day_key_and_staleness lateEvening nextMidnight nextMidnight "2024-03-19");
      [apply V; simpl; auto | apply V; simpl; auto |].
    unfold sameLocalDay; simpl. intros (_ & _ & H). discriminate H.
  - apply (C7_day_key_and_staleness lateEvening nextMidnight nextMidnight
             (getLocalDateString lateEvening));
      [apply V; simpl; auto | apply V; simpl; auto |].
    apply (C7_day_key_and_staleness lateEvening nextMidnight nextMidnight "2024-03-19");
      [apply V; simpl; auto | apply V; simpl; auto |].
    unfold sameLocalDay; simpl. intros (_ & _ & H). discriminate H.
Defined.

(** ** The empty record *)

Lemma createEmptyDailyLog_fields (d clock : Date) :
  emptyFields (createEmptyDailyLog d clock) /\
  isPeriodDay (createEmptyDailyLog d clock) = false /\
  totalCalories (createEmptyDailyLog d clock) = 0%Q.
Proof. unfold emptyFields. simpl. repeat split. Qed.

Lemma loadData_no_row (clock : Date) (goalsData : option DbUserGoals)
    (profileData : option DbProfile) (w : World) :
  todayLog (app (loadData clock None goalsData profileData w)) =
  createEmptyDailyLog clock clock.
Proof.
  unfold loadData. destruct (user (app w)) as [u|]; [| reflexivity].
  destruct goalsData, profileData; reflexivity.
Qed.

(** For a new user with no stored log, the cache does not hold the empty
    record with an unset period flag: the flag is [false]. *)
Lemma C1_counterexample :
  ~ (emptyFields
       (todayLog (app (loadData earlyMorning None None None
                         (initialWorld (Some someUser) earlyMorning ∅)))) /\
     periodFlag
       (isPeriodDay
          (todayLog (app (loadData earlyMorning None None None
                            (initialWorld (Some someUser) earlyMorning ∅)))))
     = flagUnset).
Proof. rewrite loadData_no_row. simpl. intros [_ H]. discriminate H. Qed.

(** C1 (amended).  The record the cache starts from, and the one the load
    path puts there when the store has no row for today (or nobody is
    signed in), has the three macro accumulators and the stored calorie
    total at 0, sleep and weight absent, steps 0 and the three ratings
    absent; its period flag is the boolean [false].  A cached flag is
    never the unset value: only the legacy types module creates its empty
    record with the flag unset. *)
Theorem C1_empty_record (u : option User) (clock : Date)
    (goalsData : option DbUserGoals) (profileData : option DbProfile) (w : World) :
  emptyFields (todayLog (initialState u clock)) /\
  isPeriodDay (todayLog (initialState u clock)) = false /\
  emptyFields (todayLog (app (loadData clock None goalsData profileData w))) /\
  isPeriodDay (todayLog (app (loadData clock None goalsData profileData w))) = false /\
  totalCalories (todayLog (app (loadData clock None goalsData profileData w))) = 0%Q /\
  (forall b : bool, periodFlag b <> flagUnset) /\
  legacyPeriodFlag (Types.isPeriodDay (Types.createEmptyDailyLog clock clock)) = flagUnset.
Proof.
  rewrite loadData_no_row.
  destruct (createEmptyDailyLog_fields clock clock) as (F & P & T).
  repeat split; try assumption; try reflexivity.
  intros [|]; discriminate.
Qed.

(** ** The calorie total kept in the cache *)

Lemma mutate_todayLog (update : DailyLog -> DailyLog) (clock : Date) (w : World) :
  todayLog (app (mutate update clock w)) = update (todayLog (app w)).
Proof.
  unfold mutate, saveToSupabase. destruct (user (app w)); reflexivity.
Qed.

Lemma applyMutation_todayLog (m : Mutation) (clock : Date) (w : World) :
  todayLog (app (applyMutation m clock w)) = mutateLog m clock (todayLog (app w)).
Proof. destruct m; apply mutate_todayLog. Qed.

Lemma mutateLog_consistent (m : Mutation) (clock : Date) (l : DailyLog) :
  caloriesConsistent l -> caloriesConsistent (mutateLog m clock l).
Proof.
  unfold caloriesConsistent. intros H.
  destruct m; simpl; try exact H. reflexivity.
Qed.

(** C10.  The empty record satisfies [totalCalories ==
    calculateCalories(proteinGrams, carbsGrams, fatGrams)], and every
    daily-log mutator takes a cache whose record satisfies it to a cache
    whose record satisfies it. *)
Theorem C10_mutators_keep_calories (m : Mutation) (d clock : Date) (w : World) :
  caloriesConsistent (createEmptyDailyLog d clock) /\
  (caloriesConsistent (todayLog (app w)) ->
   caloriesConsistent (todayLog (app (applyMutation m clock w)))).
Proof.
  split.
  - unfold caloriesConsistent. simpl. reflexivity.
  - intros H. rewrite applyMutation_todayLog. now apply mutateLog_consistent.
Qed.

(** Adding 10 g of protein to a fresh cache keeps the calorie total in
    step with the macros. *)
Lemma C10_witness :
  caloriesConsistent
    (todayLog (app (applyMutation (AddMacro protein 10) lateEvening
                      (initialWorld (Some someUser) earlyMorning ∅)))).
Proof.
  apply (C10_mutators_keep_calories (AddMacro protein 10) earlyMorning lateEvening
           (initialWorld (Some someUser) earlyMorning ∅)).
  unfold caloriesConsistent. simpl. reflexivity.
Defined.

(** ** Macro accumulators *)

(** *** Addition of doubles *)

Lemma SFleb_zero (x : spec_float) : SFleb (S754_zero false) x = IeeeSpec.zeroOrMore x.
Proof. destruct x as [s|s| |s m e]; try destruct s; reflexivity. Qed.

Lemma shr_1_nonneg (mrs : shr_record) : 0 <= shr_m mrs -> 0 <= shr_m (shr_1 mrs).
Proof.
  destruct mrs as [m r s]. cbn [shr_m]. intros H.
  destruct m as [|[p|p|]|p]; cbn; lia.
Qed.

Lemma iter_shr_1_nonneg (p : positive) (mrs : shr_record) :
  0 <= shr_m mrs -> 0 <= shr_m (@SpecFloat.iter_pos _ shr_1 p mrs).
Proof.
  revert mrs. induction p as [p IH|p IH|]; intros mrs H; cbn [SpecFloat.iter_pos].
  - apply IH, IH. now apply shr_1_nonneg.
  - now apply IH, IH.
  - now apply shr_1_nonneg.
Qed.

Lemma shr_fexp_nonneg (m e : Z) (l : location) :
  0 <= m -> 0 <= shr_m (fst (shr_fexp prec emax m e l)).
Proof.
  intros H. unfold shr_fexp, shr.
  assert (H0 : 0 <= shr_m (shr_record_of_loc m l)) by (destruct l as [|[]]; exact H).
  destruct (fexp prec emax (Zdigits2 m + e) - e); cbn [fst]; try exact H0.
  now apply iter_shr_1_nonneg.
Qed.

Lemma round_nearest_even_nonneg (m : Z) (l : location) :
  0 <= m -> 0 <= round_nearest_even m l.
Proof. intros H. destruct l as [|[]]; cbn; try destruct (Z.even m); lia. Qed.

(** Rounding keeps the sign it is given. *)
Lemma binary_round_aux_sign (s : bool) (m e : Z) (l : location) :
  0 <= m ->
  IeeeSpec.zeroOrMore (binary_round_aux prec emax s m e l) = negb s \/
  exists s', binary_round_aux prec emax s m e l = S754_zero s'.
Proof.
  intros H. unfold binary_round_aux.
  pose proof (shr_fexp_nonneg m e l H) as H1.
  destruct (shr_fexp prec emax m e l) as [mrs' e']. cbn [fst] in H1.
  pose proof (shr_fexp_nonneg _ e' loc_Exact
                (round_nearest_even_nonneg _ (loc_of_shr_record mrs') H1)) as H2.
  destruct (shr_fexp prec emax
              (round_nearest_even (shr_m mrs') (loc_of_shr_record mrs')) e' loc_Exact)
    as [mrs'' e'']. cbn [fst] in H2.
  destruct (shr_m mrs'') as [|p|p]; [right; eauto | | lia].
  left. destruct (Z.leb e'' (emax - prec)); reflexivity.
Qed.

Lemma SFadd_zeroOrMore (x y : spec_float) :
  IeeeSpec.zeroOrMore x = true -> IeeeSpec.zeroOrMore y = true ->
  IeeeSpec.zeroOrMore (SF64add x y) = true.
Proof.
  destruct x as [sx|sx| |sx mx ex], y as [sy|sy| |sy my ey]; cbn [IeeeSpec.zeroOrMore];
    try discriminate; intros Hx Hy;
    try (apply negb_true_iff in Hx; subst sx);
    try (apply negb_true_iff in Hy; subst sy);
    try reflexivity.
  - destruct sx, sy; reflexivity.
  - unfold SF64add, SFadd. cbn [cond_Zopp].
    set (a := fst (shl_align mx ex (Z.min ex ey))).
    set (b := fst (shl_align my ey (Z.min ex ey))).
    change (Z.pos a + Z.pos b) with (Z.pos (a + b)).
    cbn [binary_normalize]. unfold binary_round.
    destruct (shl_align (a + b) _ _) as [mz ez].
    destruct (binary_round_aux_sign false (Z.pos mz) ez loc_Exact) as [E | [s' E]];
      [lia | exact E |].
    rewrite E. reflexivity.
Qed.

(** The sum of two numbers that are zero or more is zero or more
    (possibly [Infinity], never [NaN]). *)
Lemma add_nonNegative (x y : float) :
  IeeeSpec.nonNegative x -> IeeeSpec.nonNegative y -> IeeeSpec.nonNegative (x + y)%float.
Proof.
  unfold IeeeSpec.nonNegative. rewrite !leb_spec, add_spec.
  change (Prim2SF 0) with (S754_zero false).
  rewrite !SFleb_zero. apply SFadd_zeroOrMore.
Qed.

(** Adding a negative number to [0] gives that number. *)
Lemma zero_add_negative (g : float) : IeeeSpec.negative g -> (0 + g)%float = g.
Proof.
  unfold IeeeSpec.negative. rewrite ltb_spec. intros H.
  apply Prim2SF_inj. rewrite add_spec.
  change (Prim2SF 0) with (S754_zero false) in *.
  destruct (Prim2SF g) as [s|s| |s m e]; try destruct s; try discriminate H; reflexivity.
Qed.

Lemma addInOrder_nonNegative (ds : list float) (initial : float) :
  IeeeSpec.nonNegative initial -> Forall IeeeSpec.nonNegative ds ->
  IeeeSpec.nonNegative (IeeeSpec.addInOrder initial ds).
Proof.
  intros I F. revert initial I. induction F as [|d ds D _ IH]; intros initial I.
  - exact I.
  - apply IH. now apply add_nonNegative.
Qed.

(** *** Traces of calls and settling writes *)

Lemma ieee_step_todayLog (w : Ieee.World) (e : IeeeSpec.Event) :
  Ieee.todayLog (IeeeSpec.step w e) =
  match e with
  | IeeeSpec.Calls type grams clock => Ieee.addMacroLog type grams clock (Ieee.todayLog w)
  | _ => Ieee.todayLog w
  end.
Proof.
  destruct e as [t g c | n | n]; unfold IeeeSpec.step.
  - reflexivity.
  - unfold Ieee.land. destruct (nth_error (Ieee.inflight w) n); reflexivity.
  - reflexivity.
Qed.

Lemma ieee_macroOf_addMacroLog (type t : MacroType) (grams : float) (clock : Date)
    (l : Ieee.DailyLog) :
  IeeeSpec.macroOf type (Ieee.addMacroLog t grams clock l) =
  if IeeeSpec.sameMacro t type
  then (IeeeSpec.macroOf type l + grams)%float
  else IeeeSpec.macroOf type l.
Proof. destruct t, type; reflexivity. Qed.

Lemma ieee_macro_after_run (type : MacroType) (events : list IeeeSpec.Event)
    (w : Ieee.World) :
  IeeeSpec.macroOf type (Ieee.todayLog (IeeeSpec.run events w)) =
  IeeeSpec.addInOrder (IeeeSpec.macroOf type (Ieee.todayLog w))
    (IeeeSpec.deltas type events).
Proof.
  revert w. induction events as [|e events IH]; intros w; [reflexivity |].
  change (IeeeSpec.run (e :: events) w) with (IeeeSpec.run events (IeeeSpec.step w e)).
  rewrite IH, ieee_step_todayLog.
  destruct e as [t g c | n | n]; cbn [IeeeSpec.deltas]; try reflexivity.
  rewrite ieee_macroOf_addMacroLog.
  destruct (IeeeSpec.sameMacro t type); reflexivity.
Qed.

Lemma ieee_cache_ignores_settling (events : list IeeeSpec.Event) (w1 w2 : Ieee.World) :
  Ieee.todayLog w1 = Ieee.todayLog w2 ->
  Ieee.todayLog (IeeeSpec.run events w1) =
  Ieee.todayLog (IeeeSpec.run (List.filter IeeeSpec.isCall events) w2).
Proof.
  revert w1 w2. induction events as [|e events IH]; intros w1 w2 E.
  - exact E.
  - change (IeeeSpec.run (e :: events) w1)
      with (IeeeSpec.run events (IeeeSpec.step w1 e)).
    destruct e as [t g c | n | n]; cbn [List.filter IeeeSpec.isCall].
    + change (IeeeSpec.run (IeeeSpec.Calls t g c :: List.filter IeeeSpec.isCall events) w2)
        with (IeeeSpec.run (List.filter IeeeSpec.isCall events)
                (IeeeSpec.step w2 (IeeeSpec.Calls t g c))).
      apply IH. rewrite !ieee_step_todayLog. now rewrite E.
    + apply IH. now rewrite ieee_step_todayLog.
    + apply IH. now rewrite ieee_step_todayLog.
Qed.

Lemma deltas_calls (type : MacroType) (clock : Date) (ds : list float) :
  IeeeSpec.deltas type (IeeeSpec.calls type clock ds) = ds.
Proof.
  induction ds as [|d ds IH]; [reflexivity |].
  cbn [IeeeSpec.calls List.map IeeeSpec.deltas].
  replace (IeeeSpec.sameMacro type type) with true by (now destruct type).
  f_equal. exact IH.
Qed.

(** With a tenth of a gram logged, adding 0.2 g and taking it back
    leaves 0.10000000000000003 g, whereas the deltas sum to zero. *)
Example tenth_plus_fifth_minus_fifth :
  IeeeSpec.macroOf protein (Ieee.todayLog IeeeSpec.tenthOfAGram) = 0.1%float /\
  IeeeSpec.deltaSum (0.2 :: -0.2 :: nil)%float = 0%float /\
  IeeeSpec.macroOf protein
    (Ieee.todayLog
       (IeeeSpec.run (IeeeSpec.calls protein lateEvening (0.2 :: -0.2 :: nil)%float)
          IeeeSpec.tenthOfAGram)) = 0.10000000000000003%float.
Proof.
  split; [reflexivity | split; [reflexivity |]].
  rewrite ieee_macro_after_run, deltas_calls. reflexivity.
Qed.

(** The claim as stated fails: the final accumulator is not the initial
    value plus the sum of the deltas. *)
Lemma C5_counterexample :
  ~ (IeeeSpec.macroOf protein
       (Ieee.todayLog
          (IeeeSpec.run (IeeeSpec.calls protein lateEvening (0.2 :: -0.2 :: nil)%float)
             IeeeSpec.tenthOfAGram)) =
     (IeeeSpec.macroOf protein (Ieee.todayLog IeeeSpec.tenthOfAGram) +
      IeeeSpec.deltaSum (0.2 :: -0.2 :: nil))%float).
Proof.
  destruct tenth_plus_fifth_minus_fifth as (I & S & F).
  rewrite F, I, S. intros H.
  apply (f_equal (fun x => PrimFloat.eqb x 0.1)) in H.
  discriminate H.
Qed.

Lemma example_on_whole_grams (n : nat) :
  (n <= 2000)%nat ->
  IeeeSpec.addInOrder (IeeeSpec.wholeGrams n) IeeeSpec.exampleDeltas =
  (IeeeSpec.wholeGrams n + 12)%float.
Proof.
  intros H. apply FloatAxioms.Leibniz.eqb_spec.
  assert (A : forallb IeeeSpec.exampleHolds (seq 0 2001) = true) by (vm_compute; reflexivity).
  rewrite forallb_forall in A. apply A, in_seq. lia.
Qed.

(** C5 (amended).  Whatever the initial cache, after any finite trace of
    [addMacro] calls interleaved in any way with in-flight writes landing
    or being lost, the accumulator of each macro is its initial value
    with the deltas of the calls made on it added one at a time, in call
    order, each addition in double precision; and the cached record is
    the one the calls alone produce.  For the deltas 10, -3 and 5 on a
    whole number of grams up to 2000 that is the initial value plus
    12. *)
Theorem C5_accumulator_adds_deltas_in_order
    (w : Ieee.World) (events : list IeeeSpec.Event) (type : MacroType) :
  IeeeSpec.macroOf type (Ieee.todayLog (IeeeSpec.run events w)) =
    IeeeSpec.addInOrder (IeeeSpec.macroOf type (Ieee.todayLog w))
      (IeeeSpec.deltas type events) /\
  Ieee.todayLog (IeeeSpec.run events w) =
    Ieee.todayLog (IeeeSpec.run (List.filter IeeeSpec.isCall events) w) /\
  (forall n, (n <= 2000)%nat ->
     IeeeSpec.macroOf type (Ieee.todayLog w) = IeeeSpec.wholeGrams n ->
     IeeeSpec.deltas type events = IeeeSpec.exampleDeltas ->
     IeeeSpec.macroOf type (Ieee.todayLog (IeeeSpec.run events w)) =
       (IeeeSpec.macroOf type (Ieee.todayLog w) + 12)%float).
Proof.
  split; [apply ieee_macro_after_run |].
  split; [now apply ieee_cache_ignores_settling |].
  intros n N I D. rewrite ieee_macro_after_run, D, I.
  now apply example_on_whole_grams.
Qed.

(** The three calls of the specification's example on a fresh record,
    the first write lost and the third landing before the second. *)
Lemma C5_witness :
  IeeeSpec.macroOf protein
    (Ieee.todayLog
       (IeeeSpec.run
          (IeeeSpec.Calls protein 10 lateEvening :: IeeeSpec.Lost 0 ::
           IeeeSpec.Calls protein (-3) lateEvening ::
           IeeeSpec.Calls protein 5 lateEvening ::
           IeeeSpec.Lands 1 :: IeeeSpec.Lands 0 :: nil)
          (IeeeSpec.signedIn earlyMorning))) = 12%float.
Proof.
  destruct (C5_accumulator_adds_deltas_in_order (IeeeSpec.signedIn earlyMorning)
              (IeeeSpec.Calls protein 10 lateEvening :: IeeeSpec.Lost 0 ::
               IeeeSpec.Calls protein (-3) lateEvening ::
               IeeeSpec.Calls protein 5 lateEvening ::
               IeeeSpec.Lands 1 :: IeeeSpec.Lands 0 :: nil) protein) as (_ & _ & H).
  apply (H 0%nat); [lia | reflexivity | reflexivity].
Defined.

(** A correction of -5 g on the empty record leaves the protein
    accumulator negative. *)
Lemma C4_counterexample :
  ~ IeeeSpec.nonNegative
      (IeeeSpec.macroOf protein
         (Ieee.todayLog
            (IeeeSpec.run (IeeeSpec.calls protein lateEvening ((-5)%float :: nil))
               (Ieee.initialWorld (Some someUser) earlyMorning ∅)))).
Proof.
  rewrite ieee_macro_after_run, deltas_calls.
  unfold IeeeSpec.nonNegative. discriminate.
Qed.

(** C4 (amended).  [addMacro] applies no lower bound: after any trace of
    calls that starts from the empty record, each accumulator is the
    deltas applied to that macro added to zero in call order.  It is
    zero or more after every operation as long as no delta on that
    macro is negative; a negative delta on the empty record is stored
    as it is. *)
Theorem C4_accumulator_sign (u : option User) (clock : Date)
    (table : gmap (string * string) (gmap string Ieee.Value))
    (events : list IeeeSpec.Event) (type : MacroType) :
  IeeeSpec.macroOf type
    (Ieee.todayLog (IeeeSpec.run events (Ieee.initialWorld u clock table))) =
    IeeeSpec.deltaSum (IeeeSpec.deltas type events) /\
  (Forall IeeeSpec.nonNegative (IeeeSpec.deltas type events) ->
   IeeeSpec.nonNegative
     (IeeeSpec.macroOf type
        (Ieee.todayLog (IeeeSpec.run events (Ieee.initialWorld u clock table))))) /\
  (forall g c, IeeeSpec.negative g ->
     IeeeSpec.macroOf type
       (Ieee.todayLog (Ieee.addMacro type g c (Ieee.initialWorld u clock table))) = g).
Proof.
  assert (E : IeeeSpec.macroOf type
                (Ieee.todayLog (IeeeSpec.run events (Ieee.initialWorld u clock table))) =
              IeeeSpec.deltaSum (IeeeSpec.deltas type events)).
  { rewrite ieee_macro_after_run. now destruct type. }
  split; [exact E |]. split.
  - intros F. rewrite E. now apply addInOrder_nonNegative.
  - intros g c G.
    change (Ieee.todayLog (Ieee.addMacro type g c (Ieee.initialWorld u clock table)))
      with (Ieee.addMacroLog type g c (Ieee.todayLog (Ieee.initialWorld u clock table))).
    rewrite ieee_macroOf_addMacroLog.
    replace (IeeeSpec.sameMacro type type) with true by (now destruct type).
    replace (IeeeSpec.macroOf type (Ieee.todayLog (Ieee.initialWorld u clock table)))
      with 0%float by (now destruct type).
    now apply zero_add_negative.
Qed.

(** Two meals and no correction. *)
Lemma C4_witness :
  IeeeSpec.nonNegative
    (IeeeSpec.macroOf protein
       (Ieee.todayLog
          (IeeeSpec.run (IeeeSpec.calls protein lateEvening (0.3 :: 20.2 :: nil)%float)
             (IeeeSpec.signedIn earlyMorning)))).
Proof.
  destruct (C4_accumulator_sign (Some someUser) earlyMorning ∅
              (IeeeSpec.calls protein lateEvening (0.3 :: 20.2 :: nil)%float) protein)
    as (_ & H & _).
  apply H. rewrite deltas_calls. repeat constructor.
Defined.

(** ** Signed out: no remote I/O *)

Section SignedOut.

Variable daysBefore : Date -> Z -> Date.
Variable parseDate : string -> Date.

Lemma sameRemote_refl (w : World) : sameRemote w w.
Proof. repeat split. Qed.

Lemma perform_signed_out (w : World) (op : Op) :
  user (app w) = None ->
  sameRemote w (perform daysBefore parseDate w op) /\
  user (app (perform daysBefore parseDate w op)) = None.
Proof.
  intros U.
  destruct op as [c l g p | c l g p | m c | t v c e | upd c e | upd c e | d c e | c e];
    cbn [perform].
  - unfold loadData. no_user U.
  - unfold checkForDayChange. no_user U.
  - destruct m; cbn [applyMutation];
      unfold addMacro, setSleep, setWeight, setPeriodDay, setRating, setSteps,
             mutate, saveToSupabase;
      no_user U.
  - unfold updateGoal. no_user U.
  - unfold updateProfile. no_user U.
  - unfold updateCycleSettings. no_user U.
  - unfold getWeightHistory. no_user U.
  - unfold getSevenDayAverages. no_user U.
Qed.

Lemma performAll_signed_out (ops : list Op) (w : World) :
  user (app w) = None ->
  sameRemote w (performAll daysBefore parseDate ops w).
Proof.
  revert w. induction ops as [|op ops IH]; intros w U.
  - apply sameRemote_refl.
  - destruct (perform_signed_out w op U) as [(I & F & T) U'].
    destruct (IH _ U') as (I' & F' & T').
    change (performAll daysBefore parseDate (op :: ops) w)
      with (performAll daysBefore parseDate ops (perform daysBefore parseDate w op)).
    repeat split; congruence.
Qed.

End SignedOut.

(** C9.  While no user is signed in, no operation of the provider calls
    the remote store: after any sequence of operations the I/O trace, the
    writes in flight and the remote table are what they were.  The load
    path puts a fresh empty record and the default goals in the cache, a
    daily-log mutator only replaces the cached record, and the day-change
    check leaves everything as it is. *)
Theorem C9_signed_out_no_remote_io
    (daysBefore : Date -> Z -> Date) (parseDate : string -> Date)
    (w : World) (ops : list Op) (m : Mutation) (clock : Date)
    (logData : option DbDailyLog) (goalsData : option DbUserGoals)
    (profileData : option DbProfile) :
  user (app w) = None ->
  sameRemote w (performAll daysBefore parseDate ops w) /\
  (sameRemote w (loadData clock logData goalsData profileData w) /\
   todayLog (app (loadData clock logData goalsData profileData w)) =
     createEmptyDailyLog clock clock /\
   goals (app (loadData clock logData goalsData profileData w)) = DEFAULT_GOALS) /\
  (sameRemote w (applyMutation m clock w) /\
   todayLog (app (applyMutation m clock w)) = mutateLog m clock (todayLog (app w))) /\
  checkForDayChange clock logData goalsData profileData w = w.
Proof.
  intros U. split; [| split; [| split]].
  - now apply performAll_signed_out.
  - unfold loadData. rewrite U. repeat split.
  - split.
    + apply (perform_signed_out daysBefore parseDate w (Mutate m clock) U).
    + apply applyMutation_todayLog.
  - unfold checkForDayChange. now rewrite U.
Qed.

(** ** Settings updates are pessimistic *)

Lemma updateGoal_pessimistic (type : GoalKey) (value : Q) (clock : Date) (w : World) :
  pessimistic goals (withGoal type value) (updateGoal type value clock) w.
Proof. unfold updateGoal. settle_update U. Qed.

Lemma updateProfile_pessimistic (upd : ProfileUpdate) (clock : Date) (w : World) :
  pessimistic profile (withProfile upd) (updateProfile upd clock) w.
Proof. unfold updateProfile. settle_update U. Qed.

Lemma updateCycleSettings_pessimistic (upd : CycleUpdate) (clock : Date) (w : World) :
  pessimistic cycleSettings (withCycleSetting upd) (updateCycleSettings upd clock) w.
Proof. unfold updateCycleSettings. settle_update U. Qed.

(** C6.  [updateGoal], [updateProfile] and [updateCycleSettings] are
    pessimistic.  When the awaited write fails, the provider's state is
    exactly what it was and (a user being signed in) the call rejects
    with that error; when it succeeds, the call resolves and the cached
    value is the updated one; and whenever the cached value changed, the
    write had been issued and had succeeded. *)
Theorem C6_settings_updates_are_pessimistic
    (type : GoalKey) (value : Q) (profileUpd : ProfileUpdate)
    (cycleUpd : CycleUpdate) (clock : Date) (w : World) :
  pessimistic goals (withGoal type value) (updateGoal type value clock) w /\
  pessimistic profile (withProfile profileUpd) (updateProfile profileUpd clock) w /\
  pessimistic cycleSettings (withCycleSetting cycleUpd)
    (updateCycleSettings cycleUpd clock) w.
Proof.
  split; [| split].
  - apply updateGoal_pessimistic.
  - apply updateProfile_pessimistic.
  - apply updateCycleSettings_pessimistic.
Qed.

(** A goal update that the backend refuses: the caller gets the error
    and the cached goals are the defaults they were. *)
Example updateGoal_refused :
  fst (updateGoal proteinGoalKey 150 earlyMorning (Some "invalid state")
         (signedIn earlyMorning)) = Rejected "invalid state" /\
  goals (app (snd (updateGoal proteinGoalKey 150 earlyMorning (Some "invalid state")
                     (signedIn earlyMorning)))) = DEFAULT_GOALS.
Proof. split; reflexivity. Qed.

(** ** The calorie column of a write *)

Lemma upsertPayload_columns (u : User) (log : DailyLog) (t : Q) (clock : Date) :
  numCol (upsertPayload u log t clock) "total_calories" = Some t /\
  numCol (upsertPayload u log t clock) "protein_grams" = Some (proteinGrams log) /\
  numCol (upsertPayload u log t clock) "carbs_grams" = Some (carbsGrams log) /\
  numCol (upsertPayload u log t clock) "fat_grams" = Some (fatGrams log).
Proof. repeat split; vm_compute; reflexivity. Qed.

(** After one meal is logged and its write lands, the persisted record
    carries a calorie total. *)
Lemma C2_counterexample :
  ~ (numCol (storedRow "user-1" "2024-03-20" afterOneMeal) "total_calories" = None).
Proof. vm_compute. discriminate. Qed.

(** The row the store keeps after one meal, column by column. *)
Example afterOneMeal_row :
  numCol (storedRow "user-1" "2024-03-20" afterOneMeal) "total_calories" = Some 40%Q /\
  numCol (storedRow "user-1" "2024-03-20" afterOneMeal) "protein_grams" = Some 10%Q.
Proof. vm_compute. split; reflexivity. Qed.

(** C2 (amended).  The persisted record does carry a calorie column, but
    its value is never a stored one: every write issued for a signed-in
    user sets [total_calories] to [protein*4 + carbs*4 + fat*9] of the
    macros the same write carries, whatever calorie total the cached
    record holds; and the calorie total shown for today is recomputed
    from the cached macros in the same way. *)
Theorem C2_calories_recomputed_on_write
    (u : User) (log : DailyLog) (stale : Q) (clock : Date) (w : World) :
  user (app w) = Some u ->
  (exists payload,
     io (saveToSupabase clock log w) = (io w ++ UpsertDailyLog payload :: nil)%list /\
     numCol payload "protein_grams" = Some (proteinGrams log) /\
     numCol payload "carbs_grams" = Some (carbsGrams log) /\
     numCol payload "fat_grams" = Some (fatGrams log) /\
     numCol payload "total_calories" =
       Some (proteinGrams log * 4 + carbsGrams log * 4 + fatGrams log * 9)%Q) /\
  saveToSupabase clock (withTotalCalories stale log) w = saveToSupabase clock log w /\
  caloriesConsumed (withTotalCalories stale log) =
    (proteinGrams log * 4 + carbsGrams log * 4 + fatGrams log * 9)%Q.
Proof.
  intros U. split; [| split].
  - unfold saveToSupabase. rewrite U. cbn [io].
    eexists. split; [reflexivity |].
    destruct (upsertPayload_columns u log
                (calculateCalories (proteinGrams log) (carbsGrams log) (fatGrams log))
                clock) as (T & P & C & F).
    auto.
  - unfold saveToSupabase. rewrite U. reflexivity.
  - reflexivity.
Qed.

(** A record whose cached calorie total is 999 and whose macros are 0 is
    written with a calorie total of 0. *)
Lemma C2_witness :
  exists payload,
    io (saveToSupabase lateEvening
          (withTotalCalories 999 (createEmptyDailyLog earlyMorning earlyMorning))
          (signedIn earlyMorning)) = (UpsertDailyLog payload :: nil)%list /\
    numCol payload "total_calories" = Some (0 * 4 + 0 * 4 + 0 * 9)%Q.
Proof.
  destruct (C2_calories_recomputed_on_write someUser
              (withTotalCalories 999 (createEmptyDailyLog earlyMorning earlyMorning))
              0 lateEvening (signedIn earlyMorning) eq_refl)
    as ((payload & I & _ & _ & _ & T) & _ & _).
  exists payload. split; [exact I | exact T].
Defined.

(** ** Seven-day averages *)

Lemma orElse_zero (x : option Q) :
  (orElse x 0 == match x with Some q => q | None => 0 end)%Q.
Proof.
  destruct x as [q|]; simpl; [| reflexivity].
  destruct (Qeq_bool q 0) eqn:E; [| reflexivity].
  apply Qeq_bool_iff in E. now rewrite E.
Qed.

Lemma fold_addRow (rows : list AvgRow) (acc : Sums) :
  (sum_calories (fold_left addRow rows acc) ==
     sum_calories acc + zeroFilledSum row_total_calories rows)%Q /\
  (sum_protein (fold_left addRow rows acc) ==
     sum_protein acc + zeroFilledSum row_protein_grams rows)%Q /\
  (sum_steps (fold_left addRow rows acc) ==
     sum_steps acc + zeroFilledSum row_steps rows)%Q /\
  (sum_sleep (fold_left addRow rows acc) ==
     sum_sleep acc + zeroFilledSum row_sleep_hours rows)%Q.
Proof.
  revert acc. induction rows as [|r rows IH]; intros acc.
  - simpl. repeat split; ring.
  - cbn [fold_left zeroFilledSum].
    destruct (IH (addRow acc r)) as (C & P & S & L).
    rewrite C, P, S, L. cbn [addRow sum_calories sum_protein sum_steps sum_sleep].
    repeat split; ring.
Qed.

Lemma zeroFilledSum_present (col : AvgRow -> option Q) (rows : list AvgRow) :
  (zeroFilledSum col rows == sumQ (presentValues col rows))%Q.
Proof.
  induction rows as [|r rows IH]; [reflexivity |].
  cbn [zeroFilledSum presentValues]. rewrite orElse_zero, IH.
  destruct (col r); cbn [sumQ]; ring.
Qed.

Lemma presentValues_count (col : AvgRow -> option Q) (rows : list AvgRow) :
  List.length (presentValues col rows) =
  List.length (List.filter (fun row => isPresent (col row)) rows).
Proof.
  induction rows as [|r rows IH]; [reflexivity |].
  cbn [presentValues List.filter]. destruct (col r); simpl; now rewrite ?IH.
Qed.

(** Rows without any column have no sleep either. *)
Lemma presentValues_valid (rows : list AvgRow) :
  presentValues row_sleep_hours (List.filter isValidRow rows) =
  presentValues row_sleep_hours rows.
Proof.
  induction rows as [|r rows IH]; [reflexivity |].
  cbn [List.filter presentValues]. unfold isValidRow at 1.
  destruct (row_sleep_hours r) as [q|] eqn:S.
  - rewrite !orb_true_r. cbn [presentValues]. now rewrite S, IH.
  - destruct (_ || _ || _ || _); cbn [presentValues]; now rewrite ?S, IH.
Qed.

Lemma countOf_pos {A : Type} (x : A) (l : list A) : (0 < countOf (x :: l))%Q.
Proof.
  unfold countOf, Qlt. simpl. lia.
Qed.

Lemma averagesOf_spec (data : list AvgRow) :
  sameAverages (averagesOf data)
    (averagesOver (List.filter isValidRow data) data).
Proof.
  unfold averagesOver, meanOverPresent.
  rewrite <- (presentValues_valid data).
  destruct data as [|r0 data0]; [repeat split |].
  unfold averagesOf.
  set (valid := List.filter isValidRow (r0 :: data0)).
  destruct valid as [|v valid0] eqn:V; [repeat split |].
  destruct (fold_addRow (v :: valid0) (mkSums 0 0 0 0)) as (C & P & S & L).
  unfold sameAverages, meanOverAll.
  cbn [avg_calories avg_protein avg_steps avg_sleep sameNumber
       sum_calories sum_protein sum_steps sum_sleep] in *.
  repeat split.
  - rewrite C. now rewrite Qplus_0_l.
  - rewrite P. now rewrite Qplus_0_l.
  - rewrite S. now rewrite Qplus_0_l.
  - assert (N : countOf (List.filter (fun row => isPresent (row_sleep_hours row))
                            (v :: valid0)) =
               countOf (presentValues row_sleep_hours (v :: valid0))).
    { unfold countOf. now rewrite presentValues_count. }
    destruct (Qlt_le_dec _ _) as [Hlt | Hle];
      destruct (presentValues row_sleep_hours (v :: valid0)) as [|q qs] eqn:E.
    + exfalso. rewrite N in Hlt. revert Hlt. unfold Qlt. simpl. lia.
    + cbn [sameNumber]. rewrite N, L, zeroFilledSum_present, E, Qplus_0_l.
      reflexivity.
    + exact I.
    + exfalso. rewrite N in Hle. apply (Qle_not_lt _ _ Hle). apply countOf_pos.
Qed.

(** A row written by [saveToSupabase] always carries calories, protein
    and steps, so it is never dropped from the denominators. *)
Lemma written_row_is_valid (u : User) (log : DailyLog) (t : Q) (clock : Date) :
  isValidRow (avgRowOf (upsertPayload u log t clock)) = true.
Proof. vm_compute. reflexivity. Qed.

Lemma filter_all {A : Type} (f : A -> bool) (l : list A) :
  forallb f l = true -> List.filter f l = l.
Proof.
  induction l as [|x l IH]; [reflexivity |].
  cbn [forallb List.filter]. intros H. apply andb_true_iff in H as [Hx Hl].
  now rewrite Hx, IH.
Qed.

(** With a blank record in the window, calories are not averaged over all
    of its records. *)
Lemma C3_counterexample :
  ~ sameAverages (averagesOf windowWithBlankRow)
      (averagesOver windowWithBlankRow windowWithBlankRow).
Proof. intros (H & _). vm_compute in H. discriminate H. Qed.

(** C3 (amended).  The seven-day averages use different denominators per
    field: calories, protein and steps are summed with missing values
    counted as zero and divided by the number of the window's records
    that carry at least one of the four fields (all of them, when every
    record carries one), while sleep is averaged over the records where
    it was logged and is null when there is none.  With no such record,
    with an empty window or with a failing query, every field is null. *)
Theorem C3_seven_day_averages
    (daysBefore : Date -> Z -> Date) (data : list AvgRow)
    (clock : Date) (w : World) (e : Error) :
  sameAverages (averagesOf data) (averagesOver (List.filter isValidRow data) data) /\
  (forallb isValidRow data = true ->
   sameAverages (averagesOf data) (averagesOver data data)) /\
  (List.filter isValidRow data = nil -> averagesOf data = allNull) /\
  averagesOf nil = allNull /\
  fst (getSevenDayAverages daysBefore clock (Some e) w) = allNull /\
  (forall u, user (app w) = Some u ->
     fst (getSevenDayAverages daysBefore clock None w) =
     averagesOf (averageRows (id u) (getLocalDateString (daysBefore clock 7))
                   (daily_logs w))).
Proof.
  split; [apply averagesOf_spec |].
  split.
  { intros V. pose proof (averagesOf_spec data) as H.
    now rewrite (filter_all _ _ V) in H. }
  split.
  { intros V. unfold averagesOf. destruct data; [reflexivity |]. now rewrite V. }
  split; [reflexivity |].
  split.
  - unfold getSevenDayAverages. destruct (user (app w)); reflexivity.
  - intros u U. unfold getSevenDayAverages. now rewrite U.
Qed.

(** When every record of the window carries a field, all of them count. *)
Lemma C3_witness :
  sameAverages (averagesOf sevenDays) (averagesOver sevenDays sevenDays).
Proof.
  apply (C3_seven_day_averages sameMonthDaysBefore sevenDays lateEvening
           (signedOut lateEvening) "timeout").
  reflexivity.
Defined.

(** The example of the specification: sleep 7, 8, 9 on three of seven
    days averages to 8; 0, 0, 0, 10, 10, 10, 10 averages to 40/7. *)
Example sevenDays_averages :
  sameNumber (avg_sleep (averagesOf sevenDays)) (Some 8%Q) /\
  sameNumber (avg_calories (averagesOf sevenDays)) (Some (40 # 7)%Q).
Proof. vm_compute. split; reflexivity. Qed.

(** ** Weight history *)

Section Ordering.

Context {A : Type}.
Implicit Types (x y : string * A) (l : list (string * A)).

Lemma insertByDate_In x y l :
  In x (insertByDate y l) <-> x = y \/ In x l.
Proof.
  induction l as [|z l IH]; cbn [insertByDate].
  - simpl. intuition.
  - destruct (String.leb (fst y) (fst z)).
    + simpl. intuition.
    + simpl. rewrite IH. intuition.
Qed.

Lemma orderByLogDate_In x l : In x (orderByLogDate l) <-> In x l.
Proof.
  induction l as [|z l IH]; [reflexivity |].
  unfold orderByLogDate in *. cbn [fold_right].
  rewrite insertByDate_In, IH. simpl. intuition.
Qed.

Lemma insertByDate_HdRel x y l :
  ascending x y -> HdRel ascending x l -> HdRel ascending x (insertByDate y l).
Proof.
  intros Hxy H. destruct l as [|z l]; cbn [insertByDate].
  - now constructor.
  - destruct (String.leb (fst y) (fst z)); constructor; [exact Hxy |].
    now inversion H.
Qed.

Lemma insertByDate_Sorted y l :
  Sorted ascending l -> Sorted ascending (insertByDate y l).
Proof.
  induction l as [|z l IH]; intros S; cbn [insertByDate].
  - repeat constructor.
  - destruct (String.leb (fst y) (fst z)) eqn:E.
    + constructor; [exact S |]. now constructor.
    + inversion S as [|? ? S' Hd]; subst.
      constructor; [now apply IH |].
      apply insertByDate_HdRel; [| exact Hd].
      destruct (String.leb_total (fst y) (fst z)) as [H | H]; [congruence | exact H].
Qed.

Lemma orderByLogDate_Sorted l : Sorted ascending (orderByLogDate l).
Proof.
  induction l as [|z l IH]; [constructor |].
  unfold orderByLogDate in *. cbn [fold_right]. now apply insertByDate_Sorted.
Qed.

End Ordering.

Lemma rowsSince_In (uid start d : string) (row : gmap string Value)
    (table : gmap (string * string) (gmap string Value)) :
  In (d, row) (rowsSince uid start table) <->
  table !! (uid, d) = Some row /\ String.leb start d = true.
Proof.
  unfold rowsSince. rewrite in_map_iff. split.
  - intros ([[u d'] row'] & E & H). cbn [fst snd] in E. injection E as -> ->.
    apply filter_In in H as [H F]. cbn [fst snd] in F.
    apply andb_true_iff in F as [Fu Fd]. apply String.eqb_eq in Fu as ->.
    split; [| exact Fd].
    apply list_elem_of_In in H. now apply elem_of_map_to_list in H.
  - intros [H Fd]. exists ((uid, d), row). split; [reflexivity |].
    apply filter_In. split.
    + apply list_elem_of_In. now apply elem_of_map_to_list.
    + cbn [fst snd]. now rewrite String.eqb_refl, Fd.
Qed.

Lemma weightRows_In (uid start d : string) (x : option Q)
    (table : gmap (string * string) (gmap string Value)) :
  In (d, x) (weightRows uid start table) <->
  (exists row, table !! (uid, d) = Some row /\ numCol row "weight_lbs" = x) /\
  x <> None /\ String.leb start d = true.
Proof.
  unfold weightRows. rewrite orderByLogDate_In, in_map_iff. split.
  - intros ([d' row] & E & H). cbn [fst snd] in E. injection E as -> <-.
    apply filter_In in H as [H P]. cbn [fst snd] in P.
    apply rowsSince_In in H as [H S].
    split; [now exists row |]. split; [| exact S].
    destruct (numCol row "weight_lbs"); [discriminate | discriminate P].
  - intros ((row & H & <-) & P & S). exists (d, row). split; [reflexivity |].
    apply filter_In. split; [now apply rowsSince_In |].
    cbn [fst snd]. destruct (numCol row "weight_lbs"); [reflexivity | contradiction].
Qed.

(** On 20 March the seven-day history of user-1 is not confined to
    13 .. 20 March: it holds the row of 25 March. *)
Lemma C8_counterexample :
  ~ inWindow (windowStart sameMonthDaysBefore range7d lateEvening)
      (getLocalDateString lateEvening)
      (weightRows "user-1" (windowStart sameMonthDaysBefore range7d lateEvening)
         sampleTable).
Proof.
  intros H. destruct (H "2024-03-25" (Some 150%Q)) as [_ F].
  - vm_compute. auto.
  - vm_compute in F. discriminate F.
Qed.

(** What the chart gets on 20 March for the sample table: the row of
    25 March is part of it. *)
Example getWeightHistory_sample :
  fst (getWeightHistory sameMonthDaysBefore parseIsoDay range7d lateEvening None
         (withTable sampleTable (signedIn lateEvening))) =
  mkWeightDataPoint "03/14" (Some 151%Q) ::
  mkWeightDataPoint "03/25" (Some 150%Q) :: nil.
Proof. vm_compute. reflexivity. Qed.

(** C8 (amended).  For a signed-in user, [getWeightHistory] asks for the
    user's records dated on or after today minus the window (the query
    has no upper bound) and returns one point per such record with a
    non-absent weight, and only those, in ascending date order.  When no
    record qualifies, and when the query fails, the result is the empty
    sequence; nothing is thrown. *)
Theorem C8_weight_history
    (daysBefore : Date -> Z -> Date) (parseDate : string -> Date)
    (days : ChartRange) (clock : Date) (u : User) (e : Error) (w : World) :
  user (app w) = Some u ->
  fst (getWeightHistory daysBefore parseDate days clock None w) =
    List.map (toPoint parseDate)
      (weightRows (id u) (windowStart daysBefore days clock) (daily_logs w)) /\
  Sorted ascending
    (weightRows (id u) (windowStart daysBefore days clock) (daily_logs w)) /\
  (forall d x,
     In (d, x) (weightRows (id u) (windowStart daysBefore days clock) (daily_logs w)) <->
     (exists row, daily_logs w !! (id u, d) = Some row /\
                  numCol row "weight_lbs" = x) /\
     x <> None /\
     String.leb (windowStart daysBefore days clock) d = true) /\
  (forall p, In p (fst (getWeightHistory daysBefore parseDate days clock None w)) ->
     point_weight p <> None) /\
  ((forall d row, daily_logs w !! (id u, d) = Some row ->
      String.leb (windowStart daysBefore days clock) d = true ->
      numCol row "weight_lbs" = None) ->
   fst (getWeightHistory daysBefore parseDate days clock None w) = nil) /\
  fst (getWeightHistory daysBefore parseDate days clock (Some e) w) = nil.
Proof.
  intros U.
  assert (R : fst (getWeightHistory daysBefore parseDate days clock None w) =
              List.map (toPoint parseDate)
                (weightRows (id u) (windowStart daysBefore days clock) (daily_logs w))).
  { unfold getWeightHistory. rewrite U. reflexivity. }
  split; [exact R |].
  split; [apply orderByLogDate_Sorted |].
  split; [intros d x; apply weightRows_In |].
  split; [| split].
  - intros p. rewrite R, in_map_iff. intros ([d x] & <- & H).
    apply weightRows_In in H as (_ & P & _). exact P.
  - intros None_qualifies. rewrite R.
    destruct (weightRows (id u) (windowStart daysBefore days clock) (daily_logs w))
      as [|[d x] rows] eqn:E; [reflexivity |].
    exfalso.
    assert (H : In (d, x) (weightRows (id u) (windowStart daysBefore days clock)
                             (daily_logs w))) by (rewrite E; now left).
    apply weightRows_In in H as ((row & H & <-) & P & S).
    apply P. now apply (None_qualifies d row).
  - unfold getWeightHistory. rewrite U. reflexivity.
Qed.

(** The sample history is in ascending order, and a failing query gives
    the empty sequence. *)
Lemma C8_witness :
  Sorted ascending
    (weightRows "user-1" (windowStart sameMonthDaysBefore range7d lateEvening)
       sampleTable) /\
  fst (getWeightHistory sameMonthDaysBefore parseIsoDay range7d lateEvening
         (Some "offline") (withTable sampleTable (signedIn lateEvening))) = nil.
Proof.
  destruct (C8_weight_history sameMonthDaysBefore parseIsoDay range7d lateEvening
              someUser "offline" (withTable sampleTable (signedIn lateEvening)) eq_refl)
    as (_ & S & _ & _ & _ & F).
  split; [exact S | exact F].
Defined.

(** A whole session without a user leaves the remote side alone. *)
Lemma C9_witness :
  sameRemote (signedOut lateEvening)
    (performAll sameMonthDaysBefore parseIsoDay signedOutSession
       (signedOut lateEvening)) /\
  checkForDayChange nextMidnight None None None (signedOut lateEvening) =
    signedOut lateEvening.
Proof.
  destruct (C9_signed_out_no_remote_io sameMonthDaysBefore parseIsoDay
              (signedOut lateEvening) signedOutSession (SetSteps 0) nextMidnight
              None None None eq_refl)
    as (H & _ & _ & T).
  split; [exact H | exact T].
Defined.

(* ================================================================== *)
(** * Further properties of the provider *)
(* ================================================================== *)

Import Session.

(** ** Loading *)

(** X1.  For a signed-in user, [loadData] asks the store exactly three
    things, in this order: today's log, the goals, the profile.  It
    issues them whatever the answers are, writes nothing, leaves the
    writes in flight and the table alone, and ends with [isLoading]
    false. *)
Theorem loadData_reads_only (u : User) (clock : Date)
    (logData : option DbDailyLog) (goalsData : option DbUserGoals)
    (profileData : option DbProfile) (w : World) :
  user (app w) = Some u ->
  io (loadData clock logData goalsData profileData w) =
    (io w ++ loadReads u clock)%list /\
  inflight (loadData clock logData goalsData profileData w) = inflight w /\
  daily_logs (loadData clock logData goalsData profileData w) = daily_logs w /\
  isLoading (app (loadData clock logData goalsData profileData w)) = false /\
  user (app (loadData clock logData goalsData profileData w)) = Some u.
Proof.
  intros U. unfold loadData. rewrite U.
  destruct logData, goalsData, profileData;
    cbn [io inflight daily_logs app isLoading user call withApp setIsLoading
         setTodayLog setGoals setProfile setCycleSettings];
    rewrite <- !app_assoc; repeat split; exact U.
Qed.

Lemma loadData_reads_only_witness :
  io (loadData lateEvening None None None (signedIn earlyMorning)) =
    loadReads someUser lateEvening.
Proof.
  destruct (loadData_reads_only someUser lateEvening None None None
              (signedIn earlyMorning) eq_refl) as (H & _).
  exact H.
Defined.

(** X2.  Loading again with the same answers, at a later reading of
    the clock: the goals, the profile, the cycle settings, the user and
    the loading flag are exactly as the first run left them, and so is
    the record when the store returned a row.  Without a row, or signed
    out, the record is once more a fresh empty one, dated and stamped
    by the second reading of the clock.  In every case the cache after
    both runs is the cache after the second run alone. *)
Theorem loadData_twice (clock1 clock2 : Date)
    (logData : option DbDailyLog) (goalsData : option DbUserGoals)
    (profileData : option DbProfile) (w : World) :
  app (loadData clock2 logData goalsData profileData
         (loadData clock1 logData goalsData profileData w)) =
    app (loadData clock2 logData goalsData profileData w) /\
  goals (app (loadData clock2 logData goalsData profileData
                (loadData clock1 logData goalsData profileData w))) =
    goals (app (loadData clock1 logData goalsData profileData w)) /\
  profile (app (loadData clock2 logData goalsData profileData
                  (loadData clock1 logData goalsData profileData w))) =
    profile (app (loadData clock1 logData goalsData profileData w)) /\
  cycleSettings (app (loadData clock2 logData goalsData profileData
                        (loadData clock1 logData goalsData profileData w))) =
    cycleSettings (app (loadData clock1 logData goalsData profileData w)) /\
  user (app (loadData clock2 logData goalsData profileData
               (loadData clock1 logData goalsData profileData w))) =
    user (app (loadData clock1 logData goalsData profileData w)) /\
  isLoading (app (loadData clock2 logData goalsData profileData
                    (loadData clock1 logData goalsData profileData w))) =
    isLoading (app (loadData clock1 logData goalsData profileData w)) /\
  todayLog (app (loadData clock2 logData goalsData profileData
                   (loadData clock1 logData goalsData profileData w))) =
    match user (app w), logData with
    | Some _, Some _ => todayLog (app (loadData clock1 logData goalsData profileData w))
    | _, _ => createEmptyDailyLog clock2 clock2
    end.
Proof.
  destruct w as [[[u|] l g p c b] i f t];
    destruct logData, goalsData, profileData; repeat split.
Qed.

(** A first load just before midnight and a second one just after it,
    both without a stored row: the record of the second load is dated
    on the new day. *)
Example loadData_twice_across_midnight :
  date (todayLog (app (loadData nextMidnight None None None
                         (loadData lateEvening None None None (signedIn earlyMorning))))) =
    "2024-03-21" /\
  date (todayLog (app (loadData lateEvening None None None (signedIn earlyMorning)))) =
    "2024-03-20".
Proof.
  destruct (loadData_twice lateEvening nextMidnight None None None (signedIn earlyMorning))
    as (_ & _ & _ & _ & _ & _ & T).
  rewrite T. split; reflexivity.
Qed.

Import SessionEvents.

Section SessionInvariants.

Variable daysBefore : Date -> Z -> Date.
Variable parseDate : string -> Date.

Lemma applyMutation_settings (m : Mutation) (clock : Date) (w : World) :
  user (app (applyMutation m clock w)) = user (app w) /\
  goals (app (applyMutation m clock w)) = goals (app w) /\
  profile (app (applyMutation m clock w)) = profile (app w) /\
  cycleSettings (app (applyMutation m clock w)) = cycleSettings (app w).
Proof.
  assert (S : forall l, app (saveToSupabase clock l w) = app w)
    by (intros l; unfold saveToSupabase; now destruct (user (app w))).
  destruct m; cbn [applyMutation];
    unfold addMacro, setSleep, setWeight, setPeriodDay, setRating, setSteps,
           mutate, setTodayLog, withApp;
    cbn [app user goals profile cycleSettings]; rewrite S; repeat split.
Qed.

Lemma loadData_no_profile (clock : Date) (logData : option DbDailyLog)
    (goalsData : option DbUserGoals) (w : World) :
  profile (app (loadData clock logData goalsData None w)) = profile (app w) /\
  cycleSettings (app (loadData clock logData goalsData None w)) = cycleSettings (app w).
Proof.
  unfold loadData. destruct (user (app w)), logData, goalsData; repeat split.
Qed.

Lemma loadData_no_goals (u : User) (clock : Date) (logData : option DbDailyLog)
    (profileData : option DbProfile) (w : World) :
  user (app w) = Some u ->
  goals (app (loadData clock logData None profileData w)) = goals (app w) /\
  user (app (loadData clock logData None profileData w)) = Some u.
Proof.
  intros U. unfold loadData. rewrite U.
  destruct logData, profileData; repeat split; exact U.
Qed.

Lemma sessionStep_keeps_profile (w : World) (ev : SessionEvent) :
  bringsNoProfile ev = true ->
  profile (app (sessionStep daysBefore parseDate w ev)) = profile (app w) /\
  cycleSettings (app (sessionStep daysBefore parseDate w ev)) = cycleSettings (app w).
Proof.
  destruct ev as [su c l g [p|] | op]; cbn [bringsNoProfile isPresent negb];
    try discriminate.
  - intros _. cbn [sessionStep]. unfold onAuthStateChange.
    apply (loadData_no_profile c l g (setUser su w)).
  - destruct op as [c l g [p|] | c l g [p|] | m c | t v c e | upd c [e|] | upd c [e|]
                   | d c e | c e];
      cbn [bringsNoProfile isPresent negb]; try discriminate; intros _;
      cbn [sessionStep perform].
    + apply loadData_no_profile.
    + unfold checkForDayChange. destruct (user (app w)); [| split; reflexivity].
      destruct (isLogStale c (date (todayLog (app w))));
        [apply loadData_no_profile | split; reflexivity].
    + apply applyMutation_settings.
    + unfold updateGoal. destruct (user (app w)), e; split; reflexivity.
    + unfold updateProfile. destruct (user (app w)); split; reflexivity.
    + unfold updateCycleSettings. destruct (user (app w)); split; reflexivity.
    + unfold getWeightHistory. destruct (user (app w)), e; split; reflexivity.
    + unfold getSevenDayAverages. destruct (user (app w)), e; split; reflexivity.
Qed.

Lemma sessionStep_keeps_goals (u : User) (w : World) (ev : SessionEvent) :
  user (app w) = Some u ->
  bringsNoGoals ev = true ->
  goals (app (sessionStep daysBefore parseDate w ev)) = goals (app w) /\
  exists u', user (app (sessionStep daysBefore parseDate w ev)) = Some u'.
Proof.
  intros U.
  destruct ev as [[su|] c l [g|] p | op]; cbn [bringsNoGoals isPresent negb andb];
    try discriminate.
  - intros _. cbn [sessionStep]. unfold onAuthStateChange.
    destruct (loadData_no_goals su c l p (setUser (Some su) w) eq_refl) as [G U'].
    split; [exact G | now exists su].
  - destruct op as [c l [g|] p | c l [g|] p | m c | t v c [e|] | upd c e | upd c e
                   | d c e | c e];
      cbn [bringsNoGoals isPresent negb]; try discriminate; intros _;
      cbn [sessionStep perform].
    + destruct (loadData_no_goals u c l p w U) as [G U']. split; [exact G | now exists u].
    + unfold checkForDayChange. rewrite U.
      destruct (isLogStale c (date (todayLog (app w)))).
      * destruct (loadData_no_goals u c l p w U) as [G U'].
        split; [exact G | now exists u].
      * split; [reflexivity | now exists u].
    + destruct (applyMutation_settings m c w) as (U' & G & _).
      split; [exact G | exists u; congruence].
    + unfold updateGoal. rewrite U. split; [reflexivity | now exists u].
    + unfold updateProfile. rewrite U. destruct e; (split; [reflexivity | now exists u]).
    + unfold updateCycleSettings. rewrite U.
      destruct e; (split; [reflexivity | now exists u]).
    + unfold getWeightHistory. rewrite U.
      destruct e; (split; [reflexivity | now exists u]).
    + unfold getSevenDayAverages. rewrite U.
      destruct e; (split; [reflexivity | now exists u]).
Qed.

(** X3.  The cached profile and cycle settings outlive the user: through
    any session of sign-outs, sign-ins, reloads, day changes, mutations,
    goal updates and queries they change only when a load brings a
    profile row or a profile or cycle-settings update succeeds.  A
    sign-out in particular resets the record to a fresh empty one and
    the goals to the defaults, without any remote call, and leaves the
    previous user's profile and cycle settings in the cache. *)
Theorem profile_outlives_the_user (events : list SessionEvent) (clock : Date)
    (logData : option DbDailyLog) (goalsData : option DbUserGoals)
    (profileData : option DbProfile) (w : World) :
  (forallb bringsNoProfile events = true ->
   profile (app (session daysBefore parseDate events w)) = profile (app w) /\
   cycleSettings (app (session daysBefore parseDate events w)) = cycleSettings (app w)) /\
  todayLog (app (onAuthStateChange None clock logData goalsData profileData w)) =
    createEmptyDailyLog clock clock /\
  goals (app (onAuthStateChange None clock logData goalsData profileData w)) =
    DEFAULT_GOALS /\
  profile (app (onAuthStateChange None clock logData goalsData profileData w)) =
    profile (app w) /\
  cycleSettings (app (onAuthStateChange None clock logData goalsData profileData w)) =
    cycleSettings (app w) /\
  sameRemote w (onAuthStateChange None clock logData goalsData profileData w).
Proof.
  split; [| repeat split].
  revert w. induction events as [|ev events IH]; intros w H; [split; reflexivity |].
  cbn [forallb] in H. apply andb_true_iff in H as [He Hs].
  change (session daysBefore parseDate (ev :: events) w)
    with (session daysBefore parseDate events (sessionStep daysBefore parseDate w ev)).
  destruct (IH (sessionStep daysBefore parseDate w ev) Hs) as [P C].
  destruct (sessionStep_keeps_profile w ev He) as [P' C'].
  split; congruence.
Qed.

(** X4.  While somebody stays signed in, the cached goals change only
    when a load brings a goals row or a goal update succeeds: a user
    who has no goals row does not get the defaults but whatever goals
    were cached before, for instance those of the previous user. *)
Theorem goals_without_a_row_are_inherited (u : User) (events : list SessionEvent)
    (w : World) :
  user (app w) = Some u ->
  forallb bringsNoGoals events = true ->
  goals (app (session daysBefore parseDate events w)) = goals (app w).
Proof.
  revert u w. induction events as [|ev events IH]; intros u w U H; [reflexivity |].
  cbn [forallb] in H. apply andb_true_iff in H as [He Hs].
  change (session daysBefore parseDate (ev :: events) w)
    with (session daysBefore parseDate events (sessionStep daysBefore parseDate w ev)).
  destruct (sessionStep_keeps_goals u w ev U He) as [G [u' U']].
  rewrite (IH u' _ U' Hs). exact G.
Qed.

End SessionInvariants.

Lemma profile_outlives_the_user_witness :
  profile (app (session sameMonthDaysBefore parseIsoDay handOver settled)) =
    profile (app settled).
Proof.
  destruct (profile_outlives_the_user sameMonthDaysBefore parseIsoDay handOver
              lateEvening None None None settled) as (H & _).
  destruct (H eq_refl) as [P _]. exact P.
Defined.

Lemma goals_without_a_row_are_inherited_witness :
  goals (app (session sameMonthDaysBefore parseIsoDay (tl handOver) settled)) =
    goals (app settled).
Proof.
  apply (goals_without_a_row_are_inherited sameMonthDaysBefore parseIsoDay someUser
           (tl handOver) settled); reflexivity.
Defined.

Lemma orElse_nonzero (x : option Q) (d : Q) :
  ~ (d == 0)%Q -> ~ (orElse x d == 0)%Q.
Proof.
  intros D. destruct x as [q|]; cbn [orElse]; [| exact D].
  destruct (Qeq_bool q 0) eqn:E; [exact D |].
  intros H. apply Qeq_bool_iff in H. congruence.
Qed.

Lemma orElse_cases (x : option Q) (d : Q) :
  (forall q, x = Some q -> ~ (q == 0)%Q -> orElse x d = q) /\
  (forall q, x = Some q -> (q == 0)%Q -> orElse x d = d) /\
  (x = None -> orElse x d = d).
Proof.
  repeat split.
  - intros q -> N. cbn [orElse]. destruct (Qeq_bool q 0) eqn:E; [| reflexivity].
    apply Qeq_bool_iff in E. contradiction.
  - intros q -> Z. cbn [orElse]. apply Qeq_bool_iff in Z. now rewrite Z.
  - intros ->. reflexivity.
Qed.

(** X5.  Whatever the profile row holds, the cycle settings cached from
    it never have a zero length: a null or zero [cycle_length_days]
    becomes 28 and a null or zero [period_length_days] becomes 5, any
    other stored value is taken as it is, and the last period start is
    taken as it is, null included. *)
Theorem loaded_cycle_settings_nonzero (u : User) (clock : Date)
    (logData : option DbDailyLog) (goalsData : option DbUserGoals)
    (p : DbProfile) (w : World) :
  user (app w) = Some u ->
  (~ (cycleLength (cycleSettings (app (loadData clock logData goalsData (Some p) w))) == 0)%Q /\
   (forall q, cycle_length_days p = Some q -> ~ (q == 0)%Q ->
      cycleLength (cycleSettings (app (loadData clock logData goalsData (Some p) w))) = q) /\
   (forall q, cycle_length_days p = Some q -> (q == 0)%Q ->
      cycleLength (cycleSettings (app (loadData clock logData goalsData (Some p) w))) = 28%Q) /\
   (cycle_length_days p = None ->
      cycleLength (cycleSettings (app (loadData clock logData goalsData (Some p) w))) = 28%Q)) /\
  (~ (averagePeriodDays
        (cycleSettings (app (loadData clock logData goalsData (Some p) w))) == 0)%Q /\
   (forall q, period_length_days p = Some q -> ~ (q == 0)%Q ->
      averagePeriodDays
        (cycleSettings (app (loadData clock logData goalsData (Some p) w))) = q) /\
   (forall q, period_length_days p = Some q -> (q == 0)%Q ->
      averagePeriodDays
        (cycleSettings (app (loadData clock logData goalsData (Some p) w))) = 5%Q) /\
   (period_length_days p = None ->
      averagePeriodDays
        (cycleSettings (app (loadData clock logData goalsData (Some p) w))) = 5%Q)) /\
  lastPeriodStartDate (cycleSettings (app (loadData clock logData goalsData (Some p) w))) =
    last_period_start p.
Proof.
  intros U.
  assert (C : cycleSettings (app (loadData clock logData goalsData (Some p) w)) =
              {| cycleLength := orElse (cycle_length_days p) 28;
                 averagePeriodDays := orElse (period_length_days p) 5;
                 lastPeriodStartDate := last_period_start p |}).
  { unfold loadData. rewrite U. destruct logData, goalsData; reflexivity. }
  rewrite C. cbn [cycleLength averagePeriodDays lastPeriodStartDate].
  destruct (orElse_cases (cycle_length_days p) 28) as (A1 & A2 & A3).
  destruct (orElse_cases (period_length_days p) 5) as (B1 & B2 & B3).
  split; [| split; [| reflexivity]].
  - split; [apply orElse_nonzero; discriminate |]. auto.
  - split; [apply orElse_nonzero; discriminate |]. auto.
Qed.

(** A profile row with a zero cycle length and a period of seven days. *)
Lemma loaded_cycle_settings_nonzero_witness :
  cycleLength
    (cycleSettings
       (app (loadData lateEvening None None
               (Some (mkDbProfile None None None (Some 0%Q) (Some 7%Q) None))
               (signedIn earlyMorning)))) = 28%Q /\
  averagePeriodDays
    (cycleSettings
       (app (loadData lateEvening None None
               (Some (mkDbProfile None None None (Some 0%Q) (Some 7%Q) None))
               (signedIn earlyMorning)))) = 7%Q.
Proof.
  destruct (loaded_cycle_settings_nonzero someUser lateEvening None None
              (mkDbProfile None None None (Some 0%Q) (Some 7%Q) None)
              (signedIn earlyMorning) eq_refl) as ((_ & _ & A & _) & (_ & B & _) & _).
  split; [apply (A 0%Q); reflexivity | apply (B 7%Q); [reflexivity | discriminate]].
Defined.

(** ** The day-change check *)

Lemma isLogStale_today (clock : Date) :
  isLogStale clock (getLocalDateString clock) = false.
Proof. unfold isLogStale, getTodayString. now rewrite String.eqb_refl. Qed.

(** X6.  For a signed-in user the day-change check does nothing, and
    asks the store nothing, while the cached record carries today's key;
    once the record is stale it is one full [loadData].  When the answer
    to that load is a row for today (or no row), the record is fresh
    afterwards, so a second check at the same instant does nothing. *)
Theorem day_change_check_settles (u : User) (clock : Date)
    (logData : option DbDailyLog) (goalsData : option DbUserGoals)
    (profileData : option DbProfile) (w : World) :
  user (app w) = Some u ->
  (forall row, logData = Some row -> log_date row = getLocalDateString clock) ->
  (date (todayLog (app w)) = getLocalDateString clock ->
   checkForDayChange clock logData goalsData profileData w = w) /\
  (date (todayLog (app w)) <> getLocalDateString clock ->
   checkForDayChange clock logData goalsData profileData w =
   loadData clock logData goalsData profileData w) /\
  isLogStale clock
    (date (todayLog (app (checkForDayChange clock logData goalsData profileData w)))) =
    false /\
  checkForDayChange clock logData goalsData profileData
    (checkForDayChange clock logData goalsData profileData w) =
  checkForDayChange clock logData goalsData profileData w.
Proof.
  intros U Hrow.
  assert (Fresh : forall w', user (app w') = Some u ->
            date (todayLog (app w')) = getLocalDateString clock ->
            checkForDayChange clock logData goalsData profileData w' = w').
  { intros w' U' E. unfold checkForDayChange. rewrite U', E.
    now rewrite isLogStale_today. }
  assert (Loaded : date (todayLog (app (loadData clock logData goalsData profileData w))) =
                   getLocalDateString clock /\
                   user (app (loadData clock logData goalsData profileData w)) = Some u).
  { unfold loadData. rewrite U.
    destruct logData as [row|], goalsData, profileData;
      cbn [app todayLog user call withApp setIsLoading setTodayLog setGoals
           setProfile setCycleSettings dbToApp date createEmptyDailyLog];
      rewrite ?(Hrow row eq_refl); split; solve [reflexivity | exact U]. }
  destruct (String.eqb_spec (date (todayLog (app w))) (getLocalDateString clock))
    as [E | E].
  - rewrite (Fresh w U E). repeat split.
    + intros N. contradiction.
    + rewrite E. apply isLogStale_today.
    + now apply Fresh.
  - assert (C : checkForDayChange clock logData goalsData profileData w =
                loadData clock logData goalsData profileData w).
    { unfold checkForDayChange, isLogStale, getTodayString. rewrite U.
      destruct (String.eqb_spec (date (todayLog (app w))) (getLocalDateString clock));
        [contradiction | reflexivity]. }
    rewrite C. destruct Loaded as [D U']. repeat split.
    + intros N. contradiction.
    + rewrite D. apply isLogStale_today.
    + now apply Fresh.
Qed.

Lemma day_change_check_settles_witness :
  isLogStale nextMidnight
    (date (todayLog (app (checkForDayChange nextMidnight
                            (Some (storedToday nextMidnight)) None None
                            (signedIn lateEvening))))) = false.
Proof.
  destruct (day_change_check_settles someUser nextMidnight
              (Some (storedToday nextMidnight)) None None (signedIn lateEvening)
              eq_refl) as (_ & _ & H & _).
  - intros row E. injection E as <-. reflexivity.
  - exact H.
Defined.

(** ** Mutators and their writes *)

Lemma mutateLog_keeps_identity (m : Mutation) (clock : Date) (l : DailyLog) :
  date (mutateLog m clock l) = date l /\
  createdAt (mutateLog m clock l) = createdAt l /\
  updatedAt (mutateLog m clock l) = toISOString clock.
Proof. destruct m; repeat split. Qed.

Lemma applyAll_snoc (ms : list (Mutation * Date)) (mc : Mutation * Date) (w : World) :
  applyAll (ms ++ mc :: nil) w = applyMutation (fst mc) (snd mc) (applyAll ms w).
Proof. unfold applyAll. now rewrite fold_left_app. Qed.

(** X7.  Whatever mutations are issued, in whatever order, the cached
    record keeps its day key and its [createdAt]; and after at least one
    mutation its [updatedAt] is the clock reading of the last one. *)
Theorem mutations_keep_day_key (ms : list (Mutation * Date)) (w : World) :
  date (todayLog (app (applyAll ms w))) = date (todayLog (app w)) /\
  createdAt (todayLog (app (applyAll ms w))) = createdAt (todayLog (app w)) /\
  (forall m clock ms', ms = (ms' ++ (m, clock) :: nil)%list ->
     updatedAt (todayLog (app (applyAll ms w))) = toISOString clock).
Proof.
  split; [| split].
  - revert w. induction ms as [|[m c] ms IH]; intros w; [reflexivity |].
    change (applyAll ((m, c) :: ms) w) with (applyAll ms (applyMutation m c w)).
    rewrite IH, applyMutation_todayLog. apply mutateLog_keeps_identity.
  - revert w. induction ms as [|[m c] ms IH]; intros w; [reflexivity |].
    change (applyAll ((m, c) :: ms) w) with (applyAll ms (applyMutation m c w)).
    rewrite IH, applyMutation_todayLog. apply mutateLog_keeps_identity.
  - intros m clock ms' ->. rewrite applyAll_snoc. cbn [fst snd].
    rewrite applyMutation_todayLog. apply mutateLog_keeps_identity.
Qed.

Lemma applyMutation_signed_in (u : User) (m : Mutation) (clock : Date) (w : World) :
  user (app w) = Some u ->
  applyMutation m clock w =
  setTodayLog (mutateLog m clock (todayLog (app w)))
    (mkWorld (app w)
       (io w ++ UpsertDailyLog
                  (up_payload (writeOf u (mutateLog m clock (todayLog (app w))) clock))
             :: nil)
       (inflight w ++ writeOf u (mutateLog m clock (todayLog (app w))) clock :: nil)
       (daily_logs w)).
Proof.
  intros U.
  destruct m; cbn [applyMutation mutateLog];
    unfold addMacro, setSleep, setWeight, setPeriodDay, setRating, setSteps,
           mutate, saveToSupabase;
    rewrite U; reflexivity.
Qed.

(** X8.  For a signed-in user every mutation issues exactly one upsert,
    never more and never none: it is keyed by the user and the cached
    day key and carries the record the cache holds after the mutation.
    So after any sequence of mutations there is one more write in
    flight per mutation, and the table itself has not changed. *)
Theorem one_write_per_mutation (u : User) (ms : list (Mutation * Date))
    (m : Mutation) (clock : Date) (w : World) :
  user (app w) = Some u ->
  inflight (applyMutation m clock w) =
    (inflight w ++ writeOf u (todayLog (app (applyMutation m clock w))) clock :: nil)%list /\
  io (applyMutation m clock w) =
    (io w ++ UpsertDailyLog
               (up_payload (writeOf u (todayLog (app (applyMutation m clock w))) clock))
          :: nil)%list /\
  List.length (inflight (applyAll ms w)) =
    (List.length (inflight w) + List.length ms)%nat /\
  daily_logs (applyAll ms w) = daily_logs w.
Proof.
  intros U. split; [| split].
  - rewrite applyMutation_todayLog, (applyMutation_signed_in u m clock w U).
    reflexivity.
  - rewrite applyMutation_todayLog, (applyMutation_signed_in u m clock w U).
    reflexivity.
  - revert w U. induction ms as [|[m' c'] ms IH]; intros w U.
    + split; [cbn; lia | reflexivity].
    + change (applyAll ((m', c') :: ms) w)
        with (applyAll ms (applyMutation m' c' w)).
      assert (U' : user (app (applyMutation m' c' w)) = Some u).
      { rewrite (applyMutation_signed_in u m' c' w U). exact U. }
      destruct (IH _ U') as [L T]. rewrite L, T.
      rewrite (applyMutation_signed_in u m' c' w U).
      cbn [inflight daily_logs setTodayLog withApp].
      rewrite length_app. cbn [List.length]. split; [lia | reflexivity].
Qed.

Lemma one_write_per_mutation_witness :
  List.length
    (inflight (applyAll ((AddMacro protein 30, lateEvening) ::
                         (SetSleep 8, lateEvening) :: nil)
                 (signedIn earlyMorning))) = 2%nat.
Proof.
  destruct (one_write_per_mutation someUser
              ((AddMacro protein 30, lateEvening) :: (SetSleep 8, lateEvening) :: nil)
              (SetSteps 0) lateEvening (signedIn earlyMorning) eq_refl)
    as (_ & _ & H & _).
  exact H.
Defined.

(** ** Writes reaching the table *)

Lemma upsertPayload_holds (u : User) (log : DailyLog) (clock : Date) :
  rowHolds log (up_payload (writeOf u log clock)).
Proof. unfold rowHolds, writeOf, up_payload. repeat split; vm_compute; reflexivity. Qed.

Lemma upsertPayload_no_created_at (u : User) (log : DailyLog) (t : Q) (clock : Date) :
  upsertPayload u log t clock !! "created_at" = None.
Proof. vm_compute. reflexivity. Qed.

Lemma rowHolds_union (log : DailyLog) (payload old : gmap string Value) :
  rowHolds log payload -> rowHolds log (payload ∪ old).
Proof.
  unfold rowHolds. intros H.
  repeat match goal with
         | H : _ /\ _ |- _ => destruct H
         end.
  repeat split; apply lookup_union_Some_l; assumption.
Qed.

Lemma rowHolds_same (a b : DailyLog) (row : gmap string Value) :
  rowHolds a row -> rowHolds b row -> samePersisted a b.
Proof.
  unfold rowHolds, samePersisted. intros Ha Hb.
  repeat match goal with
         | H : _ /\ _ |- _ => destruct H
         end.
  assert (N : forall x y : option Q, ofNullableNum x = ofNullableNum y -> x = y).
  { intros [x|] [y|] E; simpl in E; congruence. }
  assert (R : forall x y : option Rating, ofNullableRating x = ofNullableRating y -> x = y).
  { intros [[]|] [[]|] E; simpl in E; solve [reflexivity | discriminate E]. }
  repeat split; try congruence; solve [apply N; congruence | apply R; congruence].
Qed.

Lemma nth_error_last {A : Type} (l : list A) (x : A) :
  nth_error (l ++ x :: nil) (List.length l) = Some x.
Proof. induction l; simpl; auto. Qed.

Lemma removeNth_last {A : Type} (l : list A) (x : A) :
  removeNth (List.length l) (l ++ x :: nil) = l.
Proof. induction l as [|a l IH]; simpl; [reflexivity | now rewrite IH]. Qed.

(** What [land] does with the write at position [n]. *)
Lemma land_at (n : nat) (up : Upsert) (w : World) :
  nth_error (inflight w) n = Some up ->
  land n w =
  mkWorld (app w) (io w) (removeNth n (inflight w))
    (<[ (up_user up, up_date up) :=
          up_payload up ∪ default ∅ (daily_logs w !! (up_user up, up_date up)) ]>
       (daily_logs w)).
Proof. intros H. unfold land. now rewrite H. Qed.

(** X9.  When the write of a mutation reaches the table, the row of that
    user and day reads back every column of the record the cache holds;
    the row's [created_at] is what it was (the write does not carry it),
    every other row is untouched, and the cache itself is not changed by
    the landing. *)
Theorem landed_write_reads_back (u : User) (m : Mutation) (clock : Date) (w : World) :
  user (app w) = Some u ->
  rowHolds (todayLog (app (applyMutation m clock w)))
    (storedRow (id u) (date (todayLog (app w)))
       (land (List.length (inflight w)) (applyMutation m clock w))) /\
  storedRow (id u) (date (todayLog (app w)))
    (land (List.length (inflight w)) (applyMutation m clock w)) !! "created_at" =
  storedRow (id u) (date (todayLog (app w))) w !! "created_at" /\
  (forall key, key <> (id u, date (todayLog (app w))) ->
     daily_logs (land (List.length (inflight w)) (applyMutation m clock w)) !! key =
     daily_logs w !! key) /\
  inflight (land (List.length (inflight w)) (applyMutation m clock w)) = inflight w /\
  app (land (List.length (inflight w)) (applyMutation m clock w)) =
    app (applyMutation m clock w).
Proof.
  intros U.
  pose proof (mutateLog_keeps_identity m clock (todayLog (app w))) as (D & _ & _).
  rewrite applyMutation_todayLog.
  rewrite (applyMutation_signed_in u m clock w U).
  set (log := mutateLog m clock (todayLog (app w))) in *.
  rewrite (land_at _ (writeOf u log clock)).
  2:{ cbn [inflight setTodayLog withApp]. apply nth_error_last. }
  unfold storedRow.
  cbn [daily_logs inflight app setTodayLog withApp up_user up_date writeOf].
  fold (writeOf u log clock). rewrite D.
  split; [| split; [| split; [| split]]].
  - rewrite lookup_insert_eq. cbn [default].
    apply rowHolds_union, upsertPayload_holds.
  - rewrite lookup_insert_eq. cbn [default]. unfold Datatypes.id.
    rewrite lookup_union_r; [reflexivity |].
    apply upsertPayload_no_created_at.
  - intros key N. now rewrite lookup_insert_ne.
  - apply removeNth_last.
  - reflexivity.
Qed.

Lemma landed_write_reads_back_witness :
  rowHolds (todayLog (app (applyMutation (AddMacro protein 10) earlyMorning
                             (signedIn earlyMorning))))
    (storedRow "user-1" "2024-03-20" afterOneMeal).
Proof.
  destruct (landed_write_reads_back someUser (AddMacro protein 10) earlyMorning
              (signedIn earlyMorning) eq_refl) as (H & _).
  exact H.
Defined.

(** X10.  Two mutations issued back to back are two independent writes,
    each carrying a full record.  The table ends up with the record of
    whichever write lands last: landing them in the order of issue
    leaves the row equal to the cache, landing them in the other order
    leaves the row at the record between the two mutations, while the
    cache holds the record after both. *)
Theorem last_write_to_land_wins (u : User) (m1 m2 : Mutation) (c1 c2 : Date) (w : World) :
  user (app w) = Some u ->
  inflight w = nil ->
  rowHolds (todayLog (app (applyMutation m2 c2 (applyMutation m1 c1 w))))
    (storedRow (id u) (date (todayLog (app w)))
       (land 0 (land 0 (applyMutation m2 c2 (applyMutation m1 c1 w))))) /\
  rowHolds (todayLog (app (applyMutation m1 c1 w)))
    (storedRow (id u) (date (todayLog (app w)))
       (land 0 (land 1 (applyMutation m2 c2 (applyMutation m1 c1 w))))) /\
  todayLog (app (land 0 (land 1 (applyMutation m2 c2 (applyMutation m1 c1 w))))) =
    mutateLog m2 c2 (mutateLog m1 c1 (todayLog (app w))).
Proof.
  intros U F.
  pose proof (mutateLog_keeps_identity m1 c1 (todayLog (app w))) as (D1 & _ & _).
  assert (U1 : user (app (applyMutation m1 c1 w)) = Some u).
  { rewrite (applyMutation_signed_in u m1 c1 w U). exact U. }
  pose proof (mutateLog_keeps_identity m2 c2 (mutateLog m1 c1 (todayLog (app w))))
    as (D2 & _ & _).
  rewrite !applyMutation_todayLog.
  rewrite (applyMutation_signed_in u m2 c2 _ U1).
  rewrite applyMutation_todayLog.
  rewrite (applyMutation_signed_in u m1 c1 w U). rewrite F.
  set (l1 := mutateLog m1 c1 (todayLog (app w))) in *.
  set (l2 := mutateLog m2 c2 l1) in *.
  unfold land, storedRow, setTodayLog, withApp.
  cbn [nth_error inflight removeNth daily_logs app todayLog io List.app
       up_user up_date up_payload writeOf].
  fold (writeOf u l1 c1) (writeOf u l2 c2).
  rewrite D2, D1. rewrite !lookup_insert_eq. cbn [default].
  split; [| split].
  - apply rowHolds_union, upsertPayload_holds.
  - apply rowHolds_union, upsertPayload_holds.
  - reflexivity.
Qed.

Lemma last_write_to_land_wins_witness :
  rowHolds (addMacroLog protein 10 earlyMorning
              (createEmptyDailyLog earlyMorning earlyMorning))
    (storedRow "user-1" "2024-03-20"
       (land 0 (land 1 (applyMutation (AddMacro protein 5) lateEvening
                          (applyMutation (AddMacro protein 10) earlyMorning
                             (signedIn earlyMorning)))))).
Proof.
  destruct (last_write_to_land_wins someUser (AddMacro protein 10) (AddMacro protein 5)
              earlyMorning lateEvening (signedIn earlyMorning) eq_refl eq_refl)
    as (_ & H & _).
  exact H.
Defined.

(** X11.  A write carries the full record: two records that produce the
    same upsert payload agree on the day key, the three macros, sleep,
    weight, the period flag, steps and the three ratings. *)
Theorem payload_determines_record (u : User) (a b : DailyLog) (ca cb : Date) :
  up_payload (writeOf u a ca) = up_payload (writeOf u b cb) -> samePersisted a b.
Proof.
  intros E. apply (rowHolds_same a b (up_payload (writeOf u a ca))).
  - apply upsertPayload_holds.
  - rewrite E. apply upsertPayload_holds.
Qed.

Lemma payload_determines_record_witness :
  samePersisted (withTotalCalories 999 (createEmptyDailyLog earlyMorning earlyMorning))
    (createEmptyDailyLog earlyMorning lateEvening).
Proof.
  apply (payload_determines_record someUser _ _ lateEvening lateEvening).
  reflexivity.
Defined.

(** ** Calories and goals *)

(** X12.  [addMacro] recomputes the calorie total from the three
    accumulators on every call: whatever the cache held before, after
    the call the stored total is [calculateCalories] of the stored
    macros, the named accumulator is the previous one plus the delta
    and the other two are untouched, and the write it issues carries
    that same total.  The total is not kept by adding 4 or 9 calories
    per gram to the previous total: in double precision that would be
    another number. *)
Theorem addMacro_recomputes_calories (type : MacroType) (grams : float)
    (clock : Date) (w : Ieee.World) :
  IeeeSpec.caloriesConsistent (Ieee.todayLog (Ieee.addMacro type grams clock w)) /\
  IeeeSpec.macroOf type (Ieee.todayLog (Ieee.addMacro type grams clock w)) =
    (IeeeSpec.macroOf type (Ieee.todayLog w) + grams)%float /\
  (forall t, IeeeSpec.sameMacro type t = false ->
     IeeeSpec.macroOf t (Ieee.todayLog (Ieee.addMacro type grams clock w)) =
     IeeeSpec.macroOf t (Ieee.todayLog w)) /\
  (forall u, Ieee.user w = Some u ->
     exists payload,
       Ieee.io (Ieee.addMacro type grams clock w) = (Ieee.io w ++ payload :: nil)%list /\
       payload !! "total_calories" =
         Some (Ieee.VNum
                 (Ieee.totalCalories (Ieee.todayLog (Ieee.addMacro type grams clock w))))) /\
  ~ (forall t g c w',
       IeeeSpec.caloriesConsistent (Ieee.todayLog w') ->
       Ieee.totalCalories (Ieee.todayLog (Ieee.addMacro t g c w')) =
       (Ieee.totalCalories (Ieee.todayLog w') + IeeeSpec.caloriesPerGram t * g)%float).
Proof.
  split; [reflexivity |].
  split; [now destruct type |].
  split; [intros t N; destruct type, t; solve [reflexivity | discriminate N] |].
  split.
  - intros u U. unfold Ieee.addMacro, Ieee.saveToSupabase. rewrite U.
    cbn [Ieee.io Ieee.setTodayLog Ieee.todayLog]. eexists. split; [reflexivity |].
    reflexivity.
  - intros H.
    specialize (H fat 0.3%float lateEvening IeeeSpec.tenthOfFat eq_refl).
    apply (f_equal (fun x => PrimFloat.eqb x 3.6)) in H.
    discriminate H.
Qed.

(** A tenth of a gram of fat is 0.9 calories; with 0.3 g more the total
    is recomputed as 3.6, where adding 9 calories per gram to 0.9 would
    give 3.5999999999999996. *)
Example fat_total_is_recomputed :
  Ieee.totalCalories (Ieee.todayLog IeeeSpec.tenthOfFat) = 0.9%float /\
  Ieee.totalCalories
    (Ieee.todayLog (Ieee.addMacro fat 0.3 lateEvening IeeeSpec.tenthOfFat)) = 3.6%float /\
  (0.9 + 9 * 0.3)%float = 3.5999999999999996%float.
Proof. repeat split. Qed.

Lemma goalKeyMap_inj (a b : GoalKey) : goalKeyMap a = goalKeyMap b -> a = b.
Proof. destruct a, b; simpl; intros E; solve [reflexivity | discriminate E]. Qed.

(** X13.  A successful [updateGoal] changes the named goal and nothing
    else: the other five goals, the record, the profile and the cycle
    settings are as before; and the one write it issues carries the
    column of that goal with the new value and the column of no other
    goal. *)
Theorem updateGoal_changes_one_goal (u : User) (type : GoalKey) (value : Q)
    (clock : Date) (w : World) :
  user (app w) = Some u ->
  GoalEditor.goalOf type (goals (app (snd (updateGoal type value clock None w)))) = value /\
  (forall k, k <> type ->
     GoalEditor.goalOf k (goals (app (snd (updateGoal type value clock None w)))) =
     GoalEditor.goalOf k (goals (app w))) /\
  todayLog (app (snd (updateGoal type value clock None w))) = todayLog (app w) /\
  profile (app (snd (updateGoal type value clock None w))) = profile (app w) /\
  cycleSettings (app (snd (updateGoal type value clock None w))) = cycleSettings (app w) /\
  exists payload,
    io (snd (updateGoal type value clock None w)) =
      (io w ++ UpdateUserGoals (id u) payload :: nil)%list /\
    numCol payload (goalKeyMap type) = Some value /\
    (forall k, k <> type -> payload !! goalKeyMap k = None).
Proof.
  intros U. unfold updateGoal. rewrite U.
  cbn [snd app io goals todayLog profile cycleSettings call withApp setGoals].
  split; [destruct type; reflexivity |].
  split; [intros k N; destruct k, type; solve [reflexivity | contradiction] |].
  repeat (split; [reflexivity |]).
  eexists. split; [reflexivity |]. split.
  - destruct type; vm_compute; reflexivity.
  - intros k N. destruct k, type; solve [vm_compute; reflexivity | contradiction].
Qed.

Lemma updateGoal_changes_one_goal_witness :
  GoalEditor.goalOf stepsGoalKey
    (goals (app (snd (updateGoal proteinGoalKey 150 lateEvening None
                        (signedIn earlyMorning))))) = 10000%Q.
Proof.
  destruct (updateGoal_changes_one_goal someUser proteinGoalKey 150 lateEvening
              (signedIn earlyMorning) eq_refl) as (_ & H & _).
  apply (H stepsGoalKey). discriminate.
Defined.


(** X15.  For [heightFeet] the profile write carries both height columns
    and for [age] only the age; for [heightInches] it carries no profile
    column at all, and yet, when that write succeeds, the cache takes
    both the feet and the inches of the value. *)
Theorem updateProfile_columns (u : User) (value feet inches : Q) (clock : Date)
    (w : World) :
  user (app w) = Some u ->
  (exists payload,
     io (snd (updateProfile (heightFeetUpdate feet inches) clock None w)) =
       (io w ++ UpdateProfiles (id u) payload :: nil)%list /\
     numCol payload "height_feet" = Some feet /\
     numCol payload "height_inches" = Some inches /\
     payload !! "age" = None) /\
  (exists payload,
     io (snd (updateProfile (ageUpdate value) clock None w)) =
       (io w ++ UpdateProfiles (id u) payload :: nil)%list /\
     numCol payload "age" = Some value /\
     payload !! "height_feet" = None /\ payload !! "height_inches" = None) /\
  (exists payload,
     io (snd (updateProfile (heightInchesUpdate feet inches) clock None w)) =
       (io w ++ UpdateProfiles (id u) payload :: nil)%list /\
     payload !! "height_feet" = None /\ payload !! "height_inches" = None /\
     payload !! "age" = None /\
     heightFeet (profile (app (snd (updateProfile (heightInchesUpdate feet inches)
                                     clock None w)))) = Some feet /\
     heightInches (profile (app (snd (updateProfile (heightInchesUpdate feet inches)
                                       clock None w)))) = Some inches).
Proof.
  intros U. unfold updateProfile. rewrite U.
  cbn [snd app io profile call withApp setProfile withProfile heightFeet heightInches].
  split; [| split]; eexists; (split; [reflexivity |]);
    repeat split; vm_compute; reflexivity.
Qed.

Lemma updateProfile_columns_witness :
  exists payload,
    io (snd (updateProfile (heightInchesUpdate 5 7) lateEvening None
               (signedIn earlyMorning))) =
      (UpdateProfiles "user-1" payload :: nil)%list /\
    payload !! "height_inches" = None.
Proof.
  destruct (updateProfile_columns someUser 0 5 7 lateEvening (signedIn earlyMorning)
              eq_refl) as (_ & _ & (payload & I & _ & H & _)).
  exists payload. split; [exact I | exact H].
Defined.

(** ** Queries *)

(** X16.  Each call of [getWeightHistory] and of [getSevenDayAverages]
    by a signed-in user is exactly one read of the table, whether it
    succeeds or fails: nothing is cached between calls, nothing is
    written, and the provider's state does not change. *)
Theorem queries_read_once (daysBefore : Date -> Z -> Date) (parseDate : string -> Date)
    (u : User) (days : ChartRange) (clock : Date) (error : option Error) (w : World) :
  user (app w) = Some u ->
  (io (snd (getWeightHistory daysBefore parseDate days clock error w)) =
     (io w ++ SelectWeights (id u) (windowStart daysBefore days clock) :: nil)%list /\
   app (snd (getWeightHistory daysBefore parseDate days clock error w)) = app w /\
   inflight (snd (getWeightHistory daysBefore parseDate days clock error w)) = inflight w /\
   daily_logs (snd (getWeightHistory daysBefore parseDate days clock error w)) =
     daily_logs w) /\
  (io (snd (getSevenDayAverages daysBefore clock error w)) =
     (io w ++ SelectAverages (id u) (getLocalDateString (daysBefore clock 7)) :: nil)%list /\
   app (snd (getSevenDayAverages daysBefore clock error w)) = app w /\
   inflight (snd (getSevenDayAverages daysBefore clock error w)) = inflight w /\
   daily_logs (snd (getSevenDayAverages daysBefore clock error w)) = daily_logs w).
Proof.
  intros U. unfold getWeightHistory, getSevenDayAverages. rewrite U.
  destruct error; repeat split.
Qed.

Lemma queries_read_once_witness :
  io (snd (getSevenDayAverages sameMonthDaysBefore lateEvening (Some "offline")
             (signedIn earlyMorning))) =
  (SelectAverages "user-1" "2024-03-13" :: nil)%list.
Proof.
  destruct (queries_read_once sameMonthDaysBefore parseIsoDay someUser range7d
              lateEvening (Some "offline") (signedIn earlyMorning) eq_refl)
    as (_ & H & _).
  exact H.
Defined.

Section FilterOrder.

Context {A : Type}.
Variable keep : A -> bool.

Lemma filter_perm (l l' : list A) :
  Permutation l l' -> Permutation (List.filter keep l) (List.filter keep l').
Proof.
  induction 1 as [| x l l' _ IH | x y l | l l' l'' _ IH1 _ IH2].
  - constructor.
  - cbn [List.filter]. destruct (keep x); [now constructor | exact IH].
  - cbn [List.filter]. destruct (keep x), (keep y);
      solve [apply Permutation_refl | constructor].
  - now apply (perm_trans IH1).
Qed.

End FilterOrder.

Lemma averagesOf_present (data : list Ieee.AvgRow) :
  isPresent (Ieee.avg_calories (Ieee.averagesOf data)) =
    negb (Nat.eqb (List.length (List.filter Ieee.isValidRow data)) 0) /\
  isPresent (Ieee.avg_protein (Ieee.averagesOf data)) =
    negb (Nat.eqb (List.length (List.filter Ieee.isValidRow data)) 0) /\
  isPresent (Ieee.avg_steps (Ieee.averagesOf data)) =
    negb (Nat.eqb (List.length (List.filter Ieee.isValidRow data)) 0) /\
  isPresent (Ieee.avg_sleep (Ieee.averagesOf data)) =
    negb (Nat.eqb
            (List.length
               (List.filter (fun row => isPresent (Ieee.row_sleep_hours row))
                  (List.filter Ieee.isValidRow data))) 0).
Proof.
  unfold Ieee.averagesOf. destruct data as [|r data]; [repeat split |].
  destruct (List.filter Ieee.isValidRow (r :: data)) as [|v valid]; [repeat split |].
  cbn [Ieee.avg_calories Ieee.avg_protein Ieee.avg_steps Ieee.avg_sleep isPresent].
  repeat split.
  destruct (List.filter (fun row => isPresent (Ieee.row_sleep_hours row)) (v :: valid));
    reflexivity.
Qed.

(** X17.  Rearranging the records of the window never changes which of
    the four averages are null nor the numbers of records they are
    divided by, but it can change their values: the reduce adds the
    doubles in row order.  Sleep of 7.1, 7.2 and 7.4 hours averages to
    7.233333333333334, and to 7.233333333333333 when the last two
    records are swapped. *)
Theorem averages_and_row_order :
  (forall data data', Permutation data data' ->
     isPresent (Ieee.avg_calories (Ieee.averagesOf data)) =
       isPresent (Ieee.avg_calories (Ieee.averagesOf data')) /\
     isPresent (Ieee.avg_protein (Ieee.averagesOf data)) =
       isPresent (Ieee.avg_protein (Ieee.averagesOf data')) /\
     isPresent (Ieee.avg_steps (Ieee.averagesOf data)) =
       isPresent (Ieee.avg_steps (Ieee.averagesOf data')) /\
     isPresent (Ieee.avg_sleep (Ieee.averagesOf data)) =
       isPresent (Ieee.avg_sleep (Ieee.averagesOf data')) /\
     Ieee.lengthOf (List.filter Ieee.isValidRow data) =
       Ieee.lengthOf (List.filter Ieee.isValidRow data') /\
     Ieee.lengthOf (List.filter (fun row => isPresent (Ieee.row_sleep_hours row))
                      (List.filter Ieee.isValidRow data)) =
       Ieee.lengthOf (List.filter (fun row => isPresent (Ieee.row_sleep_hours row))
                        (List.filter Ieee.isValidRow data'))) /\
  Permutation IeeeSpec.threeNights IeeeSpec.threeNightsReordered /\
  Ieee.avg_sleep (Ieee.averagesOf IeeeSpec.threeNights) = Some 7.233333333333334%float /\
  Ieee.avg_sleep (Ieee.averagesOf IeeeSpec.threeNightsReordered) =
    Some 7.233333333333333%float /\
  ~ (forall data data', Permutation data data' ->
       Ieee.averagesOf data = Ieee.averagesOf data').
Proof.
  assert (P3 : Permutation IeeeSpec.threeNights IeeeSpec.threeNightsReordered).
  { unfold IeeeSpec.threeNights, IeeeSpec.threeNightsReordered.
    apply perm_skip, perm_swap. }
  split; [| split; [exact P3 | split; [reflexivity | split; [reflexivity |]]]].
  - intros data data' P.
    pose proof (filter_perm Ieee.isValidRow _ _ P) as PV.
    pose proof (filter_perm (fun row => isPresent (Ieee.row_sleep_hours row)) _ _ PV) as PS.
    apply Permutation_length in PV, PS.
    destruct (averagesOf_present data) as (C & Pr & St & Sl).
    destruct (averagesOf_present data') as (C' & Pr' & St' & Sl').
    rewrite C, Pr, St, Sl, C', Pr', St', Sl'. unfold Ieee.lengthOf.
    rewrite PV, PS. repeat split.
  - intros H. specialize (H _ _ P3).
    apply (f_equal (fun a => match Ieee.avg_sleep a with
                             | Some x => PrimFloat.eqb x 7.233333333333334
                             | None => false
                             end)) in H.
    discriminate H.
Qed.

(* ================================================================== *)
(** * Properties of the presentation code *)
(* ================================================================== *)

Import Invariants.

(** ** Comparisons of the runtime *)

Lemma gt_spec (a b : Q) : JsMath.gt a b = true <-> (b < a)%Q.
Proof.
  unfold JsMath.gt. rewrite negb_true_iff. split.
  - intros H. apply Qnot_le_lt. intros L. apply Qle_bool_iff in L. congruence.
  - intros H. destruct (Qle_bool a b) eqn:E; [| reflexivity].
    apply Qle_bool_iff in E. exfalso. now apply (Qlt_not_le _ _ H).
Qed.

Lemma ge_spec (a b : Q) : JsMath.ge a b = true <-> (b <= a)%Q.
Proof. unfold JsMath.ge. apply Qle_bool_iff. Qed.

Lemma min_spec (a b : Q) :
  ((a <= b)%Q /\ JsMath.min a b = a) \/ ((b < a)%Q /\ JsMath.min a b = b).
Proof.
  unfold JsMath.min. destruct (Qle_bool a b) eqn:E.
  - left. split; [now apply Qle_bool_iff | reflexivity].
  - right. split; [| reflexivity].
    apply Qnot_le_lt. intros L. apply Qle_bool_iff in L. congruence.
Qed.

Lemma max_spec (a b : Q) :
  ((a <= b)%Q /\ JsMath.max a b = b) \/ ((b < a)%Q /\ JsMath.max a b = a).
Proof.
  unfold JsMath.max. destruct (Qle_bool a b) eqn:E.
  - left. split; [now apply Qle_bool_iff | reflexivity].
  - right. split; [| reflexivity].
    apply Qnot_le_lt. intros L. apply Qle_bool_iff in L. congruence.
Qed.

(** ** The dashboard *)

(** X18.  The dashboard shows its empty state for a fresh record, and
    logging only a weight, a period day or a rating does not end it:
    [hasData] looks at calories, sleep and steps alone.  Logging sleep
    ends it, zero hours included. *)
Theorem dashboard_has_data (l : DailyLog) (d clock : Date) :
  HomePage.hasData (createEmptyDailyLog d clock) = false /\
  (forall lbs, HomePage.hasData (setWeightLog lbs clock l) = HomePage.hasData l) /\
  (forall b, HomePage.hasData (setPeriodDayLog b clock l) = HomePage.hasData l) /\
  (forall t v, HomePage.hasData (setRatingLog t v clock l) = HomePage.hasData l) /\
  (forall h, HomePage.hasData (setSleepLog h clock l) = true) /\
  (HomePage.hasData l = true <->
   (0 < HomePage.caloriesConsumed l)%Q \/ sleepHours l <> None \/ (0 < steps l)%Q).
Proof.
  split; [reflexivity |].
  split; [reflexivity |].
  split; [reflexivity |].
  split; [reflexivity |].
  split.
  - intros h. unfold HomePage.hasData. cbn [setSleepLog sleepHours isPresent].
    now rewrite orb_true_r.
  - unfold HomePage.hasData. rewrite !orb_true_iff, !gt_spec.
    destruct (sleepHours l); cbn [isPresent]; intuition congruence.
Qed.

(** ** Progress bar and calorie card *)

Lemma Qdiv_scaled (value max : Q) :
  (0 < max)%Q -> ((value / max) * max == value)%Q.
Proof. intros H. field. intros E. rewrite E in H. now apply (Qlt_irrefl 0). Qed.

(** X19.  With a positive maximum the width of a progress bar never
    exceeds 100 percent: it is [value / max * 100] below the maximum and
    exactly 100 from the maximum on.  It is not bounded below: a
    negative value gives a negative width. *)
Theorem progress_bar_percentage (value max : Q) :
  (0 < max)%Q ->
  (ProgressBar.percentage value max <= 100)%Q /\
  ((value < max)%Q ->
   ProgressBar.percentage value max = (value / max * 100)%Q /\
   (ProgressBar.percentage value max < 100)%Q) /\
  ((max <= value)%Q -> (ProgressBar.percentage value max == 100)%Q) /\
  ((value < 0)%Q -> (ProgressBar.percentage value max < 0)%Q).
Proof.
  intros M. pose proof (Qdiv_scaled value max M) as S.
  set (r := (value / max)%Q) in *. unfold ProgressBar.percentage. fold r.
  assert (R1 : (value < max)%Q -> (r < 1)%Q).
  { intros H. apply Qnot_le_lt. intros L.
    assert ((1 * max <= r * max)%Q) by (apply Qmult_le_compat_r; [exact L | lra]).
    lra. }
  assert (R2 : (max <= value)%Q -> (1 <= r)%Q).
  { intros H. apply Qnot_lt_le. intros L.
    assert ((r * max < 1 * max)%Q) by (apply Qmult_lt_compat_r; [exact M | exact L]).
    lra. }
  assert (R3 : (value < 0)%Q -> (r < 0)%Q).
  { intros H. apply Qnot_le_lt. intros L.
    assert ((0 * max <= r * max)%Q) by (apply Qmult_le_compat_r; [exact L | lra]).
    lra. }
  destruct (min_spec (r * 100) 100) as [[L ->] | [L ->]].
  - split; [exact L |]. split; [| split].
    + intros H. split; [reflexivity |]. specialize (R1 H). lra.
    + intros H. specialize (R2 H). lra.
    + intros H. specialize (R3 H). lra.
  - split; [lra |]. split; [| split].
    + intros H. specialize (R1 H). lra.
    + intros _. reflexivity.
    + intros H. specialize (R3 H). lra.
Qed.

Lemma progress_bar_percentage_witness :
  (ProgressBar.percentage 2500 2000 == 100)%Q.
Proof.
  destruct (progress_bar_percentage 2500 2000) as (_ & _ & H & _).
  - reflexivity.
  - apply H. discriminate.
Defined.


(** ** The log page *)

Section LogPageEvents.

Variable parseFloat : string -> option Q.

Lemma setRatingLog_ratingOf (t type : RatingType) (r : Rating) (clock : Date)
    (l : DailyLog) :
  isPresent (ratingOf type l) = true ->
  isPresent (ratingOf type (setRatingLog t (Some r) clock l)) = true.
Proof. destruct t, type; simpl; auto. Qed.

(** What one event does to the cached record. *)
Lemma handle_todayLog (clock : Date) (st : LogPage.Local) (w : World)
    (ev : LogPage.Event) :
  todayLog (app (snd (LogPage.handle parseFloat clock (st, w) ev))) = todayLog (app w) \/
  (exists t g, ev = LogPage.MacroAdd t g /\
     exists q, parseFloat g = Some q /\ ~ (q == 0)%Q /\
       todayLog (app (snd (LogPage.handle parseFloat clock (st, w) ev))) =
       addMacroLog t q clock (todayLog (app w))) \/
  (exists h, (0 <= h)%Q /\
     todayLog (app (snd (LogPage.handle parseFloat clock (st, w) ev))) =
     setSleepLog h clock (todayLog (app w))) \/
  (exists x, (0 <= x)%Q /\
     todayLog (app (snd (LogPage.handle parseFloat clock (st, w) ev))) =
     setWeightLog x clock (todayLog (app w))) \/
  (exists b,
     todayLog (app (snd (LogPage.handle parseFloat clock (st, w) ev))) =
     setPeriodDayLog b clock (todayLog (app w))) \/
  (exists t r,
     todayLog (app (snd (LogPage.handle parseFloat clock (st, w) ev))) =
     setRatingLog t (Some r) clock (todayLog (app w))).
Proof.
  destruct ev as [t g | val | val | b | t r | t]; cbn [LogPage.handle snd].
  - unfold LogPage.macroHandleAdd, LogPage.hasValidInput.
    destruct (parseFloat g) as [q|] eqn:P; [| now left].
    destruct (Qeq_bool q 0) eqn:E; cbn [negb snd]; [now left |].
    right. left. exists t, g. split; [reflexivity |]. exists q.
    split; [exact P |]. split.
    + intros H. apply Qeq_bool_iff in H. congruence.
    + apply (mutate_todayLog (addMacroLog t q clock)).
  - unfold LogPage.sleepHandleChange.
    destruct (parseFloat val) as [q|]; [| now left].
    destruct (JsMath.ge q 0) eqn:E; [| now left].
    right. right. left. exists q. split; [now apply ge_spec |].
    apply (mutate_todayLog (setSleepLog q clock)).
  - unfold LogPage.weightHandleChange.
    destruct (parseFloat val) as [q|]; [| now left].
    destruct (JsMath.ge q 0) eqn:E; [| now left].
    right. right. right. left. exists q. split; [now apply ge_spec |].
    apply (mutate_todayLog (setWeightLog q clock)).
  - right. right. right. right. left. exists b.
    apply (mutate_todayLog (setPeriodDayLog b clock)).
  - now left.
  - unfold LogPage.onSave. destruct (LogPage.localOf t st) as [r|]; [| now left].
    right. right. right. right. right. exists t, r.
    apply (mutate_todayLog (setRatingLog t (Some r) clock)).
Qed.

Lemma handleAll_step (clock : Date) (ev : LogPage.Event) (events : list LogPage.Event)
    (sw : LogPage.Local * World) :
  LogPage.handleAll parseFloat clock (ev :: events) sw =
  LogPage.handleAll parseFloat clock events (LogPage.handle parseFloat clock sw ev).
Proof. reflexivity. Qed.

(** X21.  Whatever is typed or pressed on the log page, a sleep or a
    weight that gets into the cached record is never negative (texts
    that do not parse and negative numbers are dropped), and the step
    count and the day key are never changed from this page. *)
Theorem log_page_keeps_body_values (clock : Date) (events : list LogPage.Event)
    (st : LogPage.Local) (w : World) :
  bodyOk (todayLog (app w)) ->
  bodyOk (todayLog (app (snd (LogPage.handleAll parseFloat clock events (st, w))))) /\
  steps (todayLog (app (snd (LogPage.handleAll parseFloat clock events (st, w))))) =
    steps (todayLog (app w)) /\
  date (todayLog (app (snd (LogPage.handleAll parseFloat clock events (st, w))))) =
    date (todayLog (app w)).
Proof.
  revert st w. induction events as [|ev events IH]; intros st w B.
  - repeat split; apply B.
  - rewrite handleAll_step.
    destruct (LogPage.handle parseFloat clock (st, w) ev) as [st' w'] eqn:H.
    assert (T := handle_todayLog clock st w ev). rewrite H in T. cbn [snd] in T.
    assert (B' : bodyOk (todayLog (app w')) /\
                 steps (todayLog (app w')) = steps (todayLog (app w)) /\
                 date (todayLog (app w')) = date (todayLog (app w))).
    { destruct B as [Bs Bw].
      destruct T as [-> | [(t & g & _ & q & _ & _ & ->) | [(h & Hh & ->) |
                    [(x & Hx & ->) | [(b & ->) | (t & r & ->)]]]]];
        unfold bodyOk; cbn [sleepHours weightLbs steps date addMacroLog setSleepLog
                            setWeightLog setPeriodDayLog setRatingLog];
        repeat split; auto; intros ? E; injection E as <-; assumption. }
    destruct B' as (B' & S' & D').
    destruct (IH st' w' B') as (IB & IS & ID).
    repeat split; try apply IB; congruence.
Qed.

(** X22.  A rating that has been saved can be replaced but not cleared
    from the log page: [setRating] is only ever called with a rating,
    so a rating that is present stays present through every event. *)
Theorem log_page_never_clears_a_rating (clock : Date) (events : list LogPage.Event)
    (st : LogPage.Local) (w : World) (type : RatingType) :
  isPresent (ratingOf type (todayLog (app w))) = true ->
  isPresent
    (ratingOf type
       (todayLog (app (snd (LogPage.handleAll parseFloat clock events (st, w)))))) = true.
Proof.
  revert st w. induction events as [|ev events IH]; intros st w B; [exact B |].
  rewrite handleAll_step.
  destruct (LogPage.handle parseFloat clock (st, w) ev) as [st' w'] eqn:H.
  assert (T := handle_todayLog clock st w ev). rewrite H in T. cbn [snd] in T.
  apply IH.
  destruct T as [-> | [(t & g & _ & q & _ & _ & ->) | [(h & Hh & ->) |
                [(x & Hx & ->) | [(b & ->) | (t & r & ->)]]]]];
    try (destruct type; exact B).
  now apply setRatingLog_ratingOf.
Qed.

(** X23.  The Add button of a macro row does nothing for a text that
    does not parse or parses to zero: the text stays in the box, the
    cache is untouched and no write is issued.  For any other number,
    negative ones included, it is one [addMacro] with that number and
    the box is emptied.  An event of the page issues at most one
    write. *)
Theorem macro_add_button (type : MacroType) (inputValue : string) (clock : Date)
    (st : LogPage.Local) (ev : LogPage.Event) (w : World) :
  (LogPage.hasValidInput parseFloat inputValue = false ->
   LogPage.macroHandleAdd parseFloat (fun g => addMacro type g clock) inputValue w =
   (inputValue, w)) /\
  (forall q, parseFloat inputValue = Some q -> ~ (q == 0)%Q ->
   LogPage.macroHandleAdd parseFloat (fun g => addMacro type g clock) inputValue w =
   (EmptyString, addMacro type q clock w)) /\
  (parseFloat inputValue = None ->
   LogPage.hasValidInput parseFloat inputValue = false) /\
  (forall q, parseFloat inputValue = Some q -> (q == 0)%Q ->
   LogPage.hasValidInput parseFloat inputValue = false) /\
  (List.length (io (snd (LogPage.handle parseFloat clock (st, w) ev))) <=
   S (List.length (io w)))%nat.
Proof.
  split; [| split; [| split; [| split]]].
  - intros H. unfold LogPage.macroHandleAdd. now rewrite H.
  - intros q P N. unfold LogPage.macroHandleAdd, LogPage.hasValidInput. rewrite P.
    destruct (Qeq_bool q 0) eqn:E; [| reflexivity].
    apply Qeq_bool_iff in E. contradiction.
  - intros P. unfold LogPage.hasValidInput. now rewrite P.
  - intros q P Z. unfold LogPage.hasValidInput. rewrite P.
    apply Qeq_bool_iff in Z. now rewrite Z.
  - assert (M : forall update c w0,
              (List.length (io (mutate update c w0)) <= S (List.length (io w0)))%nat).
    { intros update c w0. unfold mutate, saveToSupabase.
      destruct (user (app w0)); cbn [io setTodayLog withApp];
        rewrite ?length_app; cbn [List.length]; lia. }
    destruct ev as [t g | val | val | b | t r | t]; cbn [LogPage.handle snd].
    + unfold LogPage.macroHandleAdd.
      destruct (LogPage.hasValidInput parseFloat g); [| cbn [snd]; lia].
      destruct (parseFloat g); cbn [snd]; [apply M | lia].
    + unfold LogPage.sleepHandleChange.
      destruct (parseFloat val) as [q|]; [| lia].
      destruct (JsMath.ge q 0); [apply M | lia].
    + unfold LogPage.weightHandleChange.
      destruct (parseFloat val) as [q|]; [| lia].
      destruct (JsMath.ge q 0); [apply M | lia].
    + apply M.
    + lia.
    + unfold LogPage.onSave. destruct (LogPage.localOf t st); [apply M | lia].
Qed.

End LogPageEvents.

Lemma log_page_keeps_body_values_witness :
  bodyOk
    (todayLog
       (app (snd (LogPage.handleAll sampleParseFloat lateEvening
                    (LogPage.SleepChange "-2" :: LogPage.WeightChange "30" ::
                     LogPage.MacroAdd protein "30" :: nil)
                    (LogPage.initialLocal (todayLog (app (signedIn earlyMorning))),
                     signedIn earlyMorning))))).
Proof.
  apply (log_page_keeps_body_values sampleParseFloat lateEvening _
           (LogPage.initialLocal (todayLog (app (signedIn earlyMorning))))
           (signedIn earlyMorning)).
  split; intros ? E; discriminate E.
Defined.

Lemma log_page_never_clears_a_rating_witness :
  isPresent
    (ratingOf energy
       (todayLog
          (app (snd (LogPage.handleAll sampleParseFloat lateEvening
                       (LogPage.RatingChange hunger R2 :: LogPage.RatingSave hunger ::
                        LogPage.RatingSave motivation :: nil)
                       (LogPage.mkLocal None None None,
                        setRating energy (Some R4) earlyMorning
                          (signedIn earlyMorning))))))) = true.
Proof.
  apply (log_page_never_clears_a_rating sampleParseFloat lateEvening _
           (LogPage.mkLocal None None None)
           (setRating energy (Some R4) earlyMorning (signedIn earlyMorning)) energy).
  reflexivity.
Defined.

(** ** The goal editor *)

Section GoalEditorSaves.

Variable parseFloat : string -> option Q.
Variable numberToString : Q -> string.

Lemma withGoal_goalOf (type k : GoalKey) (value : Q) (g : UserGoals) :
  (k = type /\ GoalEditor.goalOf k (withGoal type value g) = value) \/
  (k <> type /\ GoalEditor.goalOf k (withGoal type value g) = GoalEditor.goalOf k g).
Proof.
  destruct k, type;
    solve [left; split; reflexivity | right; split; [discriminate | reflexivity]].
Qed.

(** X24.  For a signed-in user, saving from a goal editor never lets a
    failure out and never stores a goal that is not above zero.  If the
    cached goals changed,
    the write had succeeded, the editor shows "Saved" and is no longer
    saving, and the new goal is positive; if the write failed, the
    goals are what they were and "Saved" is not switched on.  So goals
    that are all positive stay all positive. *)
Theorem goal_editor_saves_positive_goals (u : User) (type : GoalKey) (clock : Date)
    (error : option Error) (st : GoalEditor.Editor) (w : World) :
  user (app w) = Some u ->
  (goals (app (snd (GoalEditor.saveGoal parseFloat numberToString type clock error st w)))
     <> goals (app w) ->
   error = None /\
   GoalEditor.showSaved
     (fst (GoalEditor.saveGoal parseFloat numberToString type clock error st w)) = true /\
   GoalEditor.isSaving
     (fst (GoalEditor.saveGoal parseFloat numberToString type clock error st w)) = false /\
   (0 < GoalEditor.goalOf type
          (goals (app (snd (GoalEditor.saveGoal parseFloat numberToString type clock
                              error st w)))))%Q) /\
  (error <> None ->
   goals (app (snd (GoalEditor.saveGoal parseFloat numberToString type clock error st w)))
     = goals (app w) /\
   GoalEditor.showSaved
     (fst (GoalEditor.saveGoal parseFloat numberToString type clock error st w)) =
     GoalEditor.showSaved st) /\
  (allPositive (goals (app w)) ->
   allPositive
     (goals (app (snd (GoalEditor.saveGoal parseFloat numberToString type clock error
                         st w))))).
Proof.
  intros U.
  unfold GoalEditor.saveGoal, GoalEditor.handleSave, GoalEditor.isValid.
  destruct (parseFloat (GoalEditor.inputValue st)) as [p|] eqn:P;
    cbn [negb orb fst snd];
    [| repeat split; solve [contradiction | reflexivity | auto]].
  destruct (JsMath.gt p 0) eqn:G; cbn [negb orb fst snd];
    [| repeat split; solve [contradiction | reflexivity | auto]].
  apply gt_spec in G.
  destruct (negb (GoalEditor.hasChanged numberToString
                    (GoalEditor.goalOf type (goals (app w))) st));
    [repeat split; solve [contradiction | reflexivity | auto] |].
  unfold updateGoal. rewrite U.
  destruct error as [e|];
    cbn [fst snd app goals call withApp setGoals GoalEditor.showSaved GoalEditor.isSaving].
  - repeat split; solve [contradiction | reflexivity | auto].
  - split; [| split].
    + intros _. repeat split.
      destruct (withGoal_goalOf type type p (goals (app w))) as [[_ ->] | [N _]];
        [exact G | contradiction].
    + intros N. contradiction.
    + intros A k.
      destruct (withGoal_goalOf type k p (goals (app w))) as [[_ ->] | [_ ->]];
        [exact G | apply A].
Qed.

End GoalEditorSaves.

Lemma goal_editor_saves_positive_goals_witness :
  allPositive
    (goals (app (snd (GoalEditor.saveGoal sampleParseFloat sampleNumberToString
                        proteinGoalKey lateEvening None
                        (GoalEditor.mkEditor "30" false false)
                        (signedIn earlyMorning))))).
Proof.
  apply (goal_editor_saves_positive_goals sampleParseFloat sampleNumberToString
           someUser proteinGoalKey lateEvening None
           (GoalEditor.mkEditor "30" false false) (signedIn earlyMorning) eq_refl).
  intros k. destruct k; reflexivity.
Defined.

(** ** The weight chart *)

Lemma minOf_le (x : Q) (xs : list Q) :
  (JsMath.minOf x xs <= x)%Q /\ (forall y, In y xs -> (JsMath.minOf x xs <= y)%Q).
Proof.
  unfold JsMath.minOf. revert x. induction xs as [|a xs IH]; intros x.
  - split; [apply Qle_refl | intros y []].
  - cbn [fold_left]. destruct (IH (JsMath.min x a)) as [H1 H2].
    destruct (min_spec x a) as [[L E] | [L E]]; rewrite E in *.
    + split; [exact H1 |]. intros y [<- | Hy]; [lra | now apply H2].
    + split; [lra |]. intros y [<- | Hy]; [exact H1 | now apply H2].
Qed.

Lemma maxOf_ge (x : Q) (xs : list Q) :
  (x <= JsMath.maxOf x xs)%Q /\ (forall y, In y xs -> (y <= JsMath.maxOf x xs)%Q).
Proof.
  unfold JsMath.maxOf. revert x. induction xs as [|a xs IH]; intros x.
  - split; [apply Qle_refl | intros y []].
  - cbn [fold_left]. destruct (IH (JsMath.max x a)) as [H1 H2].
    destruct (max_spec x a) as [[L E] | [L E]]; rewrite E in *.
    + split; [lra |]. intros y [<- | Hy]; [exact H1 | now apply H2].
    + split; [exact H1 |]. intros y [<- | Hy]; [lra | now apply H2].
Qed.

Lemma floor_ge (n : Z) (y : Q) : (inject_Z n <= y)%Q -> (n <= Qfloor y)%Z.
Proof. intros H. rewrite <- (Qfloor_Z n). now apply Qfloor_resp_le. Qed.

Lemma floor_lt (m : Z) (y : Q) : (y < inject_Z m)%Q -> (Qfloor y < m)%Z.
Proof.
  intros H. pose proof (Qfloor_le y) as L.
  assert (Q : (inject_Z (Qfloor y) < inject_Z m)%Q) by lra.
  now rewrite <- Zlt_Qlt in Q.
Qed.

Lemma floor_step (a s : Q) : (1 <= s)%Q -> (Qfloor a < Qfloor (a + s))%Z.
Proof.
  intros S. assert (H : (Qfloor a + 1 <= Qfloor (a + s))%Z).
  { apply floor_ge. rewrite inject_Z_plus. change (inject_Z 1) with 1%Q.
    pose proof (Qfloor_le a). lra. }
  lia.
Qed.

(** X25.  The chart is drawn only from two points on.  Its vertical
    axis then leaves at least two units of room below the lightest and
    above the heaviest weight, and its five ticks are distinct and in
    increasing order, from the bottom of the axis to its top. *)
Theorem weight_chart_axis (data : list WeightChart.WeightDataPoint) :
  (WeightChart.axis data = None <-> (List.length data < 2)%nat) /\
  (forall a, WeightChart.axis data = Some a ->
     (forall p, In p data ->
        (inject_Z (WeightChart.yMin a) <= WeightChart.weight p - 2)%Q /\
        (WeightChart.weight p + 2 <= inject_Z (WeightChart.yMax a))%Q) /\
     List.length (WeightChart.yTicks a) = 5%nat /\
     List.hd_error (WeightChart.yTicks a) = Some (WeightChart.yMin a) /\
     List.last (WeightChart.yTicks a) 0%Z = WeightChart.yMax a /\
     WeightChart.increasing (WeightChart.yTicks a)).
Proof.
  unfold WeightChart.axis.
  destruct (Nat.ltb_spec (List.length data) 2) as [L | L].
  { split; [split; auto | intros a E; discriminate E]. }
  destruct data as [|p0 rest]; [simpl in L; lia |].
  change (List.map WeightChart.weight (p0 :: rest))
    with (WeightChart.weight p0 :: List.map WeightChart.weight rest).
  cbv beta iota zeta. split.
  { split; [intros E; discriminate E | intros H; lia]. }
  intros a E.
  match type of E with
  | Some ?t = Some _ => assert (Ea : a = t) by (now injection E)
  end.
  subst a. clear E.
  cbn [WeightChart.yMin WeightChart.yMax WeightChart.yTicks].
  set (ws := List.map WeightChart.weight rest) in *.
  set (w0 := WeightChart.weight p0) in *.
  destruct (minOf_le w0 ws) as [Hmin0 Hmin].
  destruct (maxOf_ge w0 ws) as [Hmax0 Hmax].
  unfold JsMath.floor, JsMath.ceil, JsMath.round.
  pose proof (Qfloor_le (JsMath.minOf w0 ws - 2)) as Lo.
  pose proof (Qle_ceiling (JsMath.maxOf w0 ws + 2)) as Hi.
  set (lo := Qfloor (JsMath.minOf w0 ws - 2)) in *.
  set (hi := Qceiling (JsMath.maxOf w0 ws + 2)) in *.
  assert (Room : forall p, In p (p0 :: rest) ->
            (inject_Z lo <= WeightChart.weight p - 2)%Q /\
            (WeightChart.weight p + 2 <= inject_Z hi)%Q).
  { intros p [<- | Hp].
    - fold w0. split; lra.
    - assert (I : In (WeightChart.weight p) ws) by (unfold ws; now apply in_map).
      specialize (Hmin _ I). specialize (Hmax _ I). split; lra. }
  split; [exact Room |].
  split; [reflexivity |]. split; [reflexivity |]. split; [reflexivity |].
  assert (D : (4 <= inject_Z hi - inject_Z lo)%Q).
  { destruct (Room p0 (or_introl eq_refl)). lra. }
  set (step := ((inject_Z hi - inject_Z lo) / 4)%Q) in *.
  assert (S4 : (4 * step == inject_Z hi - inject_Z lo)%Q) by (unfold step; field).
  assert (S1 : (1 <= step)%Q) by lra.
  cbn [WeightChart.increasing]. repeat split.
  - assert (H : (lo + 1 <= Qfloor (inject_Z lo + step + (1 # 2)))%Z).
    { apply floor_ge. rewrite inject_Z_plus. change (inject_Z 1) with 1%Q. lra. }
    lia.
  - assert (E : (inject_Z lo + 2 * step + (1 # 2) ==
                 (inject_Z lo + step + (1 # 2)) + step)%Q) by ring.
    rewrite E. now apply floor_step.
  - assert (E : (inject_Z lo + 3 * step + (1 # 2) ==
                 (inject_Z lo + 2 * step + (1 # 2)) + step)%Q) by ring.
    rewrite E. now apply floor_step.
  - apply floor_lt. lra.
Qed.

Lemma weight_chart_axis_witness :
  exists a, WeightChart.axis WeightChart.twoPoints = Some a /\
    WeightChart.increasing (WeightChart.yTicks a).
Proof.
  exists (WeightChart.mkAxis 148 154 (148 :: 150 :: 151 :: 153 :: 154 :: nil)%Z).
  split; [reflexivity |].
  apply (weight_chart_axis WeightChart.twoPoints). reflexivity.
Defined.

(** ** Step counts from the sensor *)

Lemma fold_steps (samples : list HealthKit.HealthSample) (start : Q) :
  (fold_left (fun total sample => (total + HealthKit.value sample)%Q) samples start ==
   start + sumQ (List.map HealthKit.value samples))%Q.
Proof.
  revert start. induction samples as [|s samples IH]; intros start.
  - simpl. ring.
  - cbn [fold_left List.map sumQ]. rewrite IH. ring.
Qed.

Lemma sumQ_app (a b : list Q) : (sumQ (a ++ b) == sumQ a + sumQ b)%Q.
Proof.
  induction a as [|x a IH]; cbn [sumQ List.app]; [ring |]. rewrite IH. ring.
Qed.

(** X26.  Reading health data never fails: a read that throws gives an
    empty result with count 0, and otherwise every raw sample is kept,
    in order, with [count] equal to their number.  The step count is
    the sum of the values of all samples returned, 0 when there is none
    or the read throws, and the count over two batches is the sum of
    the counts of each. *)
Theorem step_count_is_the_sum (type : string)
    (answer : option (list HealthKit.CapgoHealthSample))
    (raw more : list HealthKit.CapgoHealthSample) :
  HealthKit.count (HealthKit.queryHealthData type answer) =
    List.length (HealthKit.samples (HealthKit.queryHealthData type answer)) /\
  HealthKit.samples (HealthKit.queryHealthData type None) = nil /\
  List.map HealthKit.value (HealthKit.samples (HealthKit.queryHealthData type (Some raw))) =
    List.map HealthKit.raw_value raw /\
  (HealthKit.getStepCount (Some raw) == sumQ (List.map HealthKit.raw_value raw))%Q /\
  HealthKit.getStepCount None = 0%Q /\
  HealthKit.getStepCount (Some nil) = 0%Q /\
  (HealthKit.getStepCount (Some (raw ++ more)%list) ==
   HealthKit.getStepCount (Some raw) + HealthKit.getStepCount (Some more))%Q.
Proof.
  assert (V : forall l, List.map HealthKit.value (List.map HealthKit.clean l) =
                        List.map HealthKit.raw_value l).
  { intros l. rewrite List.map_map. reflexivity. }
  assert (S : forall l, (HealthKit.getStepCount (Some l) ==
                         sumQ (List.map HealthKit.raw_value l))%Q).
  { intros l. unfold HealthKit.getStepCount, HealthKit.queryHealthData.
    cbn [HealthKit.samples]. rewrite fold_steps, V. ring. }
  split; [destruct answer; reflexivity |].
  split; [reflexivity |].
  split; [apply V |].
  split; [apply S |].
  split; [reflexivity |].
  split; [reflexivity |].
  rewrite !S, List.map_app. apply sumQ_app.
Qed.

(** ** Signing in and signing up *)

Lemma truthy_length (s : string) :
  JsMath.truthy s = true <-> (0 < String.length s)%nat.
Proof. destruct s; simpl; split; intros; solve [discriminate | lia | reflexivity]. Qed.

(** X27.  The sign-in page calls the identity provider exactly when the
    form passes its checks: a missing e-mail or password, a password of
    fewer than six characters, or (when signing up) a confirmation that
    differs, gives an error message on the page and no call at all, and
    leaves the form as typed.  A valid form gives exactly one call,
    with the e-mail and password of the form, and the page is no longer
    submitting when it returns. *)
Theorem auth_page_validates_before_calling (answer : Auth.Answer) (p : Auth.Page) :
  (Auth.formValid p = false ->
   Auth.calls (Auth.handleSubmit answer p) = Auth.calls p /\
   Auth.isError (Auth.error (Auth.handleSubmit answer p)) = true /\
   Auth.successMessage (Auth.handleSubmit answer p) = None /\
   Auth.mode (Auth.handleSubmit answer p) = Auth.mode p /\
   Auth.email (Auth.handleSubmit answer p) = Auth.email p /\
   Auth.password (Auth.handleSubmit answer p) = Auth.password p) /\
  (Auth.formValid p = true ->
   Auth.calls (Auth.handleSubmit answer p) =
     (Auth.calls p ++
      match Auth.mode p with
      | Auth.signin => Auth.SignInWithPassword (Auth.email p) (Auth.password p)
      | Auth.signup => Auth.SignUp (Auth.email p) (Auth.password p)
      end :: nil)%list /\
   Auth.isSubmitting (Auth.handleSubmit answer p) = false /\
   (6 <= String.length (Auth.password p))%nat /\
   (0 < String.length (Auth.email p))%nat).
Proof.
  unfold Auth.formValid, Auth.handleSubmit.
  destruct (JsMath.truthy (Auth.email p)) eqn:E,
           (JsMath.truthy (Auth.password p)) eqn:P; cbn [negb orb andb];
    try (split; [intros _; repeat split | intros H; discriminate H]).
  apply truthy_length in E.
  destruct (Nat.ltb_spec (String.length (Auth.password p)) 6) as [L | L];
    destruct (Nat.leb_spec 6 (String.length (Auth.password p))) as [L' | L'];
    try lia;
    destruct (Auth.mode p) eqn:M;
    try (destruct (String.eqb (Auth.password p) (Auth.confirmPassword p)) eqn:C);
    cbn [negb orb andb];
    (split; [intros H; try discriminate H | intros H; try discriminate H]);
    try (destruct (Auth.isError (Auth.signUp answer)));
    repeat split; auto.
Qed.

Lemma auth_page_validates_before_calling_witness :
  Auth.calls (Auth.handleSubmit Auth.Throws Auth.signupForm) =
  (Auth.SignUp "a@example.com" "secret1" :: nil)%list.
Proof.
  destruct (auth_page_validates_before_calling Auth.Throws Auth.signupForm) as [_ H].
  destruct (H eq_refl) as (C & _). exact C.
Defined.

(** X28.  [signIn] and [signUp] never throw: a provider error comes back
    as its message and an exception as a fixed text.  On the page an
    error and a success message never show together.  The success
    message appears only after a sign-up whose answer carried no
    non-empty message; the page is then back in sign-in mode with both
    password boxes emptied and the e-mail kept.  A provider error whose
    message is empty counts as a success. *)
Theorem auth_page_outcome (answer : Auth.Answer) (p : Auth.Page) :
  (Auth.signIn answer = None <-> answer = Auth.Succeeds) /\
  (Auth.signUp answer = None <-> answer = Auth.Succeeds) /\
  ~ (Auth.error (Auth.handleSubmit answer p) <> None /\
     Auth.successMessage (Auth.handleSubmit answer p) <> None) /\
  (Auth.successMessage (Auth.handleSubmit answer p) <> None ->
   Auth.mode p = Auth.signup /\
   Auth.isError (Auth.signUp answer) = false /\
   Auth.mode (Auth.handleSubmit answer p) = Auth.signin /\
   Auth.password (Auth.handleSubmit answer p) = EmptyString /\
   Auth.confirmPassword (Auth.handleSubmit answer p) = EmptyString /\
   Auth.email (Auth.handleSubmit answer p) = Auth.email p) /\
  (Auth.formValid p = true -> Auth.mode p = Auth.signup ->
   Auth.successMessage (Auth.handleSubmit (Auth.Fails EmptyString) p) <> None).
Proof.
  split; [destruct answer; simpl; split; intros H; congruence |].
  split; [destruct answer; simpl; split; intros H; congruence |].
  assert (Cases :
    (Auth.successMessage (Auth.handleSubmit answer p) = None) \/
    (Auth.error (Auth.handleSubmit answer p) = None /\
     Auth.mode p = Auth.signup /\
     Auth.isError (Auth.signUp answer) = false /\
     Auth.mode (Auth.handleSubmit answer p) = Auth.signin /\
     Auth.password (Auth.handleSubmit answer p) = EmptyString /\
     Auth.confirmPassword (Auth.handleSubmit answer p) = EmptyString /\
     Auth.email (Auth.handleSubmit answer p) = Auth.email p)).
  { unfold Auth.handleSubmit.
    destruct (negb (JsMath.truthy (Auth.email p)) || negb (JsMath.truthy (Auth.password p)));
      [now left |].
    destruct (Auth.mode p) eqn:M.
    - destruct (Nat.ltb (String.length (Auth.password p)) 6); now left.
    - destruct (negb (String.eqb (Auth.password p) (Auth.confirmPassword p)));
        [now left |].
      destruct (Nat.ltb (String.length (Auth.password p)) 6); [now left |].
      destruct (Auth.isError (Auth.signUp answer)) eqn:I; [now left |].
      right. repeat split. }
  split; [| split].
  - intros [He Hs]. destruct Cases as [C | (C & _)]; contradiction.
  - intros Hs. destruct Cases as [C | (_ & C)]; [contradiction | exact C].
  - intros V M. unfold Auth.formValid in V. rewrite M in V.
    apply andb_true_iff in V as [V L]. apply andb_true_iff in V as [V C].
    apply andb_true_iff in V as [E P].
    unfold Auth.handleSubmit. rewrite E, P, M, C. cbn [negb orb].
    destruct (Nat.ltb_spec (String.length (Auth.password p)) 6) as [L' | L'].
    + apply Nat.leb_le in L. lia.
    + cbn. discriminate.
Qed.

Lemma auth_page_outcome_witness :
  Auth.successMessage (Auth.handleSubmit (Auth.Fails EmptyString) Auth.signupForm) <> None.
Proof.
  destruct (auth_page_outcome Auth.Succeeds Auth.signupForm) as (_ & _ & _ & _ & H).
  apply H; reflexivity.
Defined.
